(** * Adaptive strategy backtesting and portfolio allocation

    A shallow embedding of [src/backteste]: the backtest engine
    ([backtest_engine.py]), the strategy evaluator ([strategy_evaluator.py]),
    the strategy portfolio ([strategy_portfolio.py]) and the adaptive
    learning orchestrator ([adaptive_learning.py]).

    The Python code computes on binary64 numbers.  Every function below is
    written once, over a class [Num] of the arithmetic it uses, and is read
    at two instances:
    - [float_Num], the primitive binary64 floats, where the functions run as
      the interpreter runs them (infinities and NaN included);
    - [R_Num], the real numbers, where rounding is absent and the algebraic
      facts about weights can be stated exactly.

    Python dictionaries keep insertion order, and the order decides the order
    of every floating-point sum over a dictionary; they are modelled as
    association lists with unique keys ([PyDict]). *)

From Stdlib Require Import ZArith List String Bool Lia Floats Reals Lra.
From Stdlib Require Import Permutation Sorted.
Import ListNotations.

Set Implicit Arguments.

(* ------------------------------------------------------------------ *)
(** ** Python dictionaries *)

Module PyDict.

Definition t (V : Type) : Type := list (string * V).

Definition empty {V : Type} : t V := [].

(** [d.get(k)] *)
Fixpoint get {V : Type} (d : t V) (k : string) : option V :=
  match d with
  | [] => None
  | (k', v) :: d' => if String.eqb k' k then Some v else get d' k
  end.

(** [k in d] *)
Definition mem {V : Type} (d : t V) (k : string) : bool :=
  match get d k with Some _ => true | None => false end.

(** [d[k] = v]: an existing key keeps its position, a new key goes last. *)
Fixpoint set {V : Type} (d : t V) (k : string) (v : V) : t V :=
  match d with
  | [] => [(k, v)]
  | (k', v') :: d' =>
      if String.eqb k' k then (k', v) :: d' else (k', v') :: set d' k v
  end.

(** [del d[k]] *)
Fixpoint del {V : Type} (d : t V) (k : string) : t V :=
  match d with
  | [] => []
  | (k', v') :: d' =>
      if String.eqb k' k then d' else (k', v') :: del d' k
  end.

Definition keys {V : Type} (d : t V) : list string := map fst d.
Definition values {V : Type} (d : t V) : list V := map snd d.

(** [{key(x): val(x) for x in xs}] *)
Definition comprehension {A V : Type}
    (key : A -> string) (val : A -> V) (xs : list A) : t V :=
  fold_left (fun d x => set d (key x) (val x)) xs empty.

(** Apply [f] to every value, keys and order kept. *)
Definition map_values {V W : Type} (f : string -> V -> W) (d : t V) : t W :=
  map (fun kv => (fst kv, f (fst kv) (snd kv))) d.

End PyDict.

(* ------------------------------------------------------------------ *)
(** ** Numbers *)

(** The arithmetic the code uses.  [fdiv] is the division of numpy scalars:
    it does not raise on a zero divisor. *)
Class Num (F : Type) : Type := {
  fadd : F -> F -> F;
  fsub : F -> F -> F;
  fmul : F -> F -> F;
  fdiv : F -> F -> F;
  fopp : F -> F;
  fabs : F -> F;
  fsqrt : F -> F;
  feqb : F -> F -> bool;
  fltb : F -> F -> bool;
  fleb : F -> F -> bool;
  of_Z : Z -> F
}.

(** [float('inf')] exists in binary64 only. *)
Class HasInf (F : Type) : Type := { finf : F }.

Declare Scope num_scope.
Delimit Scope num_scope with num.
Notation "x + y" := (fadd x y) : num_scope.
Notation "x - y" := (fsub x y) : num_scope.
Notation "x * y" := (fmul x y) : num_scope.
Notation "x / y" := (fdiv x y) : num_scope.
Notation "- x" := (fopp x) : num_scope.
Notation "x =? y" := (feqb x y) : num_scope.
Notation "x <? y" := (fltb x y) : num_scope.
Notation "x <=? y" := (fleb x y) : num_scope.

Definition float_of_Z (z : Z) : float :=
  match z with
  | Z0 => PrimFloat.zero
  | Zpos _ => PrimFloat.of_uint63 (Uint63.of_Z z)
  | Zneg p => PrimFloat.opp (PrimFloat.of_uint63 (Uint63.of_Z (Zpos p)))
  end.

#[export] Instance float_Num : Num float := {
  fadd := PrimFloat.add;
  fsub := PrimFloat.sub;
  fmul := PrimFloat.mul;
  fdiv := PrimFloat.div;
  fopp := PrimFloat.opp;
  fabs := PrimFloat.abs;
  fsqrt := PrimFloat.sqrt;
  feqb := PrimFloat.eqb;
  fltb := PrimFloat.ltb;
  fleb := PrimFloat.leb;
  of_Z := float_of_Z
}.

#[export] Instance float_HasInf : HasInf float := { finf := PrimFloat.infinity }.

Definition Reqb (a b : R) : bool := if Req_dec_T a b then true else false.
Definition Rltb (a b : R) : bool := if Rlt_dec a b then true else false.
Definition Rleb (a b : R) : bool := if Rle_dec a b then true else false.

#[export] Instance R_Num : Num R := {
  fadd := Rplus;
  fsub := Rminus;
  fmul := Rmult;
  fdiv := Rdiv;
  fopp := Ropp;
  fabs := Rabs;
  fsqrt := sqrt;
  feqb := Reqb;
  fltb := Rltb;
  fleb := Rleb;
  of_Z := IZR
}.

Section Numeric.
Context {F : Type} {num : Num F}.
Local Open Scope num_scope.

(** A decimal literal [n/d].  In binary64 the quotient of two exactly
    represented integers is correctly rounded, so [lit 4 10] is the double
    Python reads from [0.4]. *)
Definition lit (n d : Z) : F := of_Z n / of_Z d.

Definition of_nat (n : nat) : F := of_Z (Z.of_nat n).

Definition is_nan (x : F) : bool := negb (x =? x).

(** Python's [x != y] *)
Definition fneqb (x y : F) : bool := negb (x =? y).

(** Python's builtin [min(a, b)]: the later argument wins only when it is
    strictly smaller. *)
Definition py_min (a b : F) : F := if b <? a then b else a.

(** Python's builtin [sum]: left to right, from the integer 0. *)
Definition py_sum (l : list F) : F := fold_left fadd l (of_Z 0).

(** Python's builtin [min] over a non-empty iterable. *)
Definition py_min_list (x : F) (l : list F) : F := fold_left py_min l x.

(** [np.sum] of a one-dimensional array, left to right (numpy adds an
    array of fewer than eight elements in this order). *)
Definition np_sum (l : list F) : F := fold_left fadd l (of_Z 0).

(** [np.mean] *)
Definition np_mean (l : list F) : F := np_sum l / of_nat (List.length l).

(** [np.std(l, ddof=ddof)] *)
Definition np_std (ddof : nat) (l : list F) : F :=
  let arrmean := np_mean l in
  let x := map (fun a => a - arrmean) l in
  let x := map (fun a => a * a) x in
  fsqrt (np_sum x / of_Z (Z.max (Z.of_nat (List.length l) - Z.of_nat ddof) 0)).

(** [np.maximum(a, b)]: the larger one, a NaN if either is. *)
Definition np_maximum (a b : F) : F :=
  if is_nan a then a else if is_nan b then b else if a <? b then b else a.

(** [np.cumprod] *)
Fixpoint cumprod_from (acc : F) (l : list F) : list F :=
  match l with
  | [] => []
  | x :: l' => let acc' := acc * x in acc' :: cumprod_from acc' l'
  end.

Definition np_cumprod (l : list F) : list F :=
  match l with
  | [] => []
  | x :: l' => x :: cumprod_from x l'
  end.

(** [np.maximum.accumulate] *)
Fixpoint maximum_accumulate_from (acc : F) (l : list F) : list F :=
  match l with
  | [] => []
  | x :: l' =>
      let acc' := np_maximum acc x in acc' :: maximum_accumulate_from acc' l'
  end.

Definition np_maximum_accumulate (l : list F) : list F :=
  match l with
  | [] => []
  | x :: l' => x :: maximum_accumulate_from x l'
  end.

(** Python's builtin [max(a, b)]: the later argument wins only when it is
    strictly larger. *)
Definition py_max (a b : F) : F := if a <? b then b else a.

(** Python's builtin [max] over a non-empty iterable. *)
Definition py_max_list (x : F) (l : list F) : F := fold_left py_max l x.

(** [sorted(l, key=key, reverse=True)]: descending by key, entries of equal
    key in their original order.  For keys without NaN this is the only
    stable descending order, whatever the sorting algorithm. *)
Fixpoint insert_desc {A : Type} (key : A -> F) (x : A) (l : list A) : list A :=
  match l with
  | [] => [x]
  | y :: l' => if key x <? key y then y :: insert_desc key x l' else x :: l
  end.

Definition py_sorted_desc {A : Type} (key : A -> F) (l : list A) : list A :=
  fold_right (insert_desc key) [] l.

(** [l[-n:]] for [n > 0] *)
Definition last_n {A : Type} (n : nat) (l : list A) : list A :=
  skipn (List.length l - n) l.

End Numeric.

(* ------------------------------------------------------------------ *)
(** ** Exceptions and strategy objects *)

Inductive error : Type :=
| ValueError
| KeyError
| AttributeError
| ZeroDivisionError
| IndexError.

(** The outcome of a call that may raise. *)
Inductive exc (A : Type) : Type :=
| Ok (a : A)
| Raise (e : error).

Arguments Ok {A} a.
Arguments Raise {A} e.

Definition bind {A B : Type} (m : exc A) (f : A -> exc B) : exc B :=
  match m with
  | Ok a => f a
  | Raise e => Raise e
  end.

Notation "x <- m ;; k" := (bind m (fun x => k))
  (at level 61, m at next level, right associativity).

(** One row of the historical frame: its index label and its close. *)
Record Bar (F : Type) : Type := {
  bar_name : Z;
  close : F
}.

(** [generate_signal] is called with the observed prefix of the frame by the
    engine and with the symbol by the orchestrator. *)
Inductive signal_input (F : Type) : Type :=
| Prefix (data : list (Bar F))
| Symbol (symbol : string).

Arguments Symbol {F} symbol.

(** A strategy object as the core sees it: the attribute [id], the required
    method [generate_signal], and the two optional capabilities
    ([None]/[false] when the object has no such attribute).  Strategies are
    taken to be stateless. *)
Record Strategy (F : Type) : Type := {
  strategy_attr_id : string;
  generate_signal : signal_input F -> F;
  get_confidence : option F;
  has_optimize_parameters : bool
}.

(** [l[start:stop]] with Python's treatment of negative and out-of-range
    bounds. *)
Definition py_slice {A : Type} (start stop : Z) (l : list A) : list A :=
  let n := Z.of_nat (List.length l) in
  let norm := fun i => if (i <? 0)%Z then Z.max (i + n) 0 else Z.min i n in
  let a := norm start in
  let b := norm stop in
  firstn (Z.to_nat (b - a)) (skipn (Z.to_nat a) l).

(* ------------------------------------------------------------------ *)
(** ** backtest_engine.py *)

Module BacktestEngine.

Inductive MarketCondition : Type :=
| BULL
| BEAR
| SIDEWAYS
| VOLATILE
| LOW_VOLATILITY.

Inductive position_type : Type := long | short.

Section WithNum.
Context {F : Type} {num : Num F} {inf : HasInf F}.
Local Open Scope num_scope.

(** The dictionary appended to [trades] when a position closes. *)
Record Trade : Type := {
  entry_time : Z;
  exit_time : Z;
  entry_price : F;
  exit_price : F;
  type : position_type;
  pnl : F
}.

(** The dictionary held in [current_position]. *)
Record Position : Type := {
  pos_type : position_type;
  pos_entry_price : F;
  pos_entry_time : Z;
  pos_size : F
}.

Record BacktestResult : Type := {
  strategy_id : string;
  start_date : Z;
  end_date : Z;
  returns : list F;
  trades : list Trade;
  sharpe_ratio : F;
  max_drawdown : F;
  win_rate : F;
  profit_factor : F;
  risk_adjusted_return : F;
  market_conditions : PyDict.t MarketCondition
}.

(** [calculate_sharpe_ratio(returns, risk_free_rate=0.02)] *)
Definition calculate_sharpe_ratio_rf (returns : list F) (risk_free_rate : F) : F :=
  match returns with
  | [] => of_Z 0
  | _ =>
      let excess_returns :=
        map (fun r => r - risk_free_rate / of_Z 252) returns in
      if (1 <? List.length returns)%nat
      then np_mean excess_returns / np_std 1 excess_returns
           * fsqrt (of_Z 252)
      else of_Z 0
  end.

Definition calculate_sharpe_ratio (returns : list F) : F :=
  calculate_sharpe_ratio_rf returns (lit 2 100).

(** [calculate_max_drawdown] *)
Definition calculate_max_drawdown (returns : list F) : F :=
  match returns with
  | [] => of_Z 0
  | _ =>
      let cumulative := np_cumprod (map (fun r => of_Z 1 + r) returns) in
      let running_max := np_maximum_accumulate cumulative in
      let drawdowns :=
        map (fun cm => fst cm / snd cm - of_Z 1)
            (combine cumulative running_max) in
      match drawdowns with
      | [] => of_Z 0
      | d :: ds => fabs (py_min_list d ds)
      end
  end.

(** [calculate_profit_factor] *)
Definition calculate_profit_factor (trades : list Trade) : F :=
  let profits :=
    py_sum (map pnl (filter (fun t => of_Z 0 <? pnl t) trades)) in
  let losses :=
    py_sum (map (fun t => fabs (pnl t))
                (filter (fun t => pnl t <? of_Z 0) trades)) in
  if fneqb losses (of_Z 0) then profits / losses else finf.

(** [calculate_risk_adjusted_return] *)
Definition calculate_risk_adjusted_return (returns : list F) : F :=
  match returns with
  | [] => of_Z 0
  | _ =>
      np_mean returns /
      (if of_Z 0 <? np_std 0 returns then np_std 0 returns else of_Z 1)
  end.

(** The loop state of [run_backtest]. *)
Record Simulation : Type := {
  positions : list Position;
  sim_trades : list Trade;
  capital : F;
  current_position : option Position
}.

(** One iteration of the loop over the bars; [seen] is [data.iloc[:i+1]]. *)
Definition bar_step (strategy : Strategy F) (st : Simulation)
    (seen : list (Bar F)) (current_bar : Bar F) : Simulation :=
  let signal := generate_signal strategy (Prefix seen) in
  match current_position st with
  | None =>
      if fneqb signal (of_Z 0) then
        let p := {| pos_type := if of_Z 0 <? signal then long else short;
                    pos_entry_price := close current_bar;
                    pos_entry_time := bar_name current_bar;
                    pos_size := capital st * lit 2 100 / close current_bar |} in
        {| positions := positions st ++ [p];
           sim_trades := sim_trades st;
           capital := capital st;
           current_position := Some p |}
      else st
  | Some p =>
      if signal =? of_Z 0 then
        let exit_price := close current_bar in
        let pnl0 := (exit_price - pos_entry_price p) * pos_size p in
        let pnl1 := match pos_type p with
                    | short => pnl0 * of_Z (-1)
                    | long => pnl0
                    end in
        {| positions := positions st;
           sim_trades := sim_trades st ++
             [{| entry_time := pos_entry_time p;
                 exit_time := bar_name current_bar;
                 entry_price := pos_entry_price p;
                 exit_price := exit_price;
                 type := pos_type p;
                 pnl := pnl1 |}];
           capital := capital st + pnl1;
           current_position := None |}
      else st
  end.

Fixpoint simulate (strategy : Strategy F) (seen rest : list (Bar F))
    (st : Simulation) : Simulation :=
  match rest with
  | [] => st
  | current_bar :: rest' =>
      let seen' := seen ++ [current_bar] in
      simulate strategy seen' rest' (bar_step strategy st seen' current_bar)
  end.

(** The branch [detect_market_condition] takes is decided by pandas rolling
    statistics, which are outside this development: [market_regime] stands
    for that decision. *)
Variable market_regime : list (Bar F) -> MarketCondition.

(** [detect_market_condition] with its default [window=20]: the subscript
    [trend.iloc[-window]] raises [IndexError] on a frame of fewer than
    [window] rows. *)
Definition detect_market_condition (data : list (Bar F))
    : exc MarketCondition :=
  if (List.length data <? 20)%nat then Raise IndexError
  else Ok (market_regime data).

(** The loop of [run_backtest] over the bars and the result it builds, the
    dictionary [market_conditions] being computed. *)
Definition backtest_result (strategy : Strategy F) (data : list (Bar F))
    (start_date end_date : Z) (initial_capital : F)
    (market_conditions : PyDict.t MarketCondition) : BacktestResult :=
  let final :=
    simulate strategy [] data
      {| positions := []; sim_trades := [];
         capital := initial_capital; current_position := None |} in
  let trades := sim_trades final in
  let returns := map (fun t => pnl t / initial_capital) trades in
  let winning_trades :=
    List.length (filter (fun t => of_Z 0 <? pnl t) trades) in
  let total_trades := List.length trades in
  {| strategy_id := strategy_attr_id strategy;
     start_date := start_date;
     end_date := end_date;
     returns := returns;
     trades := trades;
     sharpe_ratio := calculate_sharpe_ratio returns;
     max_drawdown := calculate_max_drawdown returns;
     win_rate := if (0 <? total_trades)%nat
                 then of_nat winning_trades / of_nat total_trades
                 else of_Z 0;
     profit_factor := calculate_profit_factor trades;
     risk_adjusted_return := calculate_risk_adjusted_return returns;
     market_conditions := market_conditions |}.

(** The body of [run_backtest] once the frame [data] is loaded: the three
    market conditions are detected first, and a failure there leaves the
    loop unrun. *)
Definition backtest (strategy : Strategy F) (data : list (Bar F))
    (start_date end_date : Z) (initial_capital : F) : exc BacktestResult :=
  let half := (Z.of_nat (List.length data) / 2)%Z in
  at_start <- detect_market_condition (firstn 20 data) ;;
  at_middle <-
    detect_market_condition (py_slice (half - 10) (half + 10) data) ;;
  at_end <- detect_market_condition (last_n 20 data) ;;
  Ok (backtest_result strategy data start_date end_date initial_capital
        [("start"%string, at_start);
         ("middle"%string, at_middle);
         ("end"%string, at_end)]).

(** The engine object: the frames of its dictionary [historical_data],
    keyed by symbol and period, and the latest result per strategy. *)
Record Engine : Type := {
  historical_data : list ((string * Z * Z) * list (Bar F));
  results_cache : PyDict.t BacktestResult
}.

Definition key_eqb (a b : string * Z * Z) : bool :=
  String.eqb (fst (fst a)) (fst (fst b))
  && Z.eqb (snd (fst a)) (snd (fst b))
  && Z.eqb (snd a) (snd b).

(** [load_historical_data] has no loader yet: it subscripts the dictionary
    [historical_data], and a key that is not there is a [KeyError]. *)
Definition load_historical_data (e : Engine) (symbol : string)
    (start_date end_date : Z) : exc (list (Bar F)) :=
  match find (fun kv => key_eqb (fst kv) (symbol, start_date, end_date))
             (historical_data e) with
  | Some kv => Ok (snd kv)
  | None => Raise KeyError
  end.

(** [run_backtest] *)
Definition run_backtest_with (e : Engine) (strategy : Strategy F)
    (symbol : string) (start_date end_date : Z) (initial_capital : F)
    : exc (Engine * BacktestResult) :=
  data <- load_historical_data e symbol start_date end_date ;;
  result <- backtest strategy data start_date end_date initial_capital ;;
  Ok ({| historical_data := historical_data e;
         results_cache :=
           PyDict.set (results_cache e) (strategy_attr_id strategy) result |},
      result).

(** [run_backtest] with the default [initial_capital=100000.0] *)
Definition run_backtest (e : Engine) (strategy : Strategy F)
    (symbol : string) (start_date end_date : Z)
    : exc (Engine * BacktestResult) :=
  run_backtest_with e strategy symbol start_date end_date (of_Z 100000).

(** [calculate_consistency_score] *)
Definition calculate_consistency_score (results : list BacktestResult) : F :=
  match results with
  | [] => of_Z 0
  | _ =>
      let sharpe_scores := map sharpe_ratio results in
      let drawdown_scores := map (fun r => of_Z 1 - max_drawdown r) results in
      let win_rate_scores := map win_rate results in
      let profit_factor_scores :=
        map (fun r => py_min (profit_factor r) (of_Z 3) / of_Z 3) results in
      np_mean sharpe_scores * lit 3 10
      + np_mean drawdown_scores * lit 2 10
      + np_mean win_rate_scores * lit 2 10
      + np_mean profit_factor_scores * lit 3 10
  end.

(** The dictionary [validate_strategy] returns. *)
Record Validation : Type := {
  mean_sharpe : F;
  sharpe_std : F;
  mean_drawdown : F;
  mean_win_rate : F;
  validation_consistency_score : F
}.

(** The loop of [validate_strategy] over the periods; the engine keeps what
    it cached before a failing period. *)
Fixpoint validation_runs (e : Engine) (strategy : Strategy F)
    (symbol : string) (validation_periods : list (Z * Z))
    (results : list BacktestResult) : Engine * exc (list BacktestResult) :=
  match validation_periods with
  | [] => (e, Ok results)
  | (start_date, end_date) :: periods' =>
      match run_backtest e strategy symbol start_date end_date with
      | Ok (e', result) =>
          validation_runs e' strategy symbol periods' (results ++ [result])
      | Raise err => (e, Raise err)
      end
  end.

(** [validate_strategy]: an exception of a run is not caught. *)
Definition validate_strategy (e : Engine) (strategy : Strategy F)
    (symbol : string) (validation_periods : list (Z * Z))
    : Engine * exc Validation :=
  let (e', outcome) := validation_runs e strategy symbol validation_periods [] in
  (e',
   results <- outcome ;;
   let sharpe_ratios := map sharpe_ratio results in
   let drawdowns := map max_drawdown results in
   let win_rates := map win_rate results in
   Ok {| mean_sharpe := np_mean sharpe_ratios;
         sharpe_std := np_std 0 sharpe_ratios;
         mean_drawdown := np_mean drawdowns;
         mean_win_rate := np_mean win_rates;
         validation_consistency_score := calculate_consistency_score results |}).

End WithNum.

Arguments Validation F : clear implicits.
Arguments Trade F : clear implicits.
Arguments Position F : clear implicits.
Arguments BacktestResult F : clear implicits.
Arguments Simulation F : clear implicits.
Arguments Engine F : clear implicits.

End BacktestEngine.

(* ------------------------------------------------------------------ *)
(** ** strategy_evaluator.py *)

Module StrategyEvaluator.

Import BacktestEngine.

Definition MarketCondition_eqb (a b : MarketCondition) : bool :=
  match a, b with
  | BULL, BULL | BEAR, BEAR | SIDEWAYS, SIDEWAYS
  | VOLATILE, VOLATILE | LOW_VOLATILITY, LOW_VOLATILITY => true
  | _, _ => false
  end.

(** The members of the enumeration, in declaration order. *)
Definition all_conditions : list MarketCondition :=
  [BULL; BEAR; SIDEWAYS; VOLATILE; LOW_VOLATILITY].

Section WithNum.
Context {F : Type} {num : Num F}.
Local Open Scope num_scope.

(** The dictionary of averaged metrics, with its five fixed keys. *)
Record Metrics : Type := {
  m_sharpe_ratio : F;
  m_max_drawdown : F;
  m_win_rate : F;
  m_profit_factor : F;
  m_risk_adjusted_return : F
}.

(** The wall-clock [timestamp] is left out: nothing reads it. *)
Record StrategyScore : Type := {
  strategy_id : string;
  overall_score : F;
  performance_metrics : Metrics;
  market_adaptability : list (MarketCondition * F);
  consistency_score : F
}.

Record Evaluator : Type := {
  strategy_scores : PyDict.t StrategyScore;
  historical_scores : PyDict.t (list StrategyScore)
}.

Definition init : Evaluator :=
  {| strategy_scores := PyDict.empty; historical_scores := PyDict.empty |}.

(** [_analyze_market_adaptability] *)
Definition _analyze_market_adaptability
    (backtest_results : list (BacktestResult F))
    : list (MarketCondition * F) :=
  map (fun condition =>
         let scores :=
           flat_map
             (fun result =>
                map (fun _ => BacktestEngine.sharpe_ratio result)
                    (filter (MarketCondition_eqb condition)
                            (PyDict.values
                               (BacktestEngine.market_conditions result))))
             backtest_results in
         (condition,
          match scores with [] => of_Z 0 | _ => np_mean scores end))
      all_conditions.

(** [_calculate_consistency] *)
Definition _calculate_consistency
    (backtest_results : list (BacktestResult F)) : F :=
  if (List.length backtest_results <? 2)%nat then of_Z 0
  else
    let variations :=
      [np_std 0 (map (@BacktestEngine.sharpe_ratio F) backtest_results);
       np_std 0 (map (@BacktestEngine.win_rate F) backtest_results);
       np_std 0 (map (@BacktestEngine.profit_factor F) backtest_results)] in
    np_mean (map (fun var => of_Z 1 / (of_Z 1 + var)) variations).

(** [_calculate_overall_score] *)
Definition _calculate_overall_score (metrics : Metrics)
    (market_adaptability : list (MarketCondition * F)) (consistency : F) : F :=
  let performance_score :=
    py_sum [m_sharpe_ratio metrics * lit 25 100;
            m_max_drawdown metrics * lit 20 100;
            m_win_rate metrics * lit 15 100;
            m_profit_factor metrics * lit 20 100;
            m_risk_adjusted_return metrics * lit 20 100] in
  let adaptability_score := np_mean (map snd market_adaptability) in
  performance_score * lit 5 10
  + adaptability_score * lit 3 10
  + consistency * lit 2 10.

(** [evaluate_strategy] *)
Definition evaluate_strategy (ev : Evaluator)
    (backtest_results : list (BacktestResult F))
    : exc (Evaluator * StrategyScore) :=
  match backtest_results with
  | [] => Raise ValueError
  | first :: _ =>
      let strategy_id := BacktestEngine.strategy_id first in
      let avg_metrics :=
        {| m_sharpe_ratio :=
             np_mean (map (@BacktestEngine.sharpe_ratio F) backtest_results);
           m_max_drawdown :=
             np_mean (map (@BacktestEngine.max_drawdown F) backtest_results);
           m_win_rate :=
             np_mean (map (@BacktestEngine.win_rate F) backtest_results);
           m_profit_factor :=
             np_mean (map (@BacktestEngine.profit_factor F) backtest_results);
           m_risk_adjusted_return :=
             np_mean (map (@BacktestEngine.risk_adjusted_return F)
                          backtest_results) |} in
      let market_adaptability :=
        _analyze_market_adaptability backtest_results in
      let consistency_score := _calculate_consistency backtest_results in
      let overall_score :=
        _calculate_overall_score avg_metrics market_adaptability
                                 consistency_score in
      let score :=
        {| strategy_id := strategy_id;
           overall_score := overall_score;
           performance_metrics := avg_metrics;
           market_adaptability := market_adaptability;
           consistency_score := consistency_score |} in
      let history :=
        match PyDict.get (historical_scores ev) strategy_id with
        | Some h => h
        | None => []
        end in
      Ok ({| strategy_scores :=
               PyDict.set (strategy_scores ev) strategy_id score;
             historical_scores :=
               PyDict.set (historical_scores ev) strategy_id
                          (history ++ [score]) |},
          score)
  end.

(** [get_top_strategies(n)] *)
Definition get_top_strategies (ev : Evaluator) (n : nat) : list StrategyScore :=
  firstn n (py_sorted_desc overall_score (PyDict.values (strategy_scores ev))).

(** [get_strategy_history] *)
Definition get_strategy_history (ev : Evaluator) (strategy_id : string)
    : list StrategyScore :=
  match PyDict.get (historical_scores ev) strategy_id with
  | Some h => h
  | None => []
  end.

(** [np.polyfit(range(len(ys)), ys, 1)[0]] is numpy's least-squares
    solver; the evaluator is parameterised by it. *)
Variable polyfit_slope : list F -> F.

(** [is_strategy_declining(strategy_id, window)] *)
Definition is_strategy_declining_window (ev : Evaluator)
    (strategy_id : string) (window : nat) : bool :=
  let history := get_strategy_history ev strategy_id in
  if (List.length history <? window)%nat then false
  else
    let recent_scores := map overall_score (last_n window history) in
    let trend := polyfit_slope recent_scores in
    trend <? of_Z 0.

(** [is_strategy_declining] with the default [window=5] *)
Definition is_strategy_declining (ev : Evaluator) (strategy_id : string)
    : bool :=
  is_strategy_declining_window ev strategy_id 5.

(** [should_retire_strategy] *)
Definition should_retire_strategy (ev : Evaluator) (strategy_id : string)
    : bool :=
  let history := get_strategy_history ev strategy_id in
  match history with
  | [] => false
  | first :: _ =>
      let current_score := overall_score (last history first) in
      let conditions :=
        [current_score <? lit 3 10;
         is_strategy_declining ev strategy_id;
         (3 <=? List.length history)%nat
         && forallb (fun score => overall_score score <? lit 4 10)
                    (last_n 3 history)] in
      existsb (fun c => c) conditions
  end.

(** The closed form of the least-squares slope of [ys] against
    [0, 1, ..., len(ys)-1]. *)
Definition ols_slope (ys : list F) : F :=
  let xs := map of_nat (seq 0 (List.length ys)) in
  let xbar := np_mean xs in
  let ybar := np_mean ys in
  np_sum (map (fun xy => (fst xy - xbar) * (snd xy - ybar)) (combine xs ys))
  / np_sum (map (fun x => (x - xbar) * (x - xbar)) xs).

End WithNum.

Arguments Metrics F : clear implicits.
Arguments StrategyScore F : clear implicits.
Arguments Evaluator F : clear implicits.

End StrategyEvaluator.

(* ------------------------------------------------------------------ *)
(** ** strategy_portfolio.py *)

Module StrategyPortfolio.

Import StrategyEvaluator.

Section WithNum.
Context {F : Type} {num : Num F}.
Local Open Scope num_scope.

(** The wall-clock [last_update] is left out: nothing reads it. *)
Record StrategyAllocation : Type := {
  alloc_strategy_id : string;
  weight : F;
  max_allocation : F;
  current_allocation : F;
  alloc_performance_metrics : Metrics F
}.

(** One entry of the ['allocations'] dictionary of a recorded state. *)
Record AllocationState : Type := {
  state_weight : F;
  state_allocation : F;
  state_metrics : Metrics F
}.

(** A dictionary appended to [historical_performance]. *)
Record PortfolioState : Type := {
  total_capital : F;
  allocated_capital : F;
  n_strategies : nat;
  state_allocations : PyDict.t AllocationState
}.

Record Portfolio : Type := {
  initial_capital : F;
  current_capital : F;
  allocations : PyDict.t StrategyAllocation;
  historical_performance : list PortfolioState;
  min_score_threshold : F
}.

(** [StrategyPortfolio(initial_capital)] *)
Definition init (initial_capital : F) : Portfolio :=
  {| initial_capital := initial_capital;
     current_capital := initial_capital;
     allocations := PyDict.empty;
     historical_performance := [];
     min_score_threshold := lit 4 10 |}.

(** [np.full((n, n), 0.2)] followed by [np.fill_diagonal(_, 1.0)] *)
Definition correlation_matrix (n : nat) : list (list F) :=
  map (fun i =>
         map (fun j => if Nat.eqb i j then of_Z 1 else lit 2 10) (seq 0 n))
      (seq 0 n).

(** [np.outer(u, v)] *)
Definition np_outer (u v : list F) : list (list F) :=
  map (fun a => map (fun b => a * b) v) u.

(** The elementwise product of two matrices. *)
Definition mat_mul_elementwise (a b : list (list F)) : list (list F) :=
  map (fun rs => map (fun xy => fst xy * snd xy) (combine (fst rs) (snd rs)))
      (combine a b).

(** [np.diag] of a square matrix *)
Definition np_diag (m : list (list F)) : list F :=
  map (fun ir => nth (fst ir) (snd ir) (of_Z 0))
      (combine (seq 0 (List.length m)) m).

(** The array of weights [_optimize_weights] zips with the strategies. *)
Definition optimized_weight_array (strategies : list (StrategyScore F))
    : list F :=
  let n_strategies := List.length strategies in
  let correlation := correlation_matrix n_strategies in
  let variances :=
    map (fun s =>
           m_max_drawdown (performance_metrics s)
           * m_max_drawdown (performance_metrics s))
        strategies in
  let covariance :=
    mat_mul_elementwise
      (np_outer (map fsqrt variances) (map fsqrt variances)) correlation in
  let weights := map (fun d => of_Z 1 / fsqrt d) (np_diag covariance) in
  map (fun w => w / np_sum weights) weights.

(** [_optimize_weights]; the unused [returns] array is left out. *)
Definition _optimize_weights (strategies : list (StrategyScore F))
    : PyDict.t F :=
  match strategies with
  | [] => PyDict.empty
  | _ =>
      PyDict.comprehension (fun sw => strategy_id (fst sw)) snd
        (combine strategies (optimized_weight_array strategies))
  end.

(** [_record_portfolio_state] *)
Definition _record_portfolio_state (p : Portfolio) : Portfolio :=
  let total_allocation :=
    py_sum (map current_allocation (PyDict.values (allocations p))) in
  let state :=
    {| total_capital := current_capital p;
       allocated_capital := total_allocation;
       n_strategies := List.length (allocations p);
       state_allocations :=
         PyDict.map_values
           (fun _ alloc =>
              {| state_weight := weight alloc;
                 state_allocation := current_allocation alloc;
                 state_metrics := alloc_performance_metrics alloc |})
           (allocations p) |} in
  {| initial_capital := initial_capital p;
     current_capital := current_capital p;
     allocations := allocations p;
     historical_performance := historical_performance p ++ [state];
     min_score_threshold := min_score_threshold p |}.

(** [_handle_strategy_removal] *)
Definition _handle_strategy_removal (p : Portfolio) (strategy_id : string)
    : Portfolio :=
  match PyDict.get (allocations p) strategy_id with
  | Some allocation =>
      {| initial_capital := initial_capital p;
         current_capital := current_capital p + current_allocation allocation;
         allocations := allocations p;
         historical_performance := historical_performance p;
         min_score_threshold := min_score_threshold p |}
  | None => p
  end.

(** [update_portfolio].  The removed identifiers are visited in the order
    of the old allocation dictionary. *)
Definition update_portfolio (p : Portfolio)
    (strategy_scores : list (StrategyScore F)) : Portfolio :=
  let valid_strategies :=
    filter (fun score => min_score_threshold p <=? overall_score score)
           strategy_scores in
  match valid_strategies with
  | [] => p
  | default :: _ =>
      let weights := _optimize_weights valid_strategies in
      let new_allocations :=
        PyDict.map_values
          (fun strategy w =>
             let score :=
               match find (fun s => String.eqb (strategy_id s) strategy)
                          valid_strategies with
               | Some s => s
               | None => default
               end in
             {| alloc_strategy_id := strategy;
                weight := w;
                max_allocation := py_min (lit 25 100) (w * lit 15 10);
                current_allocation := current_capital p * w;
                alloc_performance_metrics := performance_metrics score |})
          weights in
      let removed_strategies :=
        filter (fun k => negb (PyDict.mem new_allocations k))
               (PyDict.keys (allocations p)) in
      let p1 := fold_left _handle_strategy_removal removed_strategies p in
      _record_portfolio_state
        {| initial_capital := initial_capital p1;
           current_capital := current_capital p1;
           allocations := new_allocations;
           historical_performance := historical_performance p1;
           min_score_threshold := min_score_threshold p1 |}
  end.

(** [get_allocation_for_strategy] *)
Definition get_allocation_for_strategy (p : Portfolio) (strategy_id : string)
    : option StrategyAllocation :=
  PyDict.get (allocations p) strategy_id.

(** [adjust_allocation] *)
Definition adjust_allocation (p : Portfolio) (strategy_id : string)
    (new_weight : F) : Portfolio :=
  if negb (PyDict.mem (allocations p) strategy_id) then p
  else
    let new_weight := py_min new_weight (lit 25 100) in
    let total_other_weight :=
      py_sum (map (fun kv => weight (snd kv))
                  (filter (fun kv => negb (String.eqb (fst kv) strategy_id))
                          (allocations p))) in
    let allocations1 :=
      if of_Z 0 <? total_other_weight then
        let scale_factor := (of_Z 1 - new_weight) / total_other_weight in
        PyDict.map_values
          (fun sid alloc =>
             if negb (String.eqb sid strategy_id) then
               let w := weight alloc * scale_factor in
               {| alloc_strategy_id := alloc_strategy_id alloc;
                  weight := w;
                  max_allocation := max_allocation alloc;
                  current_allocation := current_capital p * w;
                  alloc_performance_metrics :=
                    alloc_performance_metrics alloc |}
             else alloc)
          (allocations p)
      else allocations p in
    let allocations2 :=
      PyDict.map_values
        (fun sid alloc =>
           if String.eqb sid strategy_id then
             {| alloc_strategy_id := alloc_strategy_id alloc;
                weight := new_weight;
                max_allocation := max_allocation alloc;
                current_allocation := current_capital p * new_weight;
                alloc_performance_metrics :=
                  alloc_performance_metrics alloc |}
           else alloc)
        allocations1 in
    _record_portfolio_state
      {| initial_capital := initial_capital p;
         current_capital := current_capital p;
         allocations := allocations2;
         historical_performance := historical_performance p;
         min_score_threshold := min_score_threshold p |}.

(** The sum of the weights over the current allocations, in dictionary
    order: the quantity the weight invariant is about. *)
Definition total_weight (p : Portfolio) : F :=
  py_sum (map weight (PyDict.values (allocations p))).

(** The dictionary [get_portfolio_metrics] returns for a non-empty
    allocation map. *)
Record PortfolioMetrics : Type := {
  pm_sharpe_ratio : F;
  pm_max_drawdown : F;
  pm_win_rate : F;
  pm_profit_factor : F;
  pm_n_strategies : nat;
  pm_total_allocation : F;
  pm_max_strategy_weight : F
}.

(** The accumulation of one weighted metric over the allocations. *)
Definition weighted_metric (metric : Metrics F -> F)
    (allocs : list StrategyAllocation) : F :=
  fold_left
    (fun acc alloc => acc + metric (alloc_performance_metrics alloc) * weight alloc)
    allocs (of_Z 0).

(** [get_portfolio_metrics]: [None] stands for the empty dictionary. *)
Definition get_portfolio_metrics (p : Portfolio) : option PortfolioMetrics :=
  match PyDict.values (allocations p) with
  | [] => None
  | first :: rest =>
      let allocs := first :: rest in
      Some {| pm_sharpe_ratio := weighted_metric (@m_sharpe_ratio F) allocs;
              pm_max_drawdown := weighted_metric (@m_max_drawdown F) allocs;
              pm_win_rate := weighted_metric (@m_win_rate F) allocs;
              pm_profit_factor := weighted_metric (@m_profit_factor F) allocs;
              pm_n_strategies := List.length (allocations p);
              pm_total_allocation := py_sum (map current_allocation allocs);
              pm_max_strategy_weight :=
                py_max_list (weight first) (map weight rest) |}
  end.

(** [get_strategy_ranking] *)
Definition get_strategy_ranking (p : Portfolio) : list (string * F) :=
  py_sorted_desc snd
    (map (fun kv => (fst kv, weight (snd kv))) (allocations p)).

End WithNum.

Arguments PortfolioMetrics F : clear implicits.
Arguments StrategyAllocation F : clear implicits.
Arguments AllocationState F : clear implicits.
Arguments PortfolioState F : clear implicits.
Arguments Portfolio F : clear implicits.

End StrategyPortfolio.

(* ------------------------------------------------------------------ *)
(** ** adaptive_learning.py *)

Module AdaptiveLearningSystem.

Import BacktestEngine StrategyEvaluator StrategyPortfolio.

Inductive action : Type := BUY | SELL | HOLD.

Section WithNum.
Context {F : Type} {num : Num F} {inf : HasInf F}.
Local Open Scope num_scope.

Record System : Type := {
  backtest_engine : Engine F;
  evaluator : Evaluator F;
  portfolio : Portfolio F;
  strategies : PyDict.t (Strategy F)
}.

(** [AdaptiveLearningSystem(initial_capital)]: a fresh engine, which holds
    no frame, a fresh evaluator and a fresh portfolio. *)
Definition init (initial_capital : F) : System :=
  {| backtest_engine :=
       {| historical_data := []; results_cache := PyDict.empty |};
     evaluator := StrategyEvaluator.init;
     portfolio := StrategyPortfolio.init initial_capital;
     strategies := PyDict.empty |}.

(** [add_strategy]: [constructed] is the outcome of
    the constructor call; a failure is logged and raised again. *)
Definition add_strategy (sys : System) (strategy_id : string)
    (constructed : exc (Strategy F)) : exc System :=
  strategy <- constructed ;;
  Ok {| backtest_engine := backtest_engine sys;
        evaluator := evaluator sys;
        portfolio := portfolio sys;
        strategies := PyDict.set (strategies sys) strategy_id strategy |}.

Variable market_regime : list (Bar F) -> MarketCondition.

(** The loop of [evaluate_strategy] over the periods: the engine keeps
    what it cached before a failing period. *)
Fixpoint run_periods (e : Engine F) (strategy : Strategy F)
    (symbol : string) (periods : list (Z * Z))
    (results : list (BacktestResult F))
    : Engine F * exc (list (BacktestResult F)) :=
  match periods with
  | [] => (e, Ok results)
  | (start_date, end_date) :: periods' =>
      match run_backtest market_regime e strategy symbol
                         start_date end_date with
      | Ok (e', result) =>
          run_periods e' strategy symbol periods' (results ++ [result])
      | Raise err => (e, Raise err)
      end
  end.

(** [evaluate_strategy] *)
Definition evaluate_strategy (sys : System) (strategy_id : string)
    (symbol : string) (periods : list (Z * Z)) : System * bool :=
  match PyDict.get (strategies sys) strategy_id with
  | None => (sys, false)
  | Some strategy =>
      let (e', outcome) :=
        run_periods (backtest_engine sys) strategy symbol periods [] in
      match results <- outcome ;;
            StrategyEvaluator.evaluate_strategy (evaluator sys) results with
      | Ok (ev', score) =>
          let should_keep := lit 4 10 <=? overall_score score in
          ({| backtest_engine := e';
              evaluator := ev';
              portfolio := portfolio sys;
              strategies := strategies sys |}, should_keep)
      | Raise _ =>
          ({| backtest_engine := e';
              evaluator := evaluator sys;
              portfolio := portfolio sys;
              strategies := strategies sys |}, false)
      end
  end.

(** [update_portfolio]; the metrics it then reads are only logged. *)
Definition update_portfolio (sys : System) : System :=
  let scores :=
    filter (fun score => lit 4 10 <=? overall_score score)
           (PyDict.values (strategy_scores (evaluator sys))) in
  {| backtest_engine := backtest_engine sys;
     evaluator := evaluator sys;
     portfolio := StrategyPortfolio.update_portfolio (portfolio sys) scores;
     strategies := strategies sys |}.

(** An entry of [recommendations]. *)
Record Contribution : Type := {
  signal : F;
  contribution_weight : F;
  confidence : F
}.

(** The dictionary [get_strategy_recommendation] returns; the key
    ['contributing_strategies'] is absent from the two fallback returns. *)
Record Recommendation : Type := {
  rec_action : action;
  rec_confidence : F;
  contributing_strategies : option (PyDict.t Contribution)
}.

Definition hold_fallback : Recommendation :=
  {| rec_action := HOLD;
     rec_confidence := of_Z 0;
     contributing_strategies := None |}.

(** The quotient [a / b] of [get_strategy_recommendation] depends on the
    run-time type of its operands, which the numbers of this development
    do not carry: between two Python numbers a zero divisor raises
    [ZeroDivisionError]; as soon as one operand is a numpy scalar, as the
    weights are that [update_portfolio] writes, the quotient is the IEEE
    one, an infinity or a NaN on a zero divisor.  [python_numbers] says
    which of the two a call meets. *)
Variable python_numbers : bool.

Definition py_div (a b : F) : exc F :=
  if python_numbers && (b =? of_Z 0) then Raise ZeroDivisionError
  else Ok (a / b).

(** The loop of [get_strategy_recommendation] over the registry. *)
Fixpoint collect_recommendations (p : Portfolio F) (symbol : string)
    (registry : list (string * Strategy F))
    (recommendations : PyDict.t Contribution) (total_weight : F)
    : exc (PyDict.t Contribution * F) :=
  match registry with
  | [] => Ok (recommendations, total_weight)
  | (strategy_id, strategy) :: registry' =>
      match get_allocation_for_strategy p strategy_id with
      | Some allocation =>
          let signal := generate_signal strategy (Symbol symbol) in
          if fneqb signal (of_Z 0) then
            match get_confidence strategy with
            | None => Raise AttributeError
            | Some c =>
                collect_recommendations p symbol registry'
                  (PyDict.set recommendations strategy_id
                     {| signal := signal;
                        contribution_weight := weight allocation;
                        confidence := c |})
                  (total_weight + weight allocation)
            end
          else
            collect_recommendations p symbol registry'
              recommendations total_weight
      | None =>
          collect_recommendations p symbol registry'
            recommendations total_weight
      end
  end.

(** The body of the [try] block of [get_strategy_recommendation]. *)
Definition recommendation_body (sys : System) (symbol : string)
    : exc Recommendation :=
  collected <- collect_recommendations (portfolio sys) symbol
                 (strategies sys) PyDict.empty (of_Z 0) ;;
  let (recommendations, total_weight) := collected in
  match recommendations with
  | [] => Ok hold_fallback
  | _ =>
      weighted_signal <-
        py_div
          (py_sum (map (fun r => signal r * contribution_weight r
                                 * confidence r)
                       (PyDict.values recommendations)))
          total_weight ;;
      let action :=
        if lit 2 10 <? weighted_signal then BUY
        else if weighted_signal <? - lit 2 10 then SELL
        else HOLD in
      Ok {| rec_action := action;
            rec_confidence := fabs weighted_signal;
            contributing_strategies := Some recommendations |}
  end.

(** [get_strategy_recommendation] *)
Definition get_strategy_recommendation (sys : System) (symbol : string)
    : Recommendation :=
  match recommendation_body sys symbol with
  | Ok r => r
  | Raise _ => hold_fallback
  end.

(** [retire_strategy] *)
Definition retire_strategy (sys : System) (strategy_id : string) : System :=
  if PyDict.mem (strategies sys) strategy_id then
    let p1 :=
      if PyDict.mem (allocations (portfolio sys)) strategy_id
      then adjust_allocation (portfolio sys) strategy_id (of_Z 0)
      else portfolio sys in
    update_portfolio
      {| backtest_engine := backtest_engine sys;
         evaluator := evaluator sys;
         portfolio := p1;
         strategies := PyDict.del (strategies sys) strategy_id |}
  else sys.

(** [adapt_strategy_parameters]: strategies being stateless, a call of
    [optimize_parameters] leaves the system as it is. *)
Definition adapt_strategy_parameters (sys : System) (strategy_id : string)
    : System := sys.

Variable polyfit_slope : list F -> F.

(** [run_maintenance] *)
Definition run_maintenance (sys : System) : System :=
  update_portfolio
    (fold_left
       (fun s strategy_id =>
          if should_retire_strategy polyfit_slope (evaluator s) strategy_id
          then retire_strategy s strategy_id
          else adapt_strategy_parameters s strategy_id)
       (PyDict.keys (strategies sys)) sys).

(** An entry of ['top_strategies']. *)
Record TopStrategy : Type := {
  top_id : string;
  top_weight : F;
  top_allocation : F
}.

(** The dictionary [get_system_status] returns. *)
Record SystemStatus : Type := {
  active_strategies : nat;
  portfolio_metrics : option (PortfolioMetrics F);
  top_strategies : list TopStrategy
}.

(** The list comprehension of [get_system_status]: the subscript
    [allocations[sid]] raises [KeyError] on a missing identifier. *)
Fixpoint top_entries (p : Portfolio F) (ranking : list (string * F))
    : exc (list TopStrategy) :=
  match ranking with
  | [] => Ok []
  | (sid, w) :: ranking' =>
      match PyDict.get (allocations p) sid with
      | Some alloc =>
          rest <- top_entries p ranking' ;;
          Ok ({| top_id := sid;
                 top_weight := w;
                 top_allocation := current_allocation alloc |} :: rest)
      | None => Raise KeyError
      end
  end.

(** [get_system_status] *)
Definition get_system_status (sys : System) : exc SystemStatus :=
  top <- top_entries (portfolio sys)
           (firstn 5 (get_strategy_ranking (portfolio sys))) ;;
  Ok {| active_strategies := List.length (strategies sys);
        portfolio_metrics := get_portfolio_metrics (portfolio sys);
        top_strategies := top |}.

(** The states reached from a fresh system by the public methods of the
    orchestrator and by [evaluate_strategy] of its evaluator, which a client
    calls on the attribute [evaluator] with results of its own: the engine
    of a fresh system holding no frame, the orchestrator's own
    [evaluate_strategy] caches no score. *)
Inductive reachable : System -> Prop :=
| reach_init : forall initial_capital,
    reachable (init initial_capital)
| reach_evaluator : forall sys backtest_results ev' score,
    reachable sys ->
    StrategyEvaluator.evaluate_strategy (evaluator sys) backtest_results
      = Ok (ev', score) ->
    reachable {| backtest_engine := backtest_engine sys;
                 evaluator := ev';
                 portfolio := portfolio sys;
                 strategies := strategies sys |}
| reach_add_strategy : forall sys strategy_id constructed sys',
    reachable sys ->
    add_strategy sys strategy_id constructed = Ok sys' ->
    reachable sys'
| reach_evaluate_strategy : forall sys strategy_id symbol periods,
    reachable sys ->
    reachable (fst (evaluate_strategy sys strategy_id symbol periods))
| reach_update_portfolio : forall sys,
    reachable sys -> reachable (update_portfolio sys)
| reach_retire_strategy : forall sys strategy_id,
    reachable sys -> reachable (retire_strategy sys strategy_id)
| reach_run_maintenance : forall sys,
    reachable sys -> reachable (run_maintenance sys).

End WithNum.

Arguments System F : clear implicits.
Arguments TopStrategy F : clear implicits.
Arguments SystemStatus F : clear implicits.
Arguments Contribution F : clear implicits.
Arguments Recommendation F : clear implicits.

End AdaptiveLearningSystem.

(* ------------------------------------------------------------------ *)
(** ** The recommendation as the specification words it *)

Module RecommendationSpec.

Import StrategyPortfolio AdaptiveLearningSystem.

Section WithNum.
Context {F : Type} {num : Num F}.
Local Open Scope num_scope.

(** The contributing strategies, as triples of signal, weight and
    confidence: the registered strategies that hold an allocation and
    return a non-zero signal; a strategy without the confidence
    capability counts with confidence one. *)
Definition contributing (sys : System F) (symbol : string)
    : list (F * F * F) :=
  flat_map
    (fun entry =>
       match get_allocation_for_strategy (portfolio sys) (fst entry) with
       | Some allocation =>
           let s := generate_signal (snd entry) (Symbol symbol) in
           if fneqb s (of_Z 0)
           then [(s, weight allocation,
                  match get_confidence (snd entry) with
                  | Some c => c
                  | None => of_Z 1
                  end)]
           else []
       | None => []
       end)
    (strategies sys).

(** What one registry entry adds to the dictionary [recommendations] of the
    code, when its strategy has the confidence capability. *)
Definition entry_contribution (p : Portfolio F) (symbol : string)
    (entry : string * Strategy F) : list (string * Contribution F) :=
  match get_allocation_for_strategy p (fst entry) with
  | Some allocation =>
      let s := generate_signal (snd entry) (Symbol symbol) in
      if fneqb s (of_Z 0)
      then [(fst entry,
             {| signal := s;
                contribution_weight := weight allocation;
                confidence := match get_confidence (snd entry) with
                              | Some c => c
                              | None => of_Z 1
                              end |})]
      else []
  | None => []
  end.

(** Every contributing strategy provides [get_confidence]. *)
Definition contributors_have_confidence (sys : System F) (symbol : string)
    : bool :=
  forallb
    (fun entry =>
       match get_allocation_for_strategy (portfolio sys) (fst entry) with
       | Some _ =>
           if fneqb (generate_signal (snd entry) (Symbol symbol)) (of_Z 0)
           then match get_confidence (snd entry) with
                | Some _ => true
                | None => false
                end
           else true
       | None => true
       end)
    (strategies sys).

(** The sum of the weights of the contributing strategies. *)
Definition contributing_weight (sys : System F) (symbol : string) : F :=
  py_sum (map (fun t => snd (fst t)) (contributing sys symbol)).

(** The sum of signal times weight times confidence over the sum of the
    weights. *)
Definition weighted_signal (sys : System F) (symbol : string) : F :=
  py_sum (map (fun t => fst (fst t) * snd (fst t) * snd t)
              (contributing sys symbol))
  / contributing_weight sys symbol.

(** BUY above 0.2, SELL below -0.2, HOLD otherwise. *)
Definition action_of (weighted_signal : F) : action :=
  if lit 2 10 <? weighted_signal then BUY
  else if weighted_signal <? - lit 2 10 then SELL
  else HOLD.

(** The recommended action and its confidence. *)
Definition recommend (sys : System F) (symbol : string) : action * F :=
  match contributing sys symbol with
  | [] => (HOLD, of_Z 0)
  | _ => (action_of (weighted_signal sys symbol),
          fabs (weighted_signal sys symbol))
  end.

End WithNum.

End RecommendationSpec.

(* ------------------------------------------------------------------ *)
(** ** Concrete inputs *)

Module Examples.

Import BacktestEngine StrategyEvaluator StrategyPortfolio
       AdaptiveLearningSystem.

Section WithNum.
Context {F : Type} {num : Num F}.

(** Averaged metrics with the drawdown [dd]. *)
Definition metrics_of (dd : F) : Metrics F :=
  {| m_sharpe_ratio := of_Z 1;
     m_max_drawdown := dd;
     m_win_rate := lit 1 2;
     m_profit_factor := lit 3 2;
     m_risk_adjusted_return := lit 3 10 |}.

(** A score of the strategy [sid] with the overall score [overall] and
    the drawdown [dd]. *)
Definition score_of (sid : string) (overall dd : F) : StrategyScore F :=
  {| StrategyEvaluator.strategy_id := sid;
     overall_score := overall;
     performance_metrics := metrics_of dd;
     market_adaptability := [];
     consistency_score := of_Z 0 |}.

(** A fresh portfolio of one million. *)
Definition fresh : Portfolio F := StrategyPortfolio.init (of_Z 1000000).

(** The portfolio after one update with the single strategy ["a"]. *)
Definition one_strategy : Portfolio F :=
  StrategyPortfolio.update_portfolio fresh
    [score_of "a" (lit 5 10) (lit 1 10)].

(** The portfolio after one update with three strategies of equal
    drawdown. *)
Definition three_equal : Portfolio F :=
  StrategyPortfolio.update_portfolio fresh
    [score_of "a" (lit 5 10) (lit 1 10);
     score_of "b" (lit 5 10) (lit 1 10);
     score_of "c" (lit 5 10) (lit 1 10)].

(** An evaluator whose only strategy ["s"] has the overall scores
    [overalls], oldest first. *)
Definition evaluator_with_history (overalls : list F) : Evaluator F :=
  let history := map (fun o => score_of "s" o (lit 1 10)) overalls in
  {| strategy_scores :=
       match history with
       | [] => PyDict.empty
       | first :: _ => [("s"%string, last history first)]
       end;
     historical_scores := [("s"%string, history)] |}.

(** The history [0.5, 0.45, 0.38, 0.30, 0.25]. *)
Definition declining_history : list F :=
  [lit 50 100; lit 45 100; lit 38 100; lit 30 100; lit 25 100].

(** A strategy that never signals. *)
Definition silent_strategy : Strategy F :=
  {| strategy_attr_id := "a";
     generate_signal := fun _ => of_Z 0;
     get_confidence := Some (of_Z 1);
     has_optimize_parameters := false |}.

(** A strategy that always signals a buy and has no [get_confidence]. *)
Definition mute_strategy : Strategy F :=
  {| strategy_attr_id := "a";
     generate_signal := fun _ => of_Z 1;
     get_confidence := None;
     has_optimize_parameters := false |}.

(** A strategy with the constant live signal [s] and confidence [c]. *)
Definition constant_strategy (sid : string) (s c : F) : Strategy F :=
  {| strategy_attr_id := sid;
     generate_signal := fun _ => s;
     get_confidence := Some c;
     has_optimize_parameters := false |}.

(** The frame of the closes [closes], indexed from 0. *)
Definition frame_of (closes : list Z) : list (Bar F) :=
  map (fun row => {| bar_name := Z.of_nat (fst row);
                     close := of_Z (snd row) |})
      (combine (seq 0 (List.length closes)) closes).

(** Two bars: too short a frame for [detect_market_condition]. *)
Definition two_bars : list (Bar F) := frame_of [100; 101]%Z.

(** Twenty bars with rising closes. *)
Definition rising_bars : list (Bar F) :=
  frame_of [100; 101; 102; 103; 104; 105; 106; 107; 108; 109;
            110; 111; 112; 113; 114; 115; 116; 117; 118; 119]%Z.

(** A regime decision that always answers sideways. *)
Definition always_sideways : list (Bar F) -> MarketCondition :=
  fun _ => SIDEWAYS.

(** A system with the registry [registry] and the portfolio [p], nothing
    evaluated yet. *)
Definition system_with (registry : PyDict.t (Strategy F)) (p : Portfolio F)
    : System F :=
  {| backtest_engine :=
       {| historical_data := []; results_cache := PyDict.empty |};
     evaluator := StrategyEvaluator.init;
     portfolio := p;
     strategies := registry |}.

(** Three qualifying scores with a drawdown of zero. *)
Definition zero_drawdown_scores : list (StrategyScore F) :=
  [score_of "a" (lit 5 10) (of_Z 0);
   score_of "b" (lit 5 10) (of_Z 0);
   score_of "c" (lit 5 10) (of_Z 0)].

(** A portfolio of one million holding the weights [ws]. *)
Definition portfolio_of_weights (ws : list (string * F)) : Portfolio F :=
  {| initial_capital := of_Z 1000000;
     current_capital := of_Z 1000000;
     allocations :=
       PyDict.map_values
         (fun sid w =>
            {| alloc_strategy_id := sid;
               weight := w;
               max_allocation := py_min (lit 25 100) (fmul w (lit 15 10));
               current_allocation := fmul (of_Z 1000000) w;
               alloc_performance_metrics := metrics_of (lit 1 10) |})
         ws;
     historical_performance := [];
     min_score_threshold := lit 4 10 |}.

(** Strategy A (weight 0.6, signal 1, confidence 0.8) and strategy B
    (weight 0.4, signal -1, confidence 0.5). *)
Definition two_opinions : System F :=
  system_with
    [("A"%string, constant_strategy "A" (of_Z 1) (lit 8 10));
     ("B"%string, constant_strategy "B" (of_Z (-1)) (lit 5 10))]
    (portfolio_of_weights
       [("A"%string, lit 6 10); ("B"%string, lit 4 10)]).

(** A strategy that signals a buy on every odd-length prefix and nothing on
    every even-length one: it opens on one bar and closes on the next. *)
Definition alternating_strategy : Strategy F :=
  {| strategy_attr_id := "A";
     generate_signal :=
       fun input =>
         match input with
         | Prefix data => if Nat.even (List.length data) then of_Z 0 else of_Z 1
         | Symbol _ => of_Z 1
         end;
     get_confidence := Some (lit 9 10);
     has_optimize_parameters := false |}.

(** Twenty bars: gains and losses in turn for the alternating strategy. *)
Definition swing_bars : list (Bar F) :=
  frame_of [100; 110; 110; 100; 100; 120; 120; 115; 100; 105;
            105; 100; 100; 110; 110; 108; 100; 104; 104; 106]%Z.

(** An engine whose dictionary of frames holds the twenty swinging bars for
    the period 0 to 19 and the two bars for the period 20 to 21. *)
Definition loaded_engine : Engine F :=
  {| historical_data :=
       [(("SYM"%string, 0%Z, 19%Z), swing_bars);
        (("SYM"%string, 20%Z, 21%Z), two_bars)];
     results_cache := PyDict.empty |}.

(** A result of the strategy [sid] with the Sharpe ratio [sharpe], observed
    under the regime [regime] throughout. *)
Definition result_of (sid : string) (sharpe : F) (regime : MarketCondition)
    : BacktestResult F :=
  {| BacktestEngine.strategy_id := sid;
     start_date := 0;
     end_date := 1;
     returns := [];
     trades := [];
     BacktestEngine.sharpe_ratio := sharpe;
     BacktestEngine.max_drawdown := lit 1 10;
     BacktestEngine.win_rate := lit 1 2;
     BacktestEngine.profit_factor := of_Z 2;
     BacktestEngine.risk_adjusted_return := lit 3 10;
     market_conditions :=
       [("start"%string, regime); ("middle"%string, regime);
        ("end"%string, regime)] |}.

(** Twenty bars at the same close: every trade on them closes without
    profit or loss. *)
Definition flat_bars : list (Bar F) :=
  frame_of [100; 100; 100; 100; 100; 100; 100; 100; 100; 100;
            100; 100; 100; 100; 100; 100; 100; 100; 100; 100]%Z.

End WithNum.

Section Decline.
Context {F : Type} {num : Num F}.

(** A system whose registry holds the silent strategy as ["s"] and a second
    one as ["t"]; only ["s"] has a history, the declining one. *)
Definition declining_system : System F :=
  {| backtest_engine :=
       {| historical_data := []; results_cache := PyDict.empty |};
     evaluator := evaluator_with_history declining_history;
     portfolio := fresh;
     strategies :=
       [("s"%string, silent_strategy);
        ("t"%string, constant_strategy "t" (of_Z 1) (of_Z 1))] |}.

End Decline.

Section Lifecycle.
Context {F : Type} {num : Num F}.

(** A fresh system of one million. *)
Definition started : System F :=
  AdaptiveLearningSystem.init (of_Z 1000000).

(** The alternating strategy registered as ["A"]. *)
Definition registered : System F :=
  {| backtest_engine := backtest_engine started;
     evaluator := evaluator started;
     portfolio := portfolio started;
     strategies :=
       PyDict.set (strategies started) "A" alternating_strategy |}.

(** ... scored by the evaluator on one result of its backtests ... *)
Definition evaluated : System F :=
  match StrategyEvaluator.evaluate_strategy (evaluator registered)
          [result_of "A" (of_Z 1) BULL] with
  | Ok (ev', _) =>
      {| backtest_engine := backtest_engine registered;
         evaluator := ev';
         portfolio := portfolio registered;
         strategies := strategies registered |}
  | Raise _ => registered
  end.

(** ... and allocated by a refresh of the portfolio. *)
Definition allocated : System F :=
  AdaptiveLearningSystem.update_portfolio evaluated.

End Lifecycle.

End Examples.


(* ------------------------------------------------------------------ *)
(** ** Notions used by the statements over the reals *)

(** Unfold the class operations at the reals. *)
Ltac real_ops :=
  cbn [fadd fsub fmul fdiv fopp fabs fsqrt feqb fltb fleb of_Z R_Num] in *.

(** The sum of a list of reals. *)
Definition Rsum (l : list R) : R := fold_right Rplus 0%R l.

(** The sum of the squared residuals of the line [a * x + b] at the points
    [(0, y0), (1, y1), ...] of [ys]. *)
Definition squared_residuals (ys : list R) (a b : R) : R :=
  Rsum (map (fun xy => ((snd xy - (a * INR (fst xy) + b)) ^ 2)%R)
            (combine (seq 0 (List.length ys)) ys)).

(** [a] is the slope of a least-squares line through [ys]: with some
    intercept it makes the sum of the squared residuals least. *)
Definition least_squares_slope (ys : list R) (a : R) : Prop :=
  exists b : R,
    forall a' b' : R,
      (squared_residuals ys a b <= squared_residuals ys a' b')%R.

(** The weight an entry of the allocation map carries after
    [adjust_allocation] has set [sid] to [new_weight] and scaled the others
    by [scale_factor]. *)
Definition adjusted_weight (sid : string) (new_weight scale_factor : R)
    (kv : string * StrategyPortfolio.StrategyAllocation R) : R :=
  if String.eqb (fst kv) sid then new_weight
  else (StrategyPortfolio.weight (snd kv) * scale_factor)%R.

(** The weights of the allocations other than [sid]. *)
Definition other_weights (sid : string)
    (d : PyDict.t (StrategyPortfolio.StrategyAllocation R)) : list R :=
  map (fun kv => StrategyPortfolio.weight (snd kv))
      (filter (fun kv => negb (String.eqb (fst kv) sid)) d).

(* ------------------------------------------------------------------ *)
(** ** Notions used by the further properties *)

(** One for an open position of the simulation, zero otherwise. *)
Definition open_count {F : Type} (st : BacktestEngine.Simulation F) : nat :=
  match BacktestEngine.current_position st with Some _ => 1 | None => 0 end.

(** [a] may come before [b] in a descending order by [key]. *)
Definition not_below {A : Type} (key : A -> R) (a b : A) : Prop :=
  (key b <= key a)%R.

(** The bookkeeping of a system: the registry, the cache of latest scores
    and the allocation map hold each identifier once; the threshold of the
    portfolio is 0.4; a cached latest score carries the identifier it is
    cached under and is the last entry of that identifier's history; and
    every allocated identifier has a cached score. *)
Definition well_formed {F : Type} {num : Num F}
    (sys : AdaptiveLearningSystem.System F) : Prop :=
  NoDup (PyDict.keys (AdaptiveLearningSystem.strategies sys))
  /\ NoDup (PyDict.keys
              (StrategyEvaluator.strategy_scores
                 (AdaptiveLearningSystem.evaluator sys)))
  /\ NoDup (PyDict.keys
              (StrategyPortfolio.allocations
                 (AdaptiveLearningSystem.portfolio sys)))
  /\ StrategyPortfolio.min_score_threshold
       (AdaptiveLearningSystem.portfolio sys) = lit 4 10
  /\ (forall k s,
         PyDict.get (StrategyEvaluator.strategy_scores
                       (AdaptiveLearningSystem.evaluator sys)) k = Some s ->
         StrategyEvaluator.strategy_id s = k
         /\ exists older,
              StrategyEvaluator.get_strategy_history
                (AdaptiveLearningSystem.evaluator sys) k = older ++ [s])
  /\ (forall k,
         In k (PyDict.keys
                 (StrategyPortfolio.allocations
                    (AdaptiveLearningSystem.portfolio sys))) ->
         In k (PyDict.keys
                 (StrategyEvaluator.strategy_scores
                    (AdaptiveLearningSystem.evaluator sys)))).

(* ------------------------------------------------------------------ *)
(** * Properties *)

Import BacktestEngine StrategyEvaluator StrategyPortfolio
       AdaptiveLearningSystem.

Unset Implicit Arguments.

(** ** The literals of the source *)

(** The decimal literals, built by [lit], are the binary64 numbers the
    interpreter reads from the source text. *)
Lemma literals_binary64 :
  lit (F:=float) 4 10 = 0x1.999999999999ap-2%float
  /\ lit (F:=float) 3 10 = 0x1.3333333333333p-2%float
  /\ lit (F:=float) 2 10 = 0x1.999999999999ap-3%float
  /\ lit (F:=float) 25 100 = 0x1p-2%float
  /\ lit (F:=float) 15 10 = 0x1.8p+0%float
  /\ lit (F:=float) 2 100 = 0x1.47ae147ae147bp-6%float.
Proof. vm_compute. repeat split; reflexivity. Qed.

(** ** The portfolio below the score threshold *)

Section PortfolioFrame.
Context {F : Type} {num : Num F}.
Local Open Scope num_scope.

Lemma filter_none {A : Type} (f : A -> bool) (l : list A) :
  forallb (fun x => negb (f x)) l = true -> filter f l = [].
Proof.
  induction l as [|x l IH]; simpl; [reflexivity|].
  intros H. apply andb_true_iff in H. destruct H as [Hx Hl].
  apply negb_true_iff in Hx. rewrite Hx. auto.
Qed.

(** Below its threshold the portfolio ignores the scores. *)
Lemma update_portfolio_below_threshold (p : Portfolio F)
    (strategy_scores : list (StrategyScore F)) :
  forallb (fun score => negb (min_score_threshold p <=? overall_score score))
          strategy_scores = true ->
  StrategyPortfolio.update_portfolio p strategy_scores = p.
Proof.
  intros Hlow. unfold StrategyPortfolio.update_portfolio.
  rewrite (filter_none _ _ Hlow). reflexivity.
Qed.

(** The threshold is set once, by the constructor. *)
Lemma min_score_threshold_kept (p : Portfolio F) :
  (forall strategy_scores,
      min_score_threshold (StrategyPortfolio.update_portfolio p strategy_scores)
      = min_score_threshold p)
  /\ (forall sid new_weight,
        min_score_threshold (adjust_allocation p sid new_weight)
        = min_score_threshold p).
Proof.
  split.
  - intros strategy_scores. unfold StrategyPortfolio.update_portfolio.
    destruct (filter _ strategy_scores) as [|first valid]; [reflexivity|].
    cbn [min_score_threshold _record_portfolio_state].
    induction (filter _ (PyDict.keys (allocations p))) as [|k ks IH]
      using rev_ind; [reflexivity|].
    rewrite fold_left_app. cbn [fold_left].
    unfold _handle_strategy_removal at 1.
    destruct (PyDict.get _ k); exact IH.
  - intros sid new_weight. unfold adjust_allocation.
    destruct (negb _); reflexivity.
Qed.

(** C5: for a portfolio with the minimum score threshold 0.4 the constructor
    sets, when no score of the list reaches 0.4 (in particular for the empty
    list), [update_portfolio] returns the portfolio it was given: the
    allocation map is the same and no state is appended to the history. *)
Theorem C5_update_portfolio_below_threshold_is_noop :
  forall (p : Portfolio F) (strategy_scores : list (StrategyScore F)),
    min_score_threshold p = lit 4 10 ->
    forallb (fun score => negb (lit 4 10 <=? overall_score score))
            strategy_scores = true ->
    StrategyPortfolio.update_portfolio p strategy_scores = p
    /\ allocations (StrategyPortfolio.update_portfolio p strategy_scores)
       = allocations p
    /\ List.length (historical_performance
                      (StrategyPortfolio.update_portfolio p strategy_scores))
       = List.length (historical_performance p)
    /\ StrategyPortfolio.update_portfolio p [] = p.
Proof.
  intros p strategy_scores Hthreshold Hlow.
  rewrite <- Hthreshold in Hlow.
  rewrite (update_portfolio_below_threshold p strategy_scores Hlow).
  split; [reflexivity|]. split; [reflexivity|]. split; [reflexivity|].
  apply update_portfolio_below_threshold. reflexivity.
Qed.

End PortfolioFrame.

(** ** Retirement *)

Section Retirement.
Context {F : Type} {num : Num F}.
Variable polyfit_slope : list F -> F.
Local Open Scope num_scope.

Lemma is_strategy_declining_spec (ev : Evaluator F) (sid : string) :
  is_strategy_declining polyfit_slope ev sid = true <->
  (5 <= List.length (get_strategy_history ev sid))%nat
  /\ (polyfit_slope (map (@overall_score F)
                         (last_n 5 (get_strategy_history ev sid)))
      <? of_Z 0) = true.
Proof.
  unfold is_strategy_declining, is_strategy_declining_window.
  destruct (Nat.ltb_spec (List.length (get_strategy_history ev sid)) 5)
    as [Hlt|Hge].
  - split; [discriminate|]. intros [Hlen _]. lia.
  - split; [intros H; split; [lia|exact H] | intros [_ H]; exact H].
Qed.

(** The last [n] entries of a list that has them. *)
Lemma last_n_app {A : Type} (older suffix : list A) :
  last_n (List.length suffix) (older ++ suffix) = suffix.
Proof.
  unfold last_n.
  replace (List.length (older ++ suffix) - List.length suffix)%nat
    with (List.length older) by (rewrite length_app; lia).
  rewrite skipn_app, skipn_all, Nat.sub_diag. reflexivity.
Qed.

Lemma last_n_split {A : Type} (n : nat) (l : list A) :
  (n <= List.length l)%nat ->
  l = firstn (List.length l - n) l ++ last_n n l
  /\ List.length (last_n n l) = n.
Proof.
  intros Hlen. unfold last_n. split.
  - symmetry. apply firstn_skipn.
  - rewrite length_skipn. lia.
Qed.

(** A history ends with three entries exactly when it has three. *)
Lemma last_three (A : Type) (l : list A) (P : A -> Prop) :
  ((3 <= List.length l)%nat /\ Forall P (last_n 3 l))
  <-> exists older a b c, l = older ++ [a; b; c] /\ P a /\ P b /\ P c.
Proof.
  split.
  - intros [Hlen Hall].
    destruct (last_n_split 3 l Hlen) as [Hsplit Hthree].
    destruct (last_n 3 l) as [|a [|b [|c [|d rest]]]]; try discriminate.
    exists (firstn (List.length l - 3) l), a, b, c.
    split; [exact Hsplit|].
    inversion Hall as [|? ? Ha Hall1]; subst.
    inversion Hall1 as [|? ? Hb Hall2]; subst.
    inversion Hall2 as [|? ? Hc _]; subst. tauto.
  - intros (older & a & b & c & Hl & Ha & Hb & Hc). subst l. split.
    + rewrite length_app. simpl. lia.
    + pose proof (last_n_app older [a; b; c]) as Hlast.
      cbn [List.length] in Hlast. rewrite Hlast.
      repeat constructor; assumption.
Qed.

(** [is_strategy_declining] looks at the five entries a history ends
    with. *)
Lemma is_strategy_declining_last_five (ev : Evaluator F) (sid : string) :
  is_strategy_declining polyfit_slope ev sid = true <->
  exists older s0 s1 s2 s3 s4,
    get_strategy_history ev sid = older ++ [s0; s1; s2; s3; s4]
    /\ (polyfit_slope [overall_score s0; overall_score s1; overall_score s2;
                       overall_score s3; overall_score s4]
        <? of_Z 0) = true.
Proof.
  rewrite is_strategy_declining_spec. split.
  - intros [Hlen Hslope].
    destruct (last_n_split 5 _ Hlen) as [Hsplit Hfive].
    destruct (last_n 5 (get_strategy_history ev sid))
      as [|s0 [|s1 [|s2 [|s3 [|s4 [|s5 rest]]]]]]; try discriminate.
    exists (firstn (List.length (get_strategy_history ev sid) - 5)
                   (get_strategy_history ev sid)), s0, s1, s2, s3, s4.
    split; [exact Hsplit | exact Hslope].
  - intros (older & s0 & s1 & s2 & s3 & s4 & Hhist & Hslope).
    rewrite Hhist. split.
    + rewrite length_app. simpl. lia.
    + pose proof (last_n_app older [s0; s1; s2; s3; s4]) as Hlast.
      cbn [List.length] in Hlast. rewrite Hlast. exact Hslope.
Qed.

(** [should_retire_strategy] in terms of the entries the history ends
    with. *)
Lemma should_retire_strategy_spec (ev : Evaluator F) (sid : string) :
  (should_retire_strategy polyfit_slope ev sid = true <->
     (exists older latest,
         get_strategy_history ev sid = older ++ [latest]
         /\ (overall_score latest <? lit 3 10) = true)
     \/ is_strategy_declining polyfit_slope ev sid = true
     \/ (exists older a b c,
           get_strategy_history ev sid = older ++ [a; b; c]
           /\ (overall_score a <? lit 4 10) = true
           /\ (overall_score b <? lit 4 10) = true
           /\ (overall_score c <? lit 4 10) = true))
  /\ (get_strategy_history ev sid = [] ->
      should_retire_strategy polyfit_slope ev sid = false).
Proof.
  split.
  - rewrite <- (last_three _ (get_strategy_history ev sid)
                  (fun score => (overall_score score <? lit 4 10) = true)).
    unfold should_retire_strategy.
    pose proof (is_strategy_declining_spec ev sid) as Hdecl.
    destruct (get_strategy_history ev sid) as [|first rest] eqn:Hhist.
    + split; [discriminate|].
      intros [(older & latest & Heq & _) | [Hd | [Hlen _]]].
      * destruct older; discriminate.
      * apply Hdecl in Hd. simpl in Hd. lia.
      * simpl in Hlen. lia.
    + remember (first :: rest) as history eqn:Hcons.
      assert (Hne : history <> []) by (subst history; discriminate).
      clear Hcons. cbn [existsb]. rewrite !orb_true_iff, andb_true_iff.
      rewrite Nat.leb_le, forallb_forall, Forall_forall.
      split.
      * intros [Ha | [Hb | [Hc | Hf]]].
        -- left. exists (removelast history), (last history first).
           split; [apply app_removelast_last; exact Hne | exact Ha].
        -- right. left. exact Hb.
        -- right. right. exact Hc.
        -- discriminate.
      * intros [(older & latest & Heq & Hlow) | [Hd | Hc]].
        -- left. rewrite Heq, last_last. exact Hlow.
        -- right. left. exact Hd.
        -- right. right. left. exact Hc.
  - intros Hhist. unfold should_retire_strategy. rewrite Hhist. reflexivity.
Qed.

End Retirement.

(** An instance of C5 on binary64: a score of 0.39 leaves a one-strategy
    portfolio as it is. *)
Lemma C5_witness_low_score :
  StrategyPortfolio.update_portfolio (F:=float) Examples.one_strategy
    [Examples.score_of "b"%string (lit 39 100) (lit 1 10)]
  = Examples.one_strategy.
Proof.
  apply (C5_update_portfolio_below_threshold_is_noop
           (F:=float) Examples.one_strategy
           [Examples.score_of "b"%string (lit 39 100) (lit 1 10)]).
  - vm_compute. reflexivity.
  - vm_compute. reflexivity.
Defined.

(** ** Metrics of a backtest without trades *)

Section ShortSeries.
Context {F : Type} {num : Num F}.

(** With fewer than two returns the Sharpe ratio is the constant zero. *)
Lemma calculate_sharpe_ratio_short (returns : list F) :
  (List.length returns < 2)%nat ->
  calculate_sharpe_ratio returns = of_Z 0.
Proof.
  unfold calculate_sharpe_ratio, calculate_sharpe_ratio_rf.
  destruct returns as [|r0 [|r1 rest]]; simpl; intros H;
    [reflexivity | reflexivity | lia].
Qed.

End ShortSeries.

(** ** The outcomes of a backtest *)

Section BacktestOutcome.
Context {F : Type} {num : Num F} {inf : HasInf F}.
Variable market_regime : list (Bar F) -> MarketCondition.

Lemma py_slice_middle {A : Type} (l : list A) :
  (20 <= List.length l)%nat ->
  List.length
    (py_slice (Z.of_nat (List.length l) / 2 - 10)
              (Z.of_nat (List.length l) / 2 + 10) l) = 20%nat.
Proof.
  intros Hlen. unfold py_slice.
  set (n := Z.of_nat (List.length l)).
  assert (Hn : (20 <= n)%Z) by (unfold n; lia).
  assert (Hhalf : (10 <= n / 2 /\ n / 2 + 10 <= n)%Z).
  { pose proof (Z.div_mod n 2 ltac:(lia)) as Hdm.
    pose proof (Z.mod_pos_bound n 2 ltac:(lia)) as Hm. lia. }
  replace (n / 2 - 10 <? 0)%Z with false by (symmetry; apply Z.ltb_ge; lia).
  replace (n / 2 + 10 <? 0)%Z with false by (symmetry; apply Z.ltb_ge; lia).
  rewrite !Z.min_l by lia.
  replace (n / 2 + 10 - (n / 2 - 10))%Z with 20%Z by lia.
  rewrite length_firstn, length_skipn. unfold n in *. lia.
Qed.

(** A frame of fewer than twenty rows stops [run_backtest] at the first
    market condition; on a longer one the three windows have twenty rows
    each and the loop runs. *)
Lemma backtest_cases (strategy : Strategy F) (data : list (Bar F))
    (start_date end_date : Z) (initial_capital : F) :
  ((List.length data < 20)%nat
   /\ backtest market_regime strategy data start_date end_date
               initial_capital = Raise IndexError)
  \/ ((20 <= List.length data)%nat
      /\ backtest market_regime strategy data start_date end_date
                  initial_capital
         = Ok (backtest_result strategy data start_date end_date
                 initial_capital
                 [("start"%string, market_regime (firstn 20 data));
                  ("middle"%string,
                   market_regime
                     (py_slice (Z.of_nat (List.length data) / 2 - 10)
                               (Z.of_nat (List.length data) / 2 + 10) data));
                  ("end"%string, market_regime (last_n 20 data))])).
Proof.
  destruct (Nat.ltb_spec (List.length data) 20) as [Hshort|Hlong].
  - left. split; [exact Hshort|].
    unfold backtest, detect_market_condition at 1. cbv zeta.
    rewrite length_firstn.
    replace (Nat.min 20 (List.length data) <? 20)%nat with true
      by (symmetry; apply Nat.ltb_lt; lia).
    reflexivity.
  - right. split; [exact Hlong|].
    unfold backtest, detect_market_condition. cbv zeta.
    rewrite length_firstn, (py_slice_middle data Hlong).
    unfold last_n at 1. rewrite length_skipn.
    replace (Nat.min 20 (List.length data) <? 20)%nat with false
      by (symmetry; apply Nat.ltb_ge; lia).
    replace (List.length data - (List.length data - 20) <? 20)%nat with false
      by (symmetry; apply Nat.ltb_ge; lia).
    reflexivity.
Qed.

(** What [run_backtest] returns was built by its loop. *)
Lemma backtest_Ok (strategy : Strategy F) (data : list (Bar F))
    (start_date end_date : Z) (initial_capital : F)
    (result : BacktestResult F) :
  backtest market_regime strategy data start_date end_date initial_capital
  = Ok result ->
  (20 <= List.length data)%nat
  /\ exists market_conditions,
       result = backtest_result strategy data start_date end_date
                  initial_capital market_conditions.
Proof.
  intros Hrun.
  destruct (backtest_cases strategy data start_date end_date initial_capital)
    as [[_ Hraise]|[Hlong Hok]].
  - rewrite Hraise in Hrun. discriminate.
  - rewrite Hok in Hrun. injection Hrun as Hres.
    split; [exact Hlong|]. eexists. symmetry. exact Hres.
Qed.

End BacktestOutcome.

(** ** Metrics of a backtest without trades *)

(** C3: a result of [run_backtest] without trades has a Sharpe ratio, a
    maximum drawdown, a win rate and a risk-adjusted return of zero, as
    claimed, but not the claimed profit factor of zero: what
    [calculate_profit_factor] returns for it is plus infinity, the value of
    its zero-loss branch. *)
Theorem C3_zero_trades_metrics :
  forall (market_regime : list (Bar float) -> MarketCondition)
         (e e' : Engine float) (strategy : Strategy float) (symbol : string)
         (start_date end_date : Z) (initial_capital : float)
         (result : BacktestResult float),
    run_backtest_with market_regime e strategy symbol
                      start_date end_date initial_capital = Ok (e', result) ->
    trades result = [] ->
    BacktestEngine.sharpe_ratio result = PrimFloat.zero
    /\ BacktestEngine.max_drawdown result = PrimFloat.zero
    /\ BacktestEngine.win_rate result = PrimFloat.zero
    /\ BacktestEngine.risk_adjusted_return result = PrimFloat.zero
    /\ BacktestEngine.profit_factor result = PrimFloat.infinity
    /\ (BacktestEngine.profit_factor result =? of_Z 0)%num = false.
Proof.
  intros regime e e' strategy symbol start_date end_date initial_capital
         result.
  unfold run_backtest_with, bind.
  destruct (load_historical_data e symbol start_date end_date) as [data|err];
    [|discriminate].
  destruct (backtest regime strategy data start_date end_date initial_capital)
    as [r|err] eqn:Hrun; [|discriminate].
  intros Hret Hno. injection Hret as _ Hres. subst r.
  apply backtest_Ok in Hrun. destruct Hrun as [_ [conds Hres]].
  subst result. unfold backtest_result in *. cbn [trades] in Hno.
  cbn [BacktestEngine.sharpe_ratio BacktestEngine.max_drawdown
       BacktestEngine.win_rate BacktestEngine.risk_adjusted_return
       BacktestEngine.profit_factor].
  rewrite Hno. repeat split; reflexivity.
Qed.

(** The failing input of C3: the silent strategy over twenty bars closes no
    trade, and the profit factor of its result is plus infinity. *)
Lemma C3_witness_silent_strategy :
  match run_backtest_with (F:=float) Examples.always_sideways
          {| historical_data :=
               [(("SYM"%string, 0%Z, 19%Z), Examples.rising_bars)];
             results_cache := PyDict.empty |}
          Examples.silent_strategy "SYM"%string 0 19 (of_Z 100000) with
  | Ok (_, result) =>
      trades result = []
      /\ BacktestEngine.profit_factor result = PrimFloat.infinity
      /\ (BacktestEngine.profit_factor result =? of_Z 0)%num = false
  | Raise _ => False
  end.
Proof.
  destruct (run_backtest_with (F:=float) Examples.always_sideways
              {| historical_data :=
                   [(("SYM"%string, 0%Z, 19%Z), Examples.rising_bars)];
                 results_cache := PyDict.empty |}
              Examples.silent_strategy "SYM"%string 0 19 (of_Z 100000))
    as [[e' result]|err] eqn:Hrun.
  - assert (Hno : trades result = []).
    { vm_compute in Hrun. injection Hrun as _ Hres. subst result.
      reflexivity. }
    split; [exact Hno|].
    exact (proj2 (proj2 (proj2 (proj2
             (C3_zero_trades_metrics Examples.always_sideways _ e'
                Examples.silent_strategy "SYM"%string 0 19 (of_Z 100000)
                result Hrun Hno))))).
  - vm_compute in Hrun. discriminate.
Defined.

(** ** Division by a zero deviation *)

(** C7: two identical returns have a sample deviation of zero and
    [calculate_sharpe_ratio] divides by it.  For the returns [0.01, 0.01] the
    result is plus infinity; for the ten break-even trades the alternating
    strategy closes over twenty bars at one price, [run_backtest] reports
    returns that are all zero and a Sharpe ratio of minus infinity.  Neither
    is zero. *)
Theorem C7_sharpe_of_identical_returns :
  calculate_sharpe_ratio (F:=float) [lit 1 100; lit 1 100] = PrimFloat.infinity
  /\ np_std (F:=float) 1 [lit 1 100; lit 1 100] = PrimFloat.zero
  /\ exists result,
       backtest (F:=float) Examples.always_sideways
         Examples.alternating_strategy Examples.flat_bars 0 19 (of_Z 100000)
       = Ok result
       /\ returns result = repeat PrimFloat.zero 10
       /\ BacktestEngine.sharpe_ratio result = PrimFloat.neg_infinity.
Proof.
  split; [vm_compute; reflexivity|].
  split; [vm_compute; reflexivity|].
  eexists. split; [vm_compute; reflexivity|].
  split; reflexivity.
Qed.

(** C4: three qualifying scores with a drawdown of zero: every raw weight is
    [1/0], the normalisation divides infinity by infinity, and the three
    allocations carry a NaN weight. *)
Theorem C4_zero_drawdown_weights :
  map (fun kv => (fst kv, weight (snd kv)))
      (allocations
         (StrategyPortfolio.update_portfolio (F:=float) Examples.fresh
            Examples.zero_drawdown_scores))
  = [("a"%string, PrimFloat.nan); ("b"%string, PrimFloat.nan);
     ("c"%string, PrimFloat.nan)].
Proof. vm_compute. reflexivity. Qed.

(** ** A strategy without the confidence capability *)

(** C9: a registered and allocated strategy that signals a buy and has no
    [get_confidence] makes the recommendation fall back to HOLD with
    confidence zero; the same strategy with a confidence of one gives BUY
    with confidence one.  Both whatever the kind of the numbers divided. *)
Theorem C9_missing_confidence_falls_back :
  forall python_numbers : bool,
    get_strategy_recommendation (F:=float) python_numbers
      (Examples.system_with [("a"%string, Examples.mute_strategy)]
                            Examples.one_strategy) "SYM"%string
    = hold_fallback
    /\ rec_action
         (get_strategy_recommendation (F:=float) python_numbers
            (Examples.system_with
               [("a"%string,
                 Examples.constant_strategy "a"%string (of_Z 1) (of_Z 1))]
               Examples.one_strategy) "SYM"%string) = BUY
    /\ rec_confidence
         (get_strategy_recommendation (F:=float) python_numbers
            (Examples.system_with
               [("a"%string,
                 Examples.constant_strategy "a"%string (of_Z 1) (of_Z 1))]
               Examples.one_strategy) "SYM"%string) = PrimFloat.one.
Proof. intros [|]; vm_compute; repeat split; reflexivity. Qed.

(** ** The combined recommendation *)

Section Dictionaries.
Context {V : Type}.

Lemma PyDict_get_None_not_In (d : PyDict.t V) (k : string) :
  PyDict.get d k = None <-> ~ In k (PyDict.keys d).
Proof.
  induction d as [|[k' v] d IH]; simpl.
  - tauto.
  - destruct (String.eqb_spec k' k) as [Heq|Hne].
    + split; [discriminate | intros H; exfalso; apply H; left; exact Heq].
    + rewrite IH. tauto.
Qed.

Lemma PyDict_set_fresh (d : PyDict.t V) (k : string) (v : V) :
  ~ In k (PyDict.keys d) -> PyDict.set d k v = d ++ [(k, v)].
Proof.
  induction d as [|[k' v'] d IH]; simpl; intros Hfresh.
  - reflexivity.
  - destruct (String.eqb_spec k' k) as [Heq|Hne].
    + exfalso. apply Hfresh. left. exact Heq.
    + rewrite IH; [reflexivity|]. intros Hin. apply Hfresh. right. exact Hin.
Qed.

Lemma PyDict_keys_app (d1 d2 : PyDict.t V) :
  PyDict.keys (d1 ++ d2) = PyDict.keys d1 ++ PyDict.keys d2.
Proof. unfold PyDict.keys. apply map_app. Qed.

End Dictionaries.

Section Recommendation.
Context {F : Type} {num : Num F}.
Local Open Scope num_scope.

Lemma entry_contribution_keys p symbol entry k :
  In k (PyDict.keys (RecommendationSpec.entry_contribution p symbol entry)) -> k = fst entry.
Proof.
  unfold RecommendationSpec.entry_contribution.
  destruct (get_allocation_for_strategy p (fst entry)); simpl; [|tauto].
  destruct (fneqb _ _); simpl; [|tauto].
  intros [H|[]]. symmetry. exact H.
Qed.

Lemma flat_map_contribution_keys p symbol registry k :
  In k (PyDict.keys (flat_map (RecommendationSpec.entry_contribution p symbol) registry)) ->
  In k (PyDict.keys registry).
Proof.
  induction registry as [|entry registry IH]; simpl; [tauto|].
  rewrite PyDict_keys_app, in_app_iff.
  intros [H|H].
  - left. symmetry. eapply entry_contribution_keys. exact H.
  - right. apply IH. exact H.
Qed.

(** The loop over the registry appends the contributions in registry order
    and adds their weights to the running total. *)
Lemma collect_recommendations_spec (p : Portfolio F) (symbol : string) :
  forall (registry : PyDict.t (Strategy F))
         (recommendations : PyDict.t (Contribution F)) (total : F),
    NoDup (PyDict.keys registry) ->
    (forall k, In k (PyDict.keys recommendations) ->
               ~ In k (PyDict.keys registry)) ->
    forallb
      (fun entry =>
         match get_allocation_for_strategy p (fst entry) with
         | Some _ =>
             if fneqb (generate_signal (snd entry) (Symbol symbol)) (of_Z 0)
             then match get_confidence (snd entry) with
                  | Some _ => true
                  | None => false
                  end
             else true
         | None => true
         end) registry = true ->
    collect_recommendations p symbol registry recommendations total
    = Ok (recommendations ++ flat_map (RecommendationSpec.entry_contribution p symbol) registry,
          fold_left fadd
            (map (fun kv => contribution_weight (snd kv))
                 (flat_map (RecommendationSpec.entry_contribution p symbol) registry))
            total).
Proof.
  induction registry as [|[sid strategy] registry IH];
    intros recommendations total Hnodup Hdisj Hconf.
  - simpl. rewrite app_nil_r. reflexivity.
  - simpl in Hnodup. inversion Hnodup as [|? ? Hnotin Hnodup']; subst.
    simpl in Hconf. apply andb_true_iff in Hconf. destruct Hconf as [Hc Hconf].
    cbn [collect_recommendations flat_map].
    unfold RecommendationSpec.entry_contribution at 1 3. cbn [fst snd].
    cbn [fst snd] in Hc.
    destruct (get_allocation_for_strategy p sid) as [allocation|].
    + cbv zeta.
      destruct (fneqb (generate_signal strategy (Symbol symbol)) (of_Z 0)).
      * destruct (get_confidence strategy) as [c|]; [|discriminate].
        rewrite PyDict_set_fresh.
        2:{ intros Hin. apply (Hdisj _ Hin). left. reflexivity. }
        rewrite IH; [|exact Hnodup'| |exact Hconf].
        -- rewrite <- app_assoc. reflexivity.
        -- intros k Hin. rewrite PyDict_keys_app, in_app_iff in Hin.
           destruct Hin as [Hin|[Hin|[]]].
           ++ intros Hk. apply (Hdisj _ Hin). right. exact Hk.
           ++ simpl in Hin. subst k. exact Hnotin.
      * rewrite IH; [reflexivity|exact Hnodup'| |exact Hconf].
        intros k Hin Hk. apply (Hdisj _ Hin). right. exact Hk.
    + rewrite IH; [reflexivity|exact Hnodup'| |exact Hconf].
      intros k Hin Hk. apply (Hdisj _ Hin). right. exact Hk.
Qed.

Lemma contributing_of_entries (sys : System F) (symbol : string) :
  RecommendationSpec.contributing sys symbol
  = map (fun kv => (signal (snd kv), contribution_weight (snd kv),
                    confidence (snd kv)))
        (flat_map (RecommendationSpec.entry_contribution (portfolio sys) symbol)
                  (strategies sys)).
Proof.
  unfold RecommendationSpec.contributing.
  induction (strategies sys) as [|entry registry IH]; simpl; [reflexivity|].
  rewrite map_app, <- IH. f_equal.
  unfold RecommendationSpec.entry_contribution.
  destruct (get_allocation_for_strategy _ _); [|reflexivity].
  cbv zeta. destruct (fneqb _ _); reflexivity.
Qed.

(** The code computes what the specification words, as long as every
    contributing strategy has the confidence capability and the contributing
    weights do not sum to zero. *)
Lemma recommendation_refines (python_numbers : bool) (sys : System F)
    (symbol : string) :
  NoDup (PyDict.keys (strategies sys)) ->
  RecommendationSpec.contributors_have_confidence sys symbol = true ->
  (RecommendationSpec.contributing sys symbol = []
   \/ (RecommendationSpec.contributing_weight sys symbol =? of_Z 0) = false) ->
  (rec_action (get_strategy_recommendation python_numbers sys symbol),
   rec_confidence (get_strategy_recommendation python_numbers sys symbol))
  = RecommendationSpec.recommend sys symbol.
Proof.
  intros Hnodup Hconf Htotal.
  unfold get_strategy_recommendation, recommendation_body.
  rewrite (collect_recommendations_spec (portfolio sys) symbol
             (strategies sys) PyDict.empty (of_Z 0) Hnodup);
    [|intros k []|exact Hconf].
  unfold bind. cbn [app PyDict.empty].
  unfold RecommendationSpec.recommend, RecommendationSpec.weighted_signal,
    RecommendationSpec.contributing_weight in *.
  rewrite (contributing_of_entries sys symbol) in *.
  destruct (flat_map (RecommendationSpec.entry_contribution (portfolio sys) symbol)
                     (strategies sys)) as [|kv entries] eqn:Hentries.
  - reflexivity.
  - destruct Htotal as [Hnil|Hnz]; [discriminate|].
    unfold py_div, py_sum, PyDict.values in *.
    rewrite !map_map in *. cbn [fst snd] in *.
    rewrite Hnz, Bool.andb_false_r. reflexivity.
Qed.

End Recommendation.

(** Comparisons of real numbers. *)
Lemma Reqb_neq (a b : R) : a <> b -> Reqb a b = false.
Proof. intros H. unfold Reqb. destruct (Req_dec_T a b); [contradiction|reflexivity]. Qed.

Lemma Reqb_refl (a : R) : Reqb a a = true.
Proof. unfold Reqb. destruct (Req_dec_T a a); [reflexivity|contradiction]. Qed.

Lemma Rltb_lt (a b : R) : (a < b)%R -> Rltb a b = true.
Proof. intros H. unfold Rltb. destruct (Rlt_dec a b); [reflexivity|contradiction]. Qed.

Lemma Rltb_ge (a b : R) : (b <= a)%R -> Rltb a b = false.
Proof. intros H. unfold Rltb. destruct (Rlt_dec a b); [lra|reflexivity]. Qed.

Lemma Rleb_le (a b : R) : (a <= b)%R -> Rleb a b = true.
Proof. intros H. unfold Rleb. destruct (Rle_dec a b); [reflexivity|contradiction]. Qed.

Lemma Rleb_gt (a b : R) : (b < a)%R -> Rleb a b = false.
Proof. intros H. unfold Rleb. destruct (Rle_dec a b); [lra|reflexivity]. Qed.

Lemma two_opinions_NoDup (F : Type) (num : Num F) :
  NoDup (PyDict.keys (strategies (Examples.two_opinions (F:=F)))).
Proof.
  simpl. constructor.
  - intros [H|[]]. discriminate.
  - constructor; [intros []|constructor].
Qed.

Lemma two_opinions_real :
  RecommendationSpec.recommend (F:=R) Examples.two_opinions "SYM"%string
  = (BUY, (28 / 100)%R).
Proof.
  unfold RecommendationSpec.recommend, RecommendationSpec.weighted_signal,
    RecommendationSpec.contributing_weight, RecommendationSpec.contributing.
  cbn -[IZR Rdiv Rmult Rplus Rminus Ropp Rabs Reqb Rltb Rleb].
  unfold fneqb. cbn -[IZR Rdiv Rmult Rplus Rminus Ropp Rabs Reqb Rltb Rleb].
  rewrite !Reqb_neq by lra.
  cbn -[IZR Rdiv Rmult Rplus Rminus Ropp Rabs Reqb Rltb Rleb].
  unfold RecommendationSpec.action_of, py_sum, lit.
  cbn -[IZR Rdiv Rmult Rplus Rminus Ropp Rabs Reqb Rltb Rleb].
  replace ((0 + 1 * (6 / 10) * (8 / 10) + -1 * (4 / 10) * (5 / 10))
           / (0 + 6 / 10 + 4 / 10))%R with (28 / 100)%R by field.
  rewrite Rltb_lt by lra.
  rewrite Rabs_pos_eq by lra. reflexivity.
Qed.

(** C8: over a registry with distinct identifiers whose contributing
    strategies all have the confidence capability, the recommendation is the
    one the specification words: HOLD with confidence zero when no strategy
    contributes, and otherwise (the contributing weights not summing to zero)
    the action read from the weighted signal at the thresholds 0.2 and -0.2,
    with the absolute weighted signal as confidence; this whatever the kind
    of the numbers divided.  For strategy A (weight 0.6, signal 1,
    confidence 0.8) and strategy B (weight 0.4, signal -1, confidence 0.5)
    this is BUY with confidence 0.28: exactly over the reals, and within
    1e-15 in binary64. *)
Theorem C8_strategy_recommendation :
  (forall (F : Type) (num : Num F) (python_numbers : bool) (sys : System F)
          (symbol : string),
      NoDup (PyDict.keys (strategies sys)) ->
      RecommendationSpec.contributors_have_confidence sys symbol = true ->
      (RecommendationSpec.contributing sys symbol = []
       \/ (RecommendationSpec.contributing_weight sys symbol =? of_Z 0)%num
          = false) ->
      (rec_action (get_strategy_recommendation python_numbers sys symbol),
       rec_confidence (get_strategy_recommendation python_numbers sys symbol))
      = RecommendationSpec.recommend sys symbol)
  /\ (forall python_numbers : bool,
        (rec_action (get_strategy_recommendation (F:=R) python_numbers
                       Examples.two_opinions "SYM"%string),
         rec_confidence (get_strategy_recommendation (F:=R) python_numbers
                           Examples.two_opinions "SYM"%string))
        = (BUY, (28 / 100)%R))
  /\ (forall python_numbers : bool,
        rec_action (get_strategy_recommendation (F:=float) python_numbers
                      Examples.two_opinions "SYM"%string) = BUY
        /\ (fabs (rec_confidence
                    (get_strategy_recommendation (F:=float) python_numbers
                       Examples.two_opinions "SYM"%string) - lit 28 100)
            <? lit 1 1000000000000000)%num = true).
Proof.
  split; [|split].
  - intros F num python_numbers sys symbol. apply recommendation_refines.
  - intros python_numbers. rewrite recommendation_refines.
    + apply two_opinions_real.
    + apply two_opinions_NoDup.
    + unfold RecommendationSpec.contributors_have_confidence.
      cbn -[fneqb]. destruct (fneqb _ _), (fneqb _ _); reflexivity.
    + right. unfold RecommendationSpec.contributing_weight,
        RecommendationSpec.contributing.
      cbn -[IZR Rdiv Rmult Rplus Rminus Ropp Rabs Reqb Rltb Rleb].
      unfold fneqb.
      cbn -[IZR Rdiv Rmult Rplus Rminus Ropp Rabs Reqb Rltb Rleb].
      rewrite (Reqb_neq 1 0), (Reqb_neq (-1) 0) by lra.
      cbn -[IZR Rdiv Rmult Rplus Rminus Ropp Rabs Reqb Rltb Rleb].
      apply Reqb_neq. lra.
  - intros [|]; split; vm_compute; reflexivity.
Qed.

(** An instance of C8 on binary64: the two opinions meet the hypotheses and
    the code agrees with the specification on them. *)
Lemma C8_witness_two_opinions :
  (rec_action (get_strategy_recommendation (F:=float) false
                 Examples.two_opinions "SYM"%string),
   rec_confidence (get_strategy_recommendation (F:=float) false
                     Examples.two_opinions "SYM"%string))
  = RecommendationSpec.recommend (F:=float) Examples.two_opinions "SYM"%string.
Proof.
  apply (proj1 C8_strategy_recommendation float float_Num false
               Examples.two_opinions "SYM"%string).
  - apply two_opinions_NoDup.
  - vm_compute. reflexivity.
  - right. vm_compute. reflexivity.
Defined.

(** ** Retirement and the cached scores *)

Section RetirementFrame.
Context {F : Type} {num : Num F}.

Lemma PyDict_del_not_mem {V : Type} (d : PyDict.t V) (k : string) :
  NoDup (PyDict.keys d) -> PyDict.mem (PyDict.del d k) k = false.
Proof.
  unfold PyDict.mem.
  induction d as [|[k' v] d IH]; simpl; intros Hnodup; [reflexivity|].
  inversion Hnodup as [|? ? Hnotin Hnodup']; subst.
  destruct (String.eqb_spec k' k) as [Heq|Hne].
  - subst k'. apply PyDict_get_None_not_In in Hnotin. rewrite Hnotin.
    reflexivity.
  - simpl. destruct (String.eqb_spec k' k) as [Heq|_]; [contradiction|].
    apply IH. exact Hnodup'.
Qed.

Lemma update_portfolio_frame (sys : System F) :
  evaluator (AdaptiveLearningSystem.update_portfolio sys) = evaluator sys
  /\ strategies (AdaptiveLearningSystem.update_portfolio sys) = strategies sys.
Proof. split; reflexivity. Qed.

(** Retiring a strategy leaves the evaluator, and with it the cached latest
    score of the strategy, as it was. *)
Lemma retire_strategy_keeps_evaluator (sys : System F) (sid : string) :
  evaluator (retire_strategy sys sid) = evaluator sys.
Proof.
  unfold retire_strategy.
  destruct (PyDict.mem (strategies sys) sid); reflexivity.
Qed.

(** Retiring a strategy takes it out of the registry. *)
Lemma retire_strategy_unregisters (sys : System F) (sid : string) :
  NoDup (PyDict.keys (strategies sys)) ->
  PyDict.mem (strategies (retire_strategy sys sid)) sid = false.
Proof.
  intros Hnodup. unfold retire_strategy.
  destruct (PyDict.mem (strategies sys) sid) eqn:Hmem.
  - cbn [strategies AdaptiveLearningSystem.update_portfolio].
    apply PyDict_del_not_mem. exact Hnodup.
  - exact Hmem.
Qed.

End RetirementFrame.

(** The lifecycle example is a reachable state: a strategy is registered,
    scored by the evaluator and allocated. *)
Lemma allocated_reachable {F : Type} {num : Num F} {inf : HasInf F}
    (market_regime : list (Bar F) -> MarketCondition)
    (polyfit_slope : list F -> F) :
  reachable market_regime polyfit_slope (Examples.allocated (F:=F)).
Proof.
  unfold Examples.allocated. apply reach_update_portfolio.
  assert (Hregistered :
            reachable market_regime polyfit_slope (Examples.registered (F:=F))).
  { apply reach_add_strategy
      with (sys := Examples.started) (strategy_id := "A"%string)
           (constructed := Ok Examples.alternating_strategy).
    - apply reach_init.
    - reflexivity. }
  unfold Examples.evaluated.
  destruct (StrategyEvaluator.evaluate_strategy
              (evaluator Examples.registered)
              [Examples.result_of "A"%string (of_Z 1) BULL])
    as [[ev' score]|err] eqn:Heval.
  - eapply reach_evaluator; eassumption.
  - exact Hregistered.
Qed.

(** ** The ceilings of an allocation *)

Section MappedDictionaries.
Context {V W : Type}.

Lemma PyDict_get_map_values (f : string -> V -> W) (d : PyDict.t V) (k : string) :
  PyDict.get (PyDict.map_values f d) k = option_map (f k) (PyDict.get d k).
Proof.
  induction d as [|[k' v] d IH]; simpl; [reflexivity|].
  destruct (String.eqb_spec k' k) as [Heq|Hne].
  - subst k'. reflexivity.
  - exact IH.
Qed.

Lemma PyDict_values_map_values (f : string -> V -> W) (d : PyDict.t V) (w : W) :
  In w (PyDict.values (PyDict.map_values f d)) ->
  exists k v, In (k, v) d /\ w = f k v.
Proof.
  unfold PyDict.values, PyDict.map_values. rewrite map_map.
  intros Hin. apply in_map_iff in Hin. destruct Hin as ([k v] & Heq & Hin).
  exists k, v. split; [exact Hin | symmetry; exact Heq].
Qed.

Lemma PyDict_keys_map_values (f : string -> V -> W) (d : PyDict.t V) :
  PyDict.keys (PyDict.map_values f d) = PyDict.keys d.
Proof.
  unfold PyDict.keys, PyDict.map_values. rewrite map_map. reflexivity.
Qed.

End MappedDictionaries.

(** Comparisons of binary64 numbers, from their specification. *)
Lemma SFcompare_antisym (a b : SpecFloat.spec_float) :
  SpecFloat.SFcompare b a = option_map CompOpp (SpecFloat.SFcompare a b).
Proof.
  destruct a as [sa|sa| |sa ma ea], b as [sb|sb| |sb mb eb]; simpl;
    try reflexivity;
    try (destruct sa; reflexivity);
    try (destruct sb; reflexivity);
    try (destruct sa, sb; reflexivity).
  destruct sa, sb; try reflexivity; f_equal;
    rewrite (Z.compare_antisym ea eb);
    destruct (ea ?= eb)%Z; simpl; try reflexivity.
  - rewrite CompOpp_involutive, Pos.compare_cont_antisym. reflexivity.
  - rewrite Pos.compare_cont_antisym. reflexivity.
Qed.

Lemma SFcompare_None (a b : SpecFloat.spec_float) :
  SpecFloat.SFcompare a b = None ->
  a = SpecFloat.S754_nan \/ b = SpecFloat.S754_nan.
Proof.
  destruct a as [sa|sa| |sa ma ea], b as [sb|sb| |sb mb eb]; simpl;
    intros H; try discriminate; auto.
Qed.

Lemma float_ltb_leb (x y : float) :
  PrimFloat.ltb x y = true -> PrimFloat.leb x y = true.
Proof.
  rewrite ltb_spec, leb_spec. unfold SpecFloat.SFltb, SpecFloat.SFleb.
  destruct (SpecFloat.SFcompare _ _) as [[]|]; congruence.
Qed.

Lemma float_not_nan (x : float) :
  is_nan (F:=float) x = false -> Prim2SF x <> SpecFloat.S754_nan.
Proof.
  unfold is_nan. cbn [feqb float_Num]. rewrite FloatAxioms.eqb_spec.
  unfold SpecFloat.SFeqb. intros H Hnan. rewrite Hnan in H. discriminate.
Qed.

Lemma float_leb_of_not_ltb (x y : float) :
  is_nan (F:=float) x = false -> is_nan (F:=float) y = false ->
  PrimFloat.ltb y x = false -> PrimFloat.leb x y = true.
Proof.
  intros Hx Hy. apply float_not_nan in Hx. apply float_not_nan in Hy.
  rewrite ltb_spec, leb_spec. unfold SpecFloat.SFltb, SpecFloat.SFleb.
  rewrite (SFcompare_antisym (Prim2SF y) (Prim2SF x)).
  destruct (SpecFloat.SFcompare (Prim2SF y) (Prim2SF x)) as [[]|] eqn:Hc;
    simpl; try congruence.
  apply SFcompare_None in Hc. tauto.
Qed.

(** The ceiling [min(0.25, x)] is at most a quarter, whatever [x] is. *)
Lemma quarter_ceiling (x : float) :
  PrimFloat.leb (py_min (lit 25 100) x) (lit 25 100) = true.
Proof.
  unfold py_min. cbn [fltb float_Num].
  destruct (PrimFloat.ltb x (lit 25 100)) eqn:Hlt.
  - apply float_ltb_leb. exact Hlt.
  - vm_compute. reflexivity.
Qed.

(** The clamp [min(x, 0.25)] is at most a quarter unless [x] is a NaN. *)
Lemma quarter_clamp (x : float) :
  is_nan x = false ->
  PrimFloat.leb (py_min x (lit 25 100)) (lit 25 100) = true.
Proof.
  intros Hx. unfold py_min. cbn [fltb float_Num].
  destruct (PrimFloat.ltb (lit 25 100) x) eqn:Hlt.
  - vm_compute. reflexivity.
  - apply float_leb_of_not_ltb; [exact Hx | vm_compute; reflexivity | exact Hlt].
Qed.




(** ** The sum of the weights, over the reals *)

Lemma fold_left_Rplus (l : list R) (a : R) :
  fold_left Rplus l a = (a + Rsum l)%R.
Proof.
  revert a. induction l as [|x l IH]; intros a; simpl.
  - lra.
  - rewrite IH. lra.
Qed.

Lemma py_sum_real (l : list R) : py_sum (F:=R) l = Rsum l.
Proof. unfold py_sum. real_ops. rewrite fold_left_Rplus. lra. Qed.

Lemma np_sum_real (l : list R) : np_sum (F:=R) l = Rsum l.
Proof. unfold np_sum. real_ops. rewrite fold_left_Rplus. lra. Qed.

Lemma Rsum_scaled (l : list R) (c : R) :
  Rsum (map (fun x => x / c)%R l) = (Rsum l / c)%R.
Proof.
  induction l as [|x l IH]; simpl.
  - unfold Rdiv. lra.
  - rewrite IH. unfold Rdiv. lra.
Qed.

Lemma Rsum_positive (l : list R) :
  l <> [] -> Forall (fun x => 0 < x)%R l -> (0 < Rsum l)%R.
Proof.
  intros Hne Hpos. destruct l as [|x l]; [contradiction|].
  inversion Hpos as [|? ? Hx Hl]; subst. simpl.
  assert (0 <= Rsum l)%R.
  { clear -Hl. induction Hl as [|y l Hy Hl IH]; simpl; lra. }
  lra.
Qed.

Section AdjustedWeights.
Variables (sid : string) (new_weight scale_factor : R).

Lemma adjusted_sum_absent (d : PyDict.t (StrategyAllocation R)) :
  ~ In sid (PyDict.keys d) ->
  Rsum (map (adjusted_weight sid new_weight scale_factor) d)
  = (scale_factor * Rsum (other_weights sid d))%R.
Proof.
  unfold other_weights.
  induction d as [|[k a] d IH]; simpl; intros Hnotin.
  - lra.
  - unfold adjusted_weight at 1. cbn [fst snd].
    destruct (String.eqb_spec k sid) as [Heq|Hne].
    + exfalso. apply Hnotin. left. exact Heq.
    + simpl. rewrite IH by tauto. lra.
Qed.

Lemma adjusted_sum_present (d : PyDict.t (StrategyAllocation R)) :
  NoDup (PyDict.keys d) -> In sid (PyDict.keys d) ->
  Rsum (map (adjusted_weight sid new_weight scale_factor) d)
  = (new_weight + scale_factor * Rsum (other_weights sid d))%R.
Proof.
  induction d as [|[k a] d IH]; simpl; intros Hnodup Hin; [contradiction|].
  inversion Hnodup as [|? ? Hnotin Hnodup']; subst.
  unfold adjusted_weight at 1. unfold other_weights. cbn [fst snd filter].
  destruct (String.eqb_spec k sid) as [Heq|Hne].
  - subst k. simpl. rewrite adjusted_sum_absent by exact Hnotin.
    unfold other_weights. lra.
  - destruct Hin as [Heq|Hin]; [contradiction|].
    simpl. rewrite IH by assumption. unfold other_weights. lra.
Qed.

End AdjustedWeights.

Lemma PyDict_mem_In {V : Type} (d : PyDict.t V) (k : string) :
  PyDict.mem d k = true <-> In k (PyDict.keys d).
Proof.
  unfold PyDict.mem. pose proof (PyDict_get_None_not_In d k) as Hnone.
  destruct (PyDict.get d k).
  - split; [|reflexivity]. intros _.
    destruct (in_dec string_dec k (PyDict.keys d)) as [Hin|Hnotin];
      [exact Hin|]. apply Hnone in Hnotin. discriminate.
  - split; [discriminate|]. intros Hin. exfalso.
    apply (proj1 Hnone eq_refl). exact Hin.
Qed.

(** The weights after [adjust_allocation], entry by entry. *)
Lemma adjust_allocation_weights (p : Portfolio R) (sid : string) (w : R) :
  PyDict.mem (allocations p) sid = true ->
  (0 < Rsum (other_weights sid (allocations p)))%R ->
  map (@weight R) (PyDict.values (allocations (adjust_allocation p sid w)))
  = map (adjusted_weight sid (py_min w (lit 25 100))
           ((1 - py_min w (lit 25 100))
            / Rsum (other_weights sid (allocations p))))
        (allocations p).
Proof.
  intros Hmem Hpos. unfold adjust_allocation. rewrite Hmem.
  cbn [negb allocations _record_portfolio_state].
  rewrite py_sum_real. fold (other_weights sid (allocations p)).
  real_ops. rewrite (Rltb_lt _ _ Hpos).
  unfold PyDict.values, PyDict.map_values. rewrite !map_map.
  apply map_ext. intros [k a]. unfold adjusted_weight. cbn [fst snd].
  destruct (String.eqb k sid); reflexivity.
Qed.

(** ** The diagonal of the covariance matrix *)

Lemma nth_map_combine {A B C : Type} (g : A * B -> C) :
  forall (k : nat) (l1 : list A) (l2 : list B) (x : A) (y : B) (d : C),
    nth_error l1 k = Some x -> nth_error l2 k = Some y ->
    nth k (map g (combine l1 l2)) d = g (x, y).
Proof.
  induction k as [|k IH]; intros [|a l1] [|b l2] x y d H1 H2;
    simpl in *; try discriminate.
  - congruence.
  - apply IH; assumption.
Qed.

Section Diagonal.
Context {F : Type} {num : Num F}.
Local Open Scope num_scope.

Lemma correlation_row_entry (n k : nat) :
  (k < n)%nat ->
  nth_error
    (map (fun j => if Nat.eqb k j then of_Z 1 else lit 2 10) (seq 0 n)) k
  = Some (of_Z 1 : F).
Proof.
  intros Hlt. rewrite nth_error_map, nth_error_seq.
  destruct (Nat.ltb_spec k n) as [_|Hge]; [|lia].
  simpl. rewrite Nat.eqb_refl. reflexivity.
Qed.

(** The diagonal, read off the rows [k, k+1, ...] that belong to a suffix of
    the vector [u]. *)
Lemma diagonal_of_suffix (u : list F) :
  forall (suffix : list F) (k : nat),
    (forall j a, nth_error suffix j = Some a ->
                 nth_error u (k + j) = Some a) ->
    map (fun ir => nth (fst ir) (snd ir) (of_Z 0))
        (combine (seq k (List.length suffix))
           (map (fun rs =>
                   map (fun xy => fst xy * snd xy)
                       (combine (fst rs) (snd rs)))
                (combine
                   (map (fun a => map (fun b => a * b) u) suffix)
                   (map (fun i =>
                           map (fun j => if Nat.eqb i j then of_Z 1
                                         else lit 2 10)
                               (seq 0 (List.length u)))
                        (seq k (List.length suffix))))))
    = map (fun a => a * a * of_Z 1) suffix.
Proof.
  induction suffix as [|a suffix IH]; intros k Hsuffix; [reflexivity|].
  cbn [List.length seq map combine fst snd]. f_equal.
  - assert (Hk : nth_error u k = Some a).
    { rewrite <- (Nat.add_0_r k). apply Hsuffix. reflexivity. }
    assert (Hlt : (k < List.length u)%nat).
    { apply nth_error_Some. rewrite Hk. discriminate. }
    rewrite (nth_map_combine (fun xy => fst xy * snd xy) k _ _ (a * a) (of_Z 1)).
    + reflexivity.
    + rewrite nth_error_map, Hk. reflexivity.
    + apply correlation_row_entry. exact Hlt.
  - apply IH. intros j b Hj.
    replace (S k + j)%nat with (k + S j)%nat by lia.
    apply Hsuffix. exact Hj.
Qed.

Lemma covariance_diagonal (u : list F) :
  np_diag (mat_mul_elementwise (np_outer u u)
                               (correlation_matrix (List.length u)))
  = map (fun a => a * a * of_Z 1) u.
Proof.
  unfold np_diag, mat_mul_elementwise, np_outer, correlation_matrix.
  rewrite length_map, length_combine, !length_map, length_seq, Nat.min_id.
  apply (diagonal_of_suffix u u 0). intros j a Hj. exact Hj.
Qed.

(** The array of weights, entry by entry. *)
Lemma optimized_weight_array_entries (strategies : list (StrategyScore F)) :
  optimized_weight_array strategies
  = map (fun w =>
           w / np_sum
                 (map (fun s =>
                         of_Z 1 /
                         fsqrt (fsqrt (m_max_drawdown (performance_metrics s)
                                       * m_max_drawdown (performance_metrics s))
                                * fsqrt (m_max_drawdown (performance_metrics s)
                                         * m_max_drawdown (performance_metrics s))
                                * of_Z 1))
                      strategies))
        (map (fun s =>
                of_Z 1 /
                fsqrt (fsqrt (m_max_drawdown (performance_metrics s)
                              * m_max_drawdown (performance_metrics s))
                       * fsqrt (m_max_drawdown (performance_metrics s)
                                * m_max_drawdown (performance_metrics s))
                       * of_Z 1))
             strategies).
Proof.
  unfold optimized_weight_array.
  rewrite <- (length_map (fun s =>
                 m_max_drawdown (performance_metrics s)
                 * m_max_drawdown (performance_metrics s)) strategies).
  rewrite <- (length_map fsqrt).
  rewrite covariance_diagonal. rewrite !map_map. reflexivity.
Qed.

(** A dictionary comprehension over distinct keys lists its entries in
    order. *)
Lemma comprehension_distinct {A V : Type} (key : A -> string) (val : A -> V) :
  forall (xs : list A) (acc : PyDict.t V),
    NoDup (map key xs) ->
    (forall k, In k (PyDict.keys acc) -> ~ In k (map key xs)) ->
    fold_left (fun d x => PyDict.set d (key x) (val x)) xs acc
    = acc ++ map (fun x => (key x, val x)) xs.
Proof.
  induction xs as [|x xs IH]; intros acc Hnodup Hdisj; simpl.
  - rewrite app_nil_r. reflexivity.
  - simpl in Hnodup. inversion Hnodup as [|? ? Hnotin Hnodup']; subst.
    rewrite PyDict_set_fresh.
    2:{ intros Hin. apply (Hdisj _ Hin). left. reflexivity. }
    rewrite IH; [rewrite <- app_assoc; reflexivity | exact Hnodup' |].
    intros k Hin. rewrite PyDict_keys_app, in_app_iff in Hin.
    destruct Hin as [Hin|[Hin|[]]].
    + intros Hk. apply (Hdisj _ Hin). right. exact Hk.
    + simpl in Hin. subst k. exact Hnotin.
Qed.

(** With distinct identifiers, the weights of the allocation map written by
    [update_portfolio] are the entries of the weight array, in order. *)
Lemma update_portfolio_weights (p : Portfolio F)
    (strategy_scores : list (StrategyScore F)) :
  filter (fun score => min_score_threshold p <=? overall_score score)
         strategy_scores <> [] ->
  NoDup (map (@StrategyEvaluator.strategy_id F)
             (filter (fun score => min_score_threshold p <=? overall_score score)
                     strategy_scores)) ->
  map (@weight F)
      (PyDict.values
         (allocations (StrategyPortfolio.update_portfolio p strategy_scores)))
  = optimized_weight_array
      (filter (fun score => min_score_threshold p <=? overall_score score)
              strategy_scores).
Proof.
  intros Hvalid Hnodup. unfold StrategyPortfolio.update_portfolio.
  destruct (filter _ strategy_scores) as [|first valid] eqn:Hfilter;
    [contradiction|].
  cbn [allocations _record_portfolio_state].
  unfold _optimize_weights, PyDict.comprehension.
  set (array := optimized_weight_array (first :: valid)).
  assert (Hlen : List.length array = List.length (first :: valid)).
  { unfold array. rewrite optimized_weight_array_entries, !length_map.
    reflexivity. }
  rewrite comprehension_distinct.
  - unfold PyDict.empty, PyDict.values, PyDict.map_values.
    cbn [app]. rewrite !map_map. cbn [fst snd weight].
    clearbody array. clear -Hlen. revert array Hlen.
    induction (first :: valid) as [|s l IH]; intros [|w array] Hlen;
      simpl in *; try discriminate; [reflexivity|].
    f_equal. apply IH. lia.
  - clearbody array.
    replace (map (fun sw => StrategyEvaluator.strategy_id (fst sw))
                 (combine (first :: valid) array))
      with (map (@StrategyEvaluator.strategy_id F) (first :: valid));
      [exact Hnodup|].
    clear -Hlen. revert array Hlen.
    induction (first :: valid) as [|s l IH]; intros [|w array] Hlen;
      simpl in *; try discriminate; [reflexivity|].
    f_equal. apply IH. lia.
  - intros k [].
Qed.

End Diagonal.

(** ** The weight invariant *)

(** The raw inverse-risk weight of a non-zero drawdown is positive. *)
Lemma raw_weight_positive (md : R) :
  md <> 0%R ->
  (0 < 1 / sqrt (sqrt (md * md) * sqrt (md * md) * 1))%R.
Proof.
  intros Hmd.
  assert (Hsq : (0 < md * md)%R) by nra.
  assert (Hroot : (0 < sqrt (md * md))%R) by (apply sqrt_lt_R0; exact Hsq).
  assert (Hprod : (0 < sqrt (md * md) * sqrt (md * md) * 1)%R) by nra.
  apply sqrt_lt_R0 in Hprod.
  unfold Rdiv. rewrite Rmult_1_l. apply Rinv_0_lt_compat. exact Hprod.
Qed.

(** Over the reals the array of weights sums to one. *)
Lemma optimized_weight_array_sum (strategies : list (StrategyScore R)) :
  strategies <> [] ->
  Forall (fun s => m_max_drawdown (performance_metrics s) <> 0%R) strategies ->
  Rsum (optimized_weight_array strategies) = 1%R.
Proof.
  intros Hne Hmd. rewrite optimized_weight_array_entries.
  rewrite np_sum_real. real_ops. rewrite Rsum_scaled.
  assert (Hpos : (0 < Rsum
            (map (fun s : StrategyScore R =>
                    1 / sqrt (sqrt (m_max_drawdown (performance_metrics s)
                                    * m_max_drawdown (performance_metrics s))
                              * sqrt (m_max_drawdown (performance_metrics s)
                                      * m_max_drawdown (performance_metrics s))
                              * 1))
                 strategies))%R).
  { apply Rsum_positive.
    - destruct strategies; [contradiction|discriminate].
    - apply Forall_map. eapply Forall_impl; [|exact Hmd].
      intros s Hs. apply raw_weight_positive. exact Hs. }
  field. lra.
Qed.

(** X10: in exact real arithmetic the weights sum to one after an
    [update_portfolio] whose qualifying scores have distinct identifiers and
    non-zero drawdowns, and after an [adjust_allocation] of an allocated
    strategy when the other weights have a positive sum; when the adjusted
    strategy is the only one allocated, the sum is [min(new_weight, 0.25)]. *)
Theorem X10_total_weight_over_reals :
  (forall (p : Portfolio R) (strategy_scores : list (StrategyScore R)),
      filter (fun score => min_score_threshold p <=? overall_score score)%num
             strategy_scores <> [] ->
      NoDup (map (@StrategyEvaluator.strategy_id R)
                 (filter (fun score =>
                            min_score_threshold p <=? overall_score score)%num
                         strategy_scores)) ->
      Forall (fun s => m_max_drawdown (performance_metrics s) <> 0%R)
             (filter (fun score =>
                        min_score_threshold p <=? overall_score score)%num
                     strategy_scores) ->
      total_weight (StrategyPortfolio.update_portfolio p strategy_scores) = 1%R)
  /\ (forall (p : Portfolio R) (sid : string) (new_weight : R),
        NoDup (PyDict.keys (allocations p)) ->
        PyDict.mem (allocations p) sid = true ->
        (0 < Rsum (other_weights sid (allocations p)))%R ->
        total_weight (adjust_allocation p sid new_weight) = 1%R)
  /\ (forall (p : Portfolio R) (sid : string) (a : StrategyAllocation R)
             (new_weight : R),
        allocations p = [(sid, a)] ->
        total_weight (adjust_allocation p sid new_weight)
        = py_min new_weight (lit 25 100)).
Proof.
  split; [|split].
  - intros p strategy_scores Hvalid Hnodup Hmd.
    unfold total_weight. rewrite py_sum_real.
    rewrite (update_portfolio_weights p strategy_scores Hvalid Hnodup).
    apply optimized_weight_array_sum; assumption.
  - intros p sid new_weight Hnodup Hmem Hpos.
    unfold total_weight. rewrite py_sum_real.
    rewrite (adjust_allocation_weights p sid new_weight Hmem Hpos).
    rewrite adjusted_sum_present;
      [|exact Hnodup | apply PyDict_mem_In; exact Hmem].
    field. lra.
  - intros p sid a new_weight Hp.
    unfold total_weight, adjust_allocation, PyDict.mem. rewrite Hp.
    cbn [PyDict.get]. rewrite String.eqb_refl.
    cbn [negb filter fst snd map]. rewrite String.eqb_refl.
    cbn [negb filter fst snd map]. unfold py_sum at 2.
    cbn [fold_left]. real_ops. rewrite (Rltb_ge 0 0) by lra.
    cbn [allocations _record_portfolio_state PyDict.map_values PyDict.values
         map fst snd].
    rewrite String.eqb_refl. cbn [weight].
    rewrite py_sum_real. unfold Rsum. simpl. lra.
Qed.

Lemma two_weights_NoDup :
  NoDup (PyDict.keys
           (allocations
              (Examples.portfolio_of_weights (F:=R)
                 [("A"%string, lit 6 10); ("B"%string, lit 4 10)]))).
Proof.
  simpl. constructor.
  - intros [H|[]]. discriminate.
  - constructor; [intros []|constructor].
Qed.

(** An instance of X10: the weights 0.6 and 0.4, the first adjusted to
    0.1. *)
Lemma X10_witness_two_weights :
  total_weight
    (adjust_allocation
       (Examples.portfolio_of_weights (F:=R)
          [("A"%string, lit 6 10); ("B"%string, lit 4 10)])
       "A"%string (lit 1 10))
  = 1%R.
Proof.
  apply (proj1 (proj2 X10_total_weight_over_reals)).
  - apply two_weights_NoDup.
  - reflexivity.
  - unfold other_weights, lit. simpl. lra.
Defined.

(** ** The weights of a single strategy *)

Section SingleStrategy.
Context {F : Type} {num : Num F}.
Local Open Scope num_scope.

(** With one strategy allocated, [adjust_allocation] has no other weight to
    rescale: the strategy stays the only one allocated and the weights sum
    to the clamped new weight. *)
Lemma adjust_single_allocation (p : Portfolio F) (sid : string)
    (a : StrategyAllocation F) (new_weight : F) :
  allocations p = [(sid, a)] ->
  PyDict.keys (allocations (adjust_allocation p sid new_weight)) = [sid]
  /\ total_weight (adjust_allocation p sid new_weight)
     = of_Z 0 + py_min new_weight (lit 25 100).
Proof.
  intros Hp. unfold total_weight, adjust_allocation, PyDict.mem.
  rewrite Hp. cbn [PyDict.get]. rewrite String.eqb_refl.
  cbn [negb filter fst snd map]. rewrite String.eqb_refl.
  cbn [negb filter fst snd map].
  destruct (of_Z 0 <? py_sum []);
    cbn [allocations _record_portfolio_state PyDict.map_values PyDict.values
         PyDict.keys map fst snd];
    rewrite ?String.eqb_refl; cbn [negb weight map fst snd];
    rewrite ?String.eqb_refl; cbn [weight];
    split; reflexivity.
Qed.

End SingleStrategy.

(** C1: the weights of a portfolio that holds one strategy do not sum to
    one after [adjust_allocation]: there is no other weight to rescale, and
    the sum is [0 + min(new_weight, 0.25)] whatever the new weight.  On
    binary64, for the single strategy ["a"], which [update_portfolio]
    allocated at weight one, the sum is 0.1 after an adjustment to 0.1 and
    0.25 after an adjustment to 0.9: the allocation map is not empty and the
    sum is not within 1e-6 of one. *)
Theorem C1_single_strategy_total_weight :
  (forall (F : Type) (num : Num F) (p : Portfolio F) (sid : string)
          (a : StrategyAllocation F) (new_weight : F),
      allocations p = [(sid, a)] ->
      PyDict.keys (allocations (adjust_allocation p sid new_weight)) = [sid]
      /\ total_weight (adjust_allocation p sid new_weight)
         = (of_Z 0 + py_min new_weight (lit 25 100))%num)
  /\ total_weight (F:=float) Examples.one_strategy = PrimFloat.one
  /\ allocations
       (adjust_allocation (F:=float) Examples.one_strategy "a"%string
                          (lit 1 10)) <> []
  /\ total_weight
       (adjust_allocation (F:=float) Examples.one_strategy "a"%string
                          (lit 1 10)) = lit 1 10
  /\ (fabs (total_weight
              (adjust_allocation (F:=float) Examples.one_strategy "a"%string
                                 (lit 1 10)) - of_Z 1)
      <=? lit 1 1000000)%num = false
  /\ total_weight
       (adjust_allocation (F:=float) Examples.one_strategy "a"%string
                          (lit 9 10)) = lit 25 100
  /\ (fabs (total_weight
              (adjust_allocation (F:=float) Examples.one_strategy "a"%string
                                 (lit 9 10)) - of_Z 1)
      <=? lit 1 1000000)%num = false.
Proof.
  split.
  - intros F num p sid a new_weight. apply adjust_single_allocation.
  - split; [vm_compute; reflexivity|].
    split; [vm_compute; discriminate|].
    split; [vm_compute; reflexivity|].
    split; [vm_compute; reflexivity|].
    split; vm_compute; reflexivity.
Qed.

(** An instance of C1: the portfolio of the single strategy ["a"]. *)
Lemma C1_witness_single_strategy :
  total_weight
    (adjust_allocation (F:=float) Examples.one_strategy "a"%string (lit 1 10))
  = (of_Z 0 + py_min (lit 1 10) (lit 25 100))%num.
Proof.
  refine (proj2 (proj1 C1_single_strategy_total_weight float float_Num
                       Examples.one_strategy "a"%string _ (lit 1 10) _)).
  vm_compute. reflexivity.
Defined.

(** ** The least-squares slope of five scores *)

Lemma squared_residuals_five (y0 y1 y2 y3 y4 a b : R) :
  squared_residuals [y0; y1; y2; y3; y4] a b
  = ((y0 - b) ^ 2 + (y1 - (a + b)) ^ 2 + (y2 - (2 * a + b)) ^ 2
     + (y3 - (3 * a + b)) ^ 2 + (y4 - (4 * a + b)) ^ 2)%R.
Proof. unfold squared_residuals, Rsum. simpl. ring. Qed.

(** The line through five points that makes the squared residuals least is
    unique, and its slope is [(2 y4 + y3 - y1 - 2 y0) / 10]. *)
Lemma least_squares_five (y0 y1 y2 y3 y4 a : R) :
  least_squares_slope [y0; y1; y2; y3; y4] a
  <-> a = ((2 * y4 + y3 - y1 - 2 * y0) / 10)%R.
Proof.
  set (slope := ((2 * y4 + y3 - y1 - 2 * y0) / 10)%R).
  set (intercept := ((y0 + y1 + y2 + y3 + y4) / 5 - 2 * slope)%R).
  assert (Hid : forall a' b' : R,
             squared_residuals [y0; y1; y2; y3; y4] a' b'
             = (squared_residuals [y0; y1; y2; y3; y4] slope intercept
                + 5 * (b' - intercept + 2 * (a' - slope)) ^ 2
                + 10 * (a' - slope) ^ 2)%R).
  { intros a' b'. rewrite !squared_residuals_five.
    unfold intercept, slope. field. }
  split.
  - intros [b Hmin]. specialize (Hmin slope intercept).
    rewrite (Hid a b) in Hmin.
    pose proof (pow2_ge_0 (b - intercept + 2 * (a - slope))) as H1.
    pose proof (pow2_ge_0 (a - slope)) as H2.
    assert (Hzero : ((a - slope) ^ 2 = 0)%R) by lra.
    assert (Hdiff : (a - slope = 0)%R).
    { destruct (Req_dec (a - slope) 0) as [Hz|Hnz]; [exact Hz|].
      exfalso. apply (pow_nonzero _ 2) in Hnz. contradiction. }
    lra.
  - intros Ha. subst a. exists intercept. intros a' b'.
    rewrite (Hid a' b').
    pose proof (pow2_ge_0 (b' - intercept + 2 * (a' - slope))) as H1.
    pose proof (pow2_ge_0 (a' - slope)) as H2.
    lra.
Qed.

(** The closed form of the slope, on five points. *)
Lemma ols_slope_five (y0 y1 y2 y3 y4 : R) :
  ols_slope (F:=R) [y0; y1; y2; y3; y4]
  = ((2 * y4 + y3 - y1 - 2 * y0) / 10)%R.
Proof.
  unfold ols_slope, np_mean, np_sum, of_nat.
  cbn [List.length seq map combine fold_left fst snd Z.of_nat
       Pos.of_succ_nat Pos.succ].
  real_ops. field.
Qed.

(** The closed form is a least-squares solver on five points. *)
Lemma ols_slope_least_squares (ys : list R) :
  List.length ys = 5%nat -> least_squares_slope ys (ols_slope (F:=R) ys).
Proof.
  intros Hlen.
  destruct ys as [|y0 [|y1 [|y2 [|y3 [|y4 [|y5 rest]]]]]]; try discriminate.
  apply least_squares_five. apply ols_slope_five.
Qed.

(** C6: [should_retire_strategy] answers true exactly when the history ends
    with an overall score below 0.3, or the strategy is declining, or the
    history ends with three overall scores below 0.4; with no history it
    answers false.  [is_strategy_declining] answers true exactly when the
    history ends with five entries over whose overall scores the fitted
    slope is negative.  Over the reals, for a solver that returns the slope
    of a least-squares line, that is when [2 y4 + y3 - y1 - 2 y0] is
    negative for the five overall scores [y0, ..., y4] the history ends
    with: the least-squares slope of five points is a tenth of it. *)
Theorem C6_should_retire_strategy_iff :
  (forall (F : Type) (num : Num F) (polyfit_slope : list F -> F)
          (ev : Evaluator F) (sid : string),
      (should_retire_strategy polyfit_slope ev sid = true <->
         (exists older latest,
             get_strategy_history ev sid = older ++ [latest]
             /\ (overall_score latest <? lit 3 10)%num = true)
         \/ is_strategy_declining polyfit_slope ev sid = true
         \/ (exists older a b c,
               get_strategy_history ev sid = older ++ [a; b; c]
               /\ (overall_score a <? lit 4 10)%num = true
               /\ (overall_score b <? lit 4 10)%num = true
               /\ (overall_score c <? lit 4 10)%num = true))
      /\ (is_strategy_declining polyfit_slope ev sid = true <->
            exists older s0 s1 s2 s3 s4,
              get_strategy_history ev sid = older ++ [s0; s1; s2; s3; s4]
              /\ (polyfit_slope
                    [overall_score s0; overall_score s1; overall_score s2;
                     overall_score s3; overall_score s4]
                  <? of_Z 0)%num = true)
      /\ (get_strategy_history ev sid = [] ->
          should_retire_strategy polyfit_slope ev sid = false))
  /\ (forall polyfit_slope : list R -> R,
        (forall ys : list R,
            List.length ys = 5%nat ->
            least_squares_slope ys (polyfit_slope ys)) ->
        forall (ev : Evaluator R) (sid : string),
          is_strategy_declining polyfit_slope ev sid = true <->
          exists older s0 s1 s2 s3 s4,
            get_strategy_history ev sid = older ++ [s0; s1; s2; s3; s4]
            /\ (2 * overall_score s4 + overall_score s3
                - overall_score s1 - 2 * overall_score s0 < 0)%R)
  /\ (forall y0 y1 y2 y3 y4 a : R,
        least_squares_slope [y0; y1; y2; y3; y4] a
        <-> a = ((2 * y4 + y3 - y1 - 2 * y0) / 10)%R).
Proof.
  split; [|split].
  - intros F num polyfit_slope ev sid.
    destruct (should_retire_strategy_spec polyfit_slope ev sid)
      as [Hretire Hnone].
    split; [exact Hretire|]. split; [|exact Hnone].
    apply is_strategy_declining_last_five.
  - intros polyfit_slope Hsolver ev sid.
    rewrite is_strategy_declining_last_five.
    assert (Hsign : forall s0 s1 s2 s3 s4 : StrategyScore R,
               (polyfit_slope
                  [overall_score s0; overall_score s1; overall_score s2;
                   overall_score s3; overall_score s4] <? of_Z 0)%num = true
               <-> (2 * overall_score s4 + overall_score s3
                    - overall_score s1 - 2 * overall_score s0 < 0)%R).
    { intros s0 s1 s2 s3 s4.
      pose proof (Hsolver [overall_score s0; overall_score s1;
                           overall_score s2; overall_score s3;
                           overall_score s4] eq_refl) as Hls.
      apply least_squares_five in Hls. rewrite Hls. real_ops.
      unfold Rltb. destruct (Rlt_dec _ 0) as [Hneg|Hnonneg].
      - split; [intros _; lra | reflexivity].
      - split; [discriminate | intros Hneg; lra]. }
    split; intros (older & s0 & s1 & s2 & s3 & s4 & Hhist & Hslope);
      exists older, s0, s1, s2, s3, s4; (split; [exact Hhist|]).
    + apply (proj1 (Hsign s0 s1 s2 s3 s4)). exact Hslope.
    + apply (proj2 (Hsign s0 s1 s2 s3 s4)). exact Hslope.
  - apply least_squares_five.
Qed.

(** An instance of C6: over the reals, with the closed form for solver, the
    history [0.5, 0.45, 0.38, 0.30, 0.25] is declining and its strategy is
    retired; so it is on binary64, where a strategy without history is not
    retired. *)
Lemma C6_witness_declining_history :
  is_strategy_declining (@ols_slope R _)
    (Examples.evaluator_with_history Examples.declining_history)
    "s"%string = true
  /\ should_retire_strategy (@ols_slope R _)
       (Examples.evaluator_with_history Examples.declining_history)
       "s"%string = true
  /\ is_strategy_declining (@ols_slope float _)
       (Examples.evaluator_with_history Examples.declining_history)
       "s"%string = true
  /\ should_retire_strategy (@ols_slope float _)
       (Examples.evaluator_with_history Examples.declining_history)
       "s"%string = true
  /\ should_retire_strategy (@ols_slope float _) StrategyEvaluator.init
                            "s"%string = false.
Proof.
  assert (Hreal : is_strategy_declining (@ols_slope R _)
                    (Examples.evaluator_with_history
                       Examples.declining_history) "s"%string = true).
  { apply (proj1 (proj2 C6_should_retire_strategy_iff) (@ols_slope R _)
                 ols_slope_least_squares).
    exists [], (Examples.score_of "s"%string (lit 50 100) (lit 1 10)),
      (Examples.score_of "s"%string (lit 45 100) (lit 1 10)),
      (Examples.score_of "s"%string (lit 38 100) (lit 1 10)),
      (Examples.score_of "s"%string (lit 30 100) (lit 1 10)),
      (Examples.score_of "s"%string (lit 25 100) (lit 1 10)).
    split; [reflexivity|].
    cbn [overall_score Examples.score_of]. unfold lit. real_ops. lra. }
  assert (Hfloat : is_strategy_declining (@ols_slope float _)
                     (Examples.evaluator_with_history
                        Examples.declining_history) "s"%string = true).
  { apply (proj1 (proj2 (proj1 C6_should_retire_strategy_iff float _
                           (@ols_slope float _) _ "s"%string))).
    exists [], (Examples.score_of "s"%string (lit 50 100) (lit 1 10)),
      (Examples.score_of "s"%string (lit 45 100) (lit 1 10)),
      (Examples.score_of "s"%string (lit 38 100) (lit 1 10)),
      (Examples.score_of "s"%string (lit 30 100) (lit 1 10)),
      (Examples.score_of "s"%string (lit 25 100) (lit 1 10)).
    split; [reflexivity | vm_compute; reflexivity]. }
  split; [exact Hreal|].
  split.
  { apply (proj1 (proj1 C6_should_retire_strategy_iff R _
                    (@ols_slope R _) _ "s"%string)).
    right. left. exact Hreal. }
  split; [exact Hfloat|].
  split.
  { apply (proj1 (proj1 C6_should_retire_strategy_iff float _
                    (@ols_slope float _) _ "s"%string)).
    right. left. exact Hfloat. }
  apply (proj2 (proj2 (proj1 C6_should_retire_strategy_iff float _
                         (@ols_slope float _) StrategyEvaluator.init
                         "s"%string))).
  reflexivity.
Defined.

(* ------------------------------------------------------------------ *)
(** * Further properties of the backtest engine *)

Section SimulationLoop.
Context {F : Type} {num : Num F}.
Local Open Scope num_scope.

Lemma bar_step_count (strategy : Strategy F) (st : Simulation F)
    (seen : list (Bar F)) (current_bar : Bar F) :
  (2 * List.length (sim_trades (bar_step strategy st seen current_bar))
   + open_count (bar_step strategy st seen current_bar)
   <= 2 * List.length (sim_trades st) + open_count st + 1)%nat.
Proof.
  unfold bar_step, open_count.
  destruct (current_position st) as [pos|] eqn:Hpos.
  - destruct (generate_signal strategy (Prefix seen) =? of_Z 0).
    + cbn [sim_trades current_position]. rewrite length_app. simpl. lia.
    + rewrite Hpos. lia.
  - destruct (fneqb (generate_signal strategy (Prefix seen)) (of_Z 0)).
    + cbn [sim_trades current_position]. lia.
    + rewrite Hpos. lia.
Qed.

Lemma simulate_count (strategy : Strategy F) :
  forall (rest seen : list (Bar F)) (st : Simulation F),
    (2 * List.length (sim_trades (simulate strategy seen rest st))
     + open_count (simulate strategy seen rest st)
     <= 2 * List.length (sim_trades st) + open_count st + List.length rest)%nat.
Proof.
  induction rest as [|current_bar rest IH]; intros seen st.
  - simpl. lia.
  - cbn [simulate]. cbv zeta.
    specialize (IH (seen ++ [current_bar])
                   (bar_step strategy st (seen ++ [current_bar]) current_bar)).
    pose proof (bar_step_count strategy st (seen ++ [current_bar]) current_bar).
    simpl List.length. lia.
Qed.

Lemma simulate_same_answers (s1 s2 : Strategy F) :
  forall (rest seen : list (Bar F)) (st : Simulation F),
    (forall k, (1 <= k <= List.length rest)%nat ->
               generate_signal s1 (Prefix (seen ++ firstn k rest))
               = generate_signal s2 (Prefix (seen ++ firstn k rest))) ->
    simulate s1 seen rest st = simulate s2 seen rest st.
Proof.
  induction rest as [|current_bar rest IH]; intros seen st Hagree.
  - reflexivity.
  - cbn [simulate]. cbv zeta.
    assert (Hstep : bar_step s1 st (seen ++ [current_bar]) current_bar
                    = bar_step s2 st (seen ++ [current_bar]) current_bar).
    { unfold bar_step.
      assert (H1 : (1 <= 1 <= List.length (current_bar :: rest))%nat)
        by (simpl; lia).
      apply Hagree in H1. cbn [firstn] in H1. rewrite H1. reflexivity. }
    rewrite Hstep. apply IH. intros k Hk.
    rewrite <- app_assoc. apply (Hagree (S k)). simpl. lia.
Qed.

End SimulationLoop.

Section EngineResults.
Context {F : Type} {num : Num F} {inf : HasInf F}.
Variable market_regime : list (Bar F) -> MarketCondition.
Local Open Scope num_scope.

(** X1: [run_backtest] on a loaded frame either stops with an [IndexError],
    the frame having fewer than twenty rows, or returns a result; every
    trade of a result takes one bar to open and a later bar to close: a
    result over [n] bars holds at most [n/2] trades, and one return per
    trade. *)
Theorem X1_backtest_trade_count :
  forall (strategy : Strategy F) (data : list (Bar F))
         (start_date end_date : Z) (initial_capital : F),
    match backtest market_regime strategy data start_date end_date
                   initial_capital with
    | Ok result =>
        (20 <= List.length data)%nat
        /\ (2 * List.length (trades result) <= List.length data)%nat
        /\ List.length (returns result) = List.length (trades result)
    | Raise err =>
        err = IndexError /\ (List.length data < 20)%nat
    end.
Proof.
  intros strategy data start_date end_date initial_capital.
  destruct (backtest_cases market_regime strategy data start_date end_date
              initial_capital) as [[Hshort Hraise]|[Hlong Hok]].
  - rewrite Hraise. split; [reflexivity|exact Hshort].
  - rewrite Hok. split; [exact Hlong|].
    unfold backtest_result. cbn [trades returns]. split.
    + pose proof (simulate_count strategy data []
                    {| positions := []; sim_trades := [];
                       capital := initial_capital; current_position := None |})
        as H.
      unfold open_count at 2 in H. cbn [sim_trades current_position] in H.
      simpl List.length in H. lia.
    + apply length_map.
Qed.

(** X2: the engine shows a strategy nothing but prefixes of the frame: two
    strategies with the same identifier that answer alike on every non-empty
    prefix of the frame get the same outcome. *)
Theorem X2_backtest_reads_prefixes_only :
  forall (s1 s2 : Strategy F) (data : list (Bar F))
         (start_date end_date : Z) (initial_capital : F),
    strategy_attr_id s1 = strategy_attr_id s2 ->
    (forall k, (1 <= k <= List.length data)%nat ->
               generate_signal s1 (Prefix (firstn k data))
               = generate_signal s2 (Prefix (firstn k data))) ->
    backtest market_regime s1 data start_date end_date initial_capital
    = backtest market_regime s2 data start_date end_date initial_capital.
Proof.
  intros s1 s2 data start_date end_date initial_capital Hid Hagree.
  unfold backtest, backtest_result. rewrite Hid.
  rewrite (simulate_same_answers s1 s2 data [] _ Hagree). reflexivity.
Qed.

End EngineResults.

(** An instance of X2: the alternating strategy and a copy of it that
    answers differently on the symbol only, over twenty bars. *)
Lemma X2_witness_alternating :
  backtest (F:=float) Examples.always_sideways Examples.alternating_strategy
           Examples.swing_bars 0 19 (of_Z 100000)
  = backtest (F:=float) Examples.always_sideways
             {| strategy_attr_id := "A";
                generate_signal :=
                  fun input =>
                    match input with
                    | Prefix data =>
                        if Nat.even (List.length data) then of_Z 0 else of_Z 1
                    | Symbol _ => of_Z 0
                    end;
                get_confidence := None;
                has_optimize_parameters := true |}
             Examples.swing_bars 0 19 (of_Z 100000).
Proof.
  apply (X2_backtest_reads_prefixes_only (F:=float) Examples.always_sideways).
  - reflexivity.
  - intros k Hk. reflexivity.
Defined.

(** ** Metrics *)

Lemma IZR_of_nat_nonneg (n : nat) : (0 <= IZR (Z.of_nat n))%R.
Proof. apply IZR_le. lia. Qed.

Lemma ratio_in_unit_interval (w t : R) :
  (0 <= w <= t)%R -> (0 < t)%R -> (0 <= w / t <= 1)%R.
Proof.
  intros [Hw Hwt] Ht. unfold Rdiv.
  assert (Hi : (0 < / t)%R) by (apply Rinv_0_lt_compat; exact Ht).
  assert (Hone : (t * / t = 1)%R) by (apply Rinv_r; lra).
  split; nra.
Qed.

(** X3: over the reals the win rate of every result of [run_backtest] is a
    fraction between zero and one, and it is zero when the result has no
    trade. *)
Theorem X3_win_rate_is_a_fraction :
  forall (inf : HasInf R)
         (market_regime : list (Bar R) -> MarketCondition)
         (strategy : Strategy R) (data : list (Bar R))
         (start_date end_date : Z) (initial_capital : R),
    match backtest market_regime strategy data start_date end_date
                   initial_capital with
    | Ok result =>
        (0 <= BacktestEngine.win_rate result <= 1)%R
        /\ (trades result = [] -> BacktestEngine.win_rate result = 0%R)
    | Raise _ => (List.length data < 20)%nat
    end.
Proof.
  intros inf regime strategy data start_date end_date initial_capital.
  destruct (backtest_cases regime strategy data start_date end_date
              initial_capital) as [[Hshort Hraise]|[Hlong Hok]].
  - rewrite Hraise. exact Hshort.
  - rewrite Hok. unfold backtest_result.
    cbn [BacktestEngine.win_rate trades].
    set (closed := sim_trades _). split.
    + destruct (Nat.ltb_spec 0 (List.length closed)) as [Hpos|Hzero].
      * unfold of_nat. real_ops. apply ratio_in_unit_interval.
        -- split; [apply IZR_of_nat_nonneg|].
           apply IZR_le. apply inj_le. apply filter_length_le.
        -- apply IZR_lt. lia.
      * real_ops. lra.
    + intros Hno. rewrite Hno. reflexivity.
Qed.

Section DrawdownOfGains.

Lemma np_maximum_real (a b : R) :
  (a <= b)%R -> np_maximum (F:=R) a b = b.
Proof.
  intros Hab. unfold np_maximum, is_nan. real_ops.
  rewrite !Reqb_refl. cbn [negb].
  unfold Rltb. destruct (Rlt_dec a b); [reflexivity|lra].
Qed.

Lemma drawdowns_of_gains :
  forall (rs : list R) (acc : R),
    (0 < acc)%R -> Forall (fun r => 0 <= r)%R rs ->
    map (fun cm : R * R => fst cm / snd cm - 1)%R
        (combine (cumprod_from acc (map (fun r => 1 + r)%R rs))
                 (maximum_accumulate_from acc
                    (cumprod_from acc (map (fun r => 1 + r)%R rs))))
    = map (fun _ => 0%R) rs.
Proof.
  induction rs as [|r rs IH]; intros acc Hacc Hgains;
    [reflexivity|].
  inversion Hgains as [|? ? Hr Hrest]; subst.
  cbn [map cumprod_from maximum_accumulate_from combine fst snd]. real_ops.
  assert (Hnext : (acc <= acc * (1 + r))%R) by nra.
  rewrite (np_maximum_real _ _ Hnext). f_equal.
  - field. nra.
  - apply IH; [nra | exact Hrest].
Qed.

Lemma py_min_list_zeros (l : list R) :
  Forall (fun x => x = 0%R) l -> py_min_list (F:=R) 0%R l = 0%R.
Proof.
  unfold py_min_list. induction 1 as [|x l Hx Hl IH]; [reflexivity|].
  subst x. cbn [fold_left]. unfold py_min at 2. real_ops.
  rewrite (Rltb_ge 0 0) by lra. exact IH.
Qed.

(** X4: over the reals the maximum drawdown is never negative, and it is
    zero for a series without a losing return. *)
Theorem X4_max_drawdown_of_gains :
  forall rs : list R,
    (0 <= calculate_max_drawdown rs)%R
    /\ (Forall (fun r => 0 <= r)%R rs ->
        calculate_max_drawdown rs = 0%R).
Proof.
  intros rs. split.
  - unfold calculate_max_drawdown.
    destruct rs as [|r rs]; [real_ops; lra|].
    destruct (map _ (combine _ _)); real_ops; [lra | apply Rabs_pos].
  - intros Hgains. unfold calculate_max_drawdown.
    destruct rs as [|r rs]; [reflexivity|].
    inversion Hgains as [|? ? Hr Hrest]; subst.
    cbn [map np_cumprod np_maximum_accumulate combine fst snd]. real_ops.
    assert (Hfirst : (0 < 1 + r)%R) by lra.
    rewrite (drawdowns_of_gains rs (1 + r) Hfirst Hrest).
    replace ((1 + r) / (1 + r) - 1)%R with 0%R by (field; lra).
    rewrite py_min_list_zeros.
    + apply Rabs_R0.
    + apply Forall_forall. intros x Hin. apply in_map_iff in Hin.
      destruct Hin as (_ & Hx & _). symmetry. exact Hx.
Qed.

End DrawdownOfGains.

(** An instance of X4: three gains. *)
Lemma X4_witness_three_gains :
  calculate_max_drawdown (F:=R) [lit 1 100; 0%R; lit 2 100] = 0%R.
Proof.
  apply (proj2 (X4_max_drawdown_of_gains [lit 1 100; 0%R; lit 2 100])).
  unfold lit. real_ops. repeat constructor; lra.
Defined.

(** X5: in binary64 a trade list without a losing trade has the profit
    factor plus infinity, whatever its profits. *)
Theorem X5_profit_factor_without_losses :
  forall trades : list (Trade float),
    forallb (fun t => negb (pnl t <? of_Z 0)%num) trades = true ->
    calculate_profit_factor trades = PrimFloat.infinity.
Proof.
  intros trades Hnone. unfold calculate_profit_factor.
  rewrite (filter_none (fun t => (pnl t <? of_Z 0)%num) trades Hnone).
  reflexivity.
Qed.

(** An instance of X5: the three trades of the lifecycle example without the
    losing one. *)
Lemma X5_witness_two_winners :
  calculate_profit_factor (F:=float)
    [{| entry_time := 0; exit_time := 1; entry_price := of_Z 100;
        exit_price := of_Z 110; type := long; pnl := of_Z 200 |};
     {| entry_time := 4; exit_time := 5; entry_price := of_Z 100;
        exit_price := of_Z 120; type := long; pnl := of_Z 400 |}]
  = PrimFloat.infinity.
Proof.
  apply X5_profit_factor_without_losses. vm_compute. reflexivity.
Defined.

(** X6: over the reals a series of one return [r] other than -1 has the
    Sharpe ratio zero, the maximum drawdown zero, and [r] itself as
    risk-adjusted return (its deviation is zero and the divisor falls back
    to one). *)
Theorem X6_single_return_metrics :
  forall r : R,
    r <> (-1)%R ->
    calculate_sharpe_ratio [r] = 0%R
    /\ calculate_max_drawdown [r] = 0%R
    /\ calculate_risk_adjusted_return [r] = r.
Proof.
  intros r Hr. split; [reflexivity|]. split.
  - unfold calculate_max_drawdown.
    cbn [map np_cumprod np_maximum_accumulate cumprod_from
         maximum_accumulate_from combine fst snd py_min_list fold_left].
    real_ops. replace ((1 + r) / (1 + r) - 1)%R with 0%R by (field; lra).
    apply Rabs_R0.
  - unfold calculate_risk_adjusted_return, np_std, np_mean.
    rewrite !np_sum_real. cbn [map List.length Rsum fold_right].
    unfold of_nat. real_ops. simpl Z.of_nat.
    change (Z.max (1 - 0) 0) with 1%Z.
    replace (((r - (r + 0) / 1) * (r - (r + 0) / 1) + 0) / 1)%R
      with 0%R by field.
    rewrite sqrt_0. rewrite (Rltb_ge 0 0) by lra. field.
Qed.

(** An instance of X6: one return of two per mille. *)
Lemma X6_witness_one_trade :
  calculate_risk_adjusted_return (F:=R) [lit 2 1000] = lit 2 1000.
Proof.
  refine (proj2 (proj2 (X6_single_return_metrics (lit 2 1000) _))).
  unfold lit. real_ops. lra.
Defined.

(** ** Dictionaries *)

Section DictionaryLaws.
Context {V : Type}.

Lemma PyDict_get_set_same (d : PyDict.t V) (k : string) (v : V) :
  PyDict.get (PyDict.set d k v) k = Some v.
Proof.
  induction d as [|[k' v'] d IH]; simpl.
  - rewrite String.eqb_refl. reflexivity.
  - destruct (String.eqb_spec k' k) as [Heq|Hne]; simpl.
    + subst k'. rewrite String.eqb_refl. reflexivity.
    + destruct (String.eqb_spec k' k); [contradiction|exact IH].
Qed.

Lemma PyDict_get_set_other (d : PyDict.t V) (k k0 : string) (v : V) :
  k0 <> k -> PyDict.get (PyDict.set d k v) k0 = PyDict.get d k0.
Proof.
  intros Hne. induction d as [|[k' v'] d IH]; simpl.
  - destruct (String.eqb_spec k k0); [congruence|reflexivity].
  - destruct (String.eqb_spec k' k) as [Heq|Hne']; simpl.
    + subst k'. destruct (String.eqb_spec k k0); [congruence|reflexivity].
    + destruct (String.eqb_spec k' k0); [reflexivity|exact IH].
Qed.

Lemma PyDict_keys_set (d : PyDict.t V) (k : string) (v : V) :
  PyDict.keys (PyDict.set d k v)
  = if PyDict.mem d k then PyDict.keys d else PyDict.keys d ++ [k].
Proof.
  unfold PyDict.mem.
  induction d as [|[k' v'] d IH]; simpl; [reflexivity|].
  destruct (String.eqb_spec k' k) as [Heq|Hne]; simpl; [reflexivity|].
  rewrite IH. destruct (PyDict.get d k); reflexivity.
Qed.

Lemma PyDict_set_NoDup (d : PyDict.t V) (k : string) (v : V) :
  NoDup (PyDict.keys d) -> NoDup (PyDict.keys (PyDict.set d k v)).
Proof.
  intros Hnodup. rewrite PyDict_keys_set.
  destruct (PyDict.mem d k) eqn:Hmem; [exact Hnodup|].
  apply NoDup_app; [exact Hnodup | repeat constructor; intros [] |].
  intros x Hin [Hx|[]]. subst x.
  apply PyDict_mem_In in Hin. congruence.
Qed.

Lemma PyDict_del_keys (d : PyDict.t V) (k : string) :
  NoDup (PyDict.keys d) ->
  PyDict.del d k = filter (fun kv => negb (String.eqb (fst kv) k)) d.
Proof.
  induction d as [|[k' v] d IH]; simpl; intros Hnodup; [reflexivity|].
  inversion Hnodup as [|? ? Hnotin Hnodup']; subst.
  destruct (String.eqb_spec k' k) as [Heq|Hne]; simpl.
  - subst k'. symmetry. clear IH Hnodup Hnodup'.
    induction d as [|[k1 v1] d IH]; simpl; [reflexivity|].
    destruct (String.eqb_spec k1 k) as [Heq|Hne]; simpl.
    + exfalso. apply Hnotin. left. exact Heq.
    + f_equal. apply IH. intros Hin. apply Hnotin. right. exact Hin.
  - f_equal. apply IH. exact Hnodup'.
Qed.

Lemma filter_keys_NoDup (f : string * V -> bool) (d : PyDict.t V) :
  NoDup (PyDict.keys d) -> NoDup (PyDict.keys (filter f d)).
Proof.
  induction d as [|[k v] d IH]; simpl; intros Hnodup; [constructor|].
  inversion Hnodup as [|? ? Hnotin Hnodup']; subst.
  destruct (f (k, v)); simpl; [|apply IH; exact Hnodup'].
  constructor; [|apply IH; exact Hnodup'].
  intros Hin. apply Hnotin. unfold PyDict.keys in *.
  apply in_map_iff in Hin. destruct Hin as (kv & Hk & Hin).
  apply filter_In in Hin. apply in_map_iff. exists kv. tauto.
Qed.

End DictionaryLaws.

(** ** The cache of the engine *)

Section EngineCache.
Context {F : Type} {num : Num F} {inf : HasInf F}.
Variable market_regime : list (Bar F) -> MarketCondition.

Lemma run_backtest_with_effect (e e' : Engine F) (strategy : Strategy F)
    (symbol : string) (start_date end_date : Z) (initial_capital : F)
    (result : BacktestResult F) :
  run_backtest_with market_regime e strategy symbol
                    start_date end_date initial_capital = Ok (e', result) ->
  historical_data e' = historical_data e
  /\ results_cache e'
     = PyDict.set (results_cache e) (strategy_attr_id strategy) result.
Proof.
  unfold run_backtest_with, bind.
  destruct (load_historical_data e symbol start_date end_date)
    as [data|err]; [|discriminate].
  destruct (backtest market_regime strategy data start_date end_date
              initial_capital) as [r|err]; [|discriminate].
  intros Hrun. injection Hrun as He Hr. subst e' result.
  split; reflexivity.
Qed.

Lemma load_keeps_frames (e e' : Engine F) (symbol : string)
    (start_date end_date : Z) :
  historical_data e' = historical_data e ->
  load_historical_data e' symbol start_date end_date
  = load_historical_data e symbol start_date end_date.
Proof. intros H. unfold load_historical_data. rewrite H. reflexivity. Qed.

Lemma load_outcome (e : Engine F) (symbol : string) (start_date end_date : Z) :
  (exists data, load_historical_data e symbol start_date end_date = Ok data)
  \/ load_historical_data e symbol start_date end_date = Raise KeyError.
Proof.
  unfold load_historical_data.
  destruct (find _ (historical_data e)) as [kv|];
    [left; eexists; reflexivity | right; reflexivity].
Qed.

(** The three outcomes of [run_backtest]. *)
Lemma run_backtest_with_outcome (e : Engine F) (strategy : Strategy F)
    (symbol : string) (start_date end_date : Z) (initial_capital : F) :
  (load_historical_data e symbol start_date end_date = Raise KeyError
   /\ run_backtest_with market_regime e strategy symbol start_date end_date
                        initial_capital = Raise KeyError)
  \/ (exists data,
        load_historical_data e symbol start_date end_date = Ok data
        /\ (List.length data < 20)%nat
        /\ run_backtest_with market_regime e strategy symbol start_date
                             end_date initial_capital = Raise IndexError)
  \/ (exists data e' result,
        load_historical_data e symbol start_date end_date = Ok data
        /\ (20 <= List.length data)%nat
        /\ run_backtest_with market_regime e strategy symbol start_date
                             end_date initial_capital = Ok (e', result)).
Proof.
  unfold run_backtest_with, bind.
  destruct (load_outcome e symbol start_date end_date) as [[data Hload]|Hload];
    rewrite Hload.
  - right.
    destruct (backtest_cases market_regime strategy data start_date end_date
                initial_capital) as [[Hshort Hraise]|[Hlong Hok]].
    + left. exists data. rewrite Hraise. repeat split; assumption.
    + right. rewrite Hok. do 3 eexists. repeat split; assumption.
  - left. split; reflexivity.
Qed.

(** X7: [run_backtest] raises [KeyError] for a period whose frame is not in
    the dictionary of the engine and [IndexError] for a frame of fewer than
    twenty rows; on a frame of twenty rows or more it returns a result.  It
    then leaves the frames as they are, stores the result in the cache under
    the strategy's own identifier, where a lookup finds it, and leaves the
    cached results of the other identifiers alone. *)
Theorem X7_run_backtest_cache :
  forall (e : Engine F) (strategy : Strategy F) (symbol : string)
         (start_date end_date : Z) (initial_capital : F),
    (load_historical_data e symbol start_date end_date = Raise KeyError ->
     run_backtest_with market_regime e strategy symbol
                       start_date end_date initial_capital = Raise KeyError)
    /\ (forall data : list (Bar F),
          load_historical_data e symbol start_date end_date = Ok data ->
          (List.length data < 20)%nat ->
          run_backtest_with market_regime e strategy symbol
                            start_date end_date initial_capital
          = Raise IndexError)
    /\ (forall data : list (Bar F),
          load_historical_data e symbol start_date end_date = Ok data ->
          (20 <= List.length data)%nat ->
          exists (e' : Engine F) (result : BacktestResult F),
            run_backtest_with market_regime e strategy symbol
                              start_date end_date initial_capital
            = Ok (e', result))
    /\ (forall (e' : Engine F) (result : BacktestResult F),
          run_backtest_with market_regime e strategy symbol
                            start_date end_date initial_capital
          = Ok (e', result) ->
          historical_data e' = historical_data e
          /\ PyDict.get (results_cache e') (strategy_attr_id strategy)
             = Some result
          /\ forall other : string,
               other <> strategy_attr_id strategy ->
               PyDict.get (results_cache e') other
               = PyDict.get (results_cache e) other).
Proof.
  intros e strategy symbol start_date end_date initial_capital.
  split; [|split; [|split]].
  - intros Hload. unfold run_backtest_with, bind. rewrite Hload. reflexivity.
  - intros data Hload Hshort.
    destruct (run_backtest_with_outcome e strategy symbol start_date end_date
                initial_capital)
      as [[Hkey _]|[(d & Hd & _ & Hrun)|(d & e' & r & Hd & Hlong & _)]].
    + congruence.
    + exact Hrun.
    + assert (d = data) by congruence. subst d. lia.
  - intros data Hload Hlong.
    destruct (run_backtest_with_outcome e strategy symbol start_date end_date
                initial_capital)
      as [[Hkey _]|[(d & Hd & Hshort & _)|(d & e' & r & Hd & _ & Hrun)]].
    + congruence.
    + assert (d = data) by congruence. subst d. lia.
    + exists e', r. exact Hrun.
  - intros e' result Hrun.
    destruct (run_backtest_with_effect e e' strategy symbol start_date
                end_date initial_capital result Hrun) as [Hframes Hcache].
    split; [exact Hframes|]. rewrite Hcache. split.
    + apply PyDict_get_set_same.
    + intros other Hother. apply PyDict_get_set_other. exact Hother.
Qed.

(** A run of the validation loop succeeds exactly when every requested
    period has a frame of twenty rows or more in the dictionary. *)
Lemma validation_runs_outcome (strategy : Strategy F) (symbol : string) :
  forall (validation_periods : list (Z * Z)) (e : Engine F)
         (results : list (BacktestResult F)),
    historical_data
      (fst (validation_runs market_regime e strategy symbol
                            validation_periods results))
    = historical_data e
    /\ ((exists rs,
           snd (validation_runs market_regime e strategy symbol
                                validation_periods results) = Ok rs
           /\ List.length rs
              = (List.length results + List.length validation_periods)%nat)
        \/ snd (validation_runs market_regime e strategy symbol
                                validation_periods results) = Raise KeyError
        \/ snd (validation_runs market_regime e strategy symbol
                                validation_periods results) = Raise IndexError)
    /\ ((exists rs,
           snd (validation_runs market_regime e strategy symbol
                                validation_periods results) = Ok rs)
        <-> Forall (fun period =>
                      exists data,
                        load_historical_data e symbol (fst period) (snd period)
                        = Ok data
                        /\ (20 <= List.length data)%nat)
                   validation_periods).
Proof.
  induction validation_periods as [|[start_date end_date] periods IH];
    intros e results.
  - cbn [validation_runs fst snd]. split; [reflexivity|]. split.
    + left. exists results. split; [reflexivity|simpl; lia].
    + split; [constructor | intros _; exists results; reflexivity].
  - cbn [validation_runs]. unfold run_backtest.
    destruct (run_backtest_with_outcome e strategy symbol start_date end_date
                (of_Z 100000))
      as [[Hkey Hrun]|[(d & Hd & Hshort & Hrun)
                      |(d & e' & result & Hd & Hlong & Hrun)]];
      rewrite Hrun.
    + cbn [fst snd]. split; [reflexivity|].
      split; [right; left; reflexivity|]. split.
      * intros (rs & Hrs). discriminate.
      * intros Hall. inversion Hall as [|? ? (data & Hdata & _) _]; subst.
        cbn [fst snd] in Hdata. congruence.
    + cbn [fst snd]. split; [reflexivity|].
      split; [right; right; reflexivity|]. split.
      * intros (rs & Hrs). discriminate.
      * intros Hall. inversion Hall as [|? ? (data & Hdata & Hlong) _]; subst.
        cbn [fst snd] in Hdata. assert (d = data) by congruence. subst d. lia.
    + destruct (run_backtest_with_effect e e' strategy symbol start_date
                  end_date (of_Z 100000) result Hrun) as [Hframes _].
      destruct (IH e' (results ++ [result])) as (Hf & Hout & Hiff).
      split; [rewrite Hf; exact Hframes|]. split.
      * destruct Hout as [(rs & Hrs & Hlen)|Hraise]; [left|right; exact Hraise].
        exists rs. split; [exact Hrs|].
        rewrite Hlen, length_app. simpl. lia.
      * rewrite Hiff. split.
        -- intros Hall. constructor.
           ++ cbn [fst snd]. exists d. split; assumption.
           ++ eapply Forall_impl; [|exact Hall].
              intros period (data & Hdata & Hlen). exists data.
              split; [|exact Hlen].
              rewrite <- Hdata. symmetry. apply load_keeps_frames.
              exact Hframes.
        -- intros Hall. inversion Hall as [|? ? _ Hrest]; subst.
           eapply Forall_impl; [|exact Hrest].
           intros period (data & Hdata & Hlen). exists data.
           split; [|exact Hlen].
           rewrite <- Hdata. apply load_keeps_frames. exact Hframes.
Qed.


End EngineCache.

(** An instance of X7: the loaded engine, run over its frame of twenty bars,
    finds the result in its cache; run over its frame of two bars, it
    raises. *)
Lemma X7_witness_loaded_engine :
  match run_backtest_with (F:=float) Examples.always_sideways
          Examples.loaded_engine Examples.alternating_strategy
          "SYM"%string 0 19 (of_Z 100000) with
  | Ok (e', result) => PyDict.get (results_cache e') "A"%string = Some result
  | Raise _ => False
  end
  /\ run_backtest_with (F:=float) Examples.always_sideways
       Examples.loaded_engine Examples.alternating_strategy
       "SYM"%string 20 21 (of_Z 100000) = Raise IndexError.
Proof.
  split.
  - destruct (run_backtest_with (F:=float) Examples.always_sideways
                Examples.loaded_engine Examples.alternating_strategy
                "SYM"%string 0 19 (of_Z 100000)) as [[e' result]|err] eqn:Hrun.
    + apply (proj2 (proj2 (proj2
               (X7_run_backtest_cache (F:=float) Examples.always_sideways
                  Examples.loaded_engine Examples.alternating_strategy
                  "SYM"%string 0 19 (of_Z 100000)))) e' result Hrun).
    + vm_compute in Hrun. discriminate.
  - apply (proj1 (proj2
             (X7_run_backtest_cache (F:=float) Examples.always_sideways
                Examples.loaded_engine Examples.alternating_strategy
                "SYM"%string 20 21 (of_Z 100000))) Examples.two_bars).
    + reflexivity.
    + vm_compute. lia.
Defined.


(* ------------------------------------------------------------------ *)
(** * Further properties of the strategy evaluator *)

Section EvaluatorHistory.
Context {F : Type} {num : Num F}.

(** X9: [evaluate_strategy] raises [ValueError] on an empty list of results.
    Otherwise the score it returns carries the identifier of the first
    result, becomes the cached latest score of that identifier and the last
    entry of its history, whose earlier entries are kept; the cached scores
    and histories of all other identifiers are untouched. *)
Theorem X9_evaluate_strategy_records_score :
  forall (ev : Evaluator F),
    StrategyEvaluator.evaluate_strategy ev [] = Raise ValueError
    /\ forall (first : BacktestResult F) (rest : list (BacktestResult F)),
         exists (ev' : Evaluator F) (score : StrategyScore F),
           StrategyEvaluator.evaluate_strategy ev (first :: rest)
           = Ok (ev', score)
           /\ StrategyEvaluator.strategy_id score
              = BacktestEngine.strategy_id first
           /\ PyDict.get (strategy_scores ev')
                         (BacktestEngine.strategy_id first) = Some score
           /\ get_strategy_history ev' (BacktestEngine.strategy_id first)
              = get_strategy_history ev (BacktestEngine.strategy_id first)
                ++ [score]
           /\ forall other : string,
                other <> BacktestEngine.strategy_id first ->
                PyDict.get (strategy_scores ev') other
                = PyDict.get (strategy_scores ev) other
                /\ get_strategy_history ev' other
                   = get_strategy_history ev other.
Proof.
  intros ev. split; [reflexivity|]. intros first rest.
  unfold StrategyEvaluator.evaluate_strategy.
  eexists. eexists. split; [reflexivity|].
  cbn [StrategyEvaluator.strategy_id strategy_scores historical_scores].
  split; [reflexivity|]. split; [apply PyDict_get_set_same|]. split.
  - unfold get_strategy_history at 1. cbn [historical_scores].
    rewrite PyDict_get_set_same. reflexivity.
  - intros other Hother. split.
    + apply PyDict_get_set_other. exact Hother.
    + unfold get_strategy_history. cbn [historical_scores].
      rewrite PyDict_get_set_other by exact Hother. reflexivity.
Qed.

End EvaluatorHistory.

(** An instance of X9: a score recorded for the identifier ["A"] leaves the
    cache of the identifier ["B"] empty. *)
Lemma X9_witness_other_identifier :
  match StrategyEvaluator.evaluate_strategy (F:=float) StrategyEvaluator.init
          [Examples.result_of "A"%string (of_Z 1) BULL] with
  | Ok (ev', _) => PyDict.get (strategy_scores ev') "B"%string = None
  | Raise _ => False
  end.
Proof.
  destruct (proj2 (X9_evaluate_strategy_records_score
                     (F:=float) StrategyEvaluator.init)
                  (Examples.result_of "A"%string (of_Z 1) BULL) [])
    as (ev1 & score1 & Hrun1 & _ & _ & _ & Hother).
  rewrite Hrun1.
  destruct (Hother "B"%string) as [Hcache _].
  - vm_compute. discriminate.
  - rewrite Hcache. reflexivity.
Defined.


(** ** Adaptability per regime *)

Lemma Rsum_constant (s : R) (l : list R) :
  Forall (fun x => x = s) l ->
  Rsum l = (s * IZR (Z.of_nat (List.length l)))%R.
Proof.
  induction 1 as [|x l Hx Hl IH]; simpl Rsum.
  - simpl. lra.
  - subst x. rewrite IH.
    change (List.length (s :: l)) with (S (List.length l)).
    rewrite Nat2Z.inj_succ, succ_IZR. lra.
Qed.

Lemma np_mean_constant (s : R) (l : list R) :
  l <> [] -> Forall (fun x => x = s) l -> np_mean (F:=R) l = s.
Proof.
  intros Hne Hall. unfold np_mean. rewrite np_sum_real.
  rewrite (Rsum_constant s l Hall). unfold of_nat. real_ops.
  assert (Hlen : (0 < IZR (Z.of_nat (List.length l)))%R).
  { apply IZR_lt. destruct l; [contradiction|simpl; lia]. }
  field. lra.
Qed.

Section Adaptability.
Context {F : Type} {num : Num F}.

(** The Sharpe ratios collected for one regime. *)
Lemma observations_empty (condition : MarketCondition)
    (results : list (BacktestResult F)) :
  (forall r, In r results ->
             ~ In condition (PyDict.values (market_conditions r))) ->
  flat_map
    (fun result =>
       map (fun _ => BacktestEngine.sharpe_ratio result)
           (filter (MarketCondition_eqb condition)
                   (PyDict.values (market_conditions result))))
    results = [].
Proof.
  induction results as [|r results IH]; intros Hnone; [reflexivity|].
  cbn [flat_map]. rewrite IH by (intros r' Hr'; apply Hnone; right; exact Hr').
  rewrite app_nil_r.
  assert (Hr : ~ In condition (PyDict.values (market_conditions r)))
    by (apply Hnone; left; reflexivity).
  induction (PyDict.values (market_conditions r)) as [|c cs IHc];
    [reflexivity|].
  cbn [filter].
  destruct (MarketCondition_eqb condition c) eqn:Heq.
  - exfalso. apply Hr. left. destruct condition, c; try discriminate; reflexivity.
  - apply IHc. intros Hin. apply Hr. right. exact Hin.
Qed.

End Adaptability.

Lemma MarketCondition_eqb_refl (c : MarketCondition) :
  MarketCondition_eqb c c = true.
Proof. destruct c; reflexivity. Qed.

Lemma adaptability_entry {F : Type} {num : Num F}
    (results : list (BacktestResult F)) (c : MarketCondition) :
  In (c,
      match flat_map
              (fun result =>
                 map (fun _ => BacktestEngine.sharpe_ratio result)
                     (filter (MarketCondition_eqb c)
                             (PyDict.values (market_conditions result))))
              results with
      | [] => of_Z 0
      | _ :: _ =>
          np_mean
            (flat_map
               (fun result =>
                  map (fun _ => BacktestEngine.sharpe_ratio result)
                      (filter (MarketCondition_eqb c)
                              (PyDict.values (market_conditions result))))
               results)
      end)
     (_analyze_market_adaptability results).
Proof.
  unfold _analyze_market_adaptability, all_conditions.
  destruct c; cbn [map In]; tauto.
Qed.

(** X11: the adaptability map has one entry per regime, in the order of the
    enumeration; a regime no result was observed under gets zero; and, over
    the reals, when all results share one Sharpe ratio every observed regime
    gets that ratio. *)
Theorem X11_market_adaptability_entries :
  (forall (F : Type) (num : Num F) (results : list (BacktestResult F)),
      map fst (_analyze_market_adaptability results) = all_conditions
      /\ forall c : MarketCondition,
           (forall r, In r results ->
                      ~ In c (PyDict.values (market_conditions r))) ->
           In (c, of_Z 0) (_analyze_market_adaptability results))
  /\ (forall (results : list (BacktestResult R)) (s : R) (c : MarketCondition),
        (forall r, In r results -> BacktestEngine.sharpe_ratio r = s) ->
        (exists r, In r results
                   /\ In c (PyDict.values (market_conditions r))) ->
        In (c, s) (_analyze_market_adaptability results)).
Proof.
  split.
  - intros F num results. split; [reflexivity|].
    intros c Hnone. pose proof (adaptability_entry results c) as Hentry.
    rewrite (observations_empty c results Hnone) in Hentry. exact Hentry.
  - intros results s c Hsame (r & Hr & Hc).
    pose proof (adaptability_entry results c) as Hentry.
    set (scores := flat_map _ results) in *.
    assert (Hall : Forall (fun x => x = s) scores).
    { apply Forall_forall. intros x Hx. unfold scores in Hx.
      apply in_flat_map in Hx. destruct Hx as (r' & Hr' & Hx).
      apply in_map_iff in Hx. destruct Hx as (_ & Hx & _).
      rewrite <- Hx. apply Hsame. exact Hr'. }
    assert (Hne : scores <> []).
    { unfold scores. intros Hnil.
      assert (Hin : In (BacktestEngine.sharpe_ratio r)
                       (flat_map
                          (fun result =>
                             map (fun _ => BacktestEngine.sharpe_ratio result)
                                 (filter (MarketCondition_eqb c)
                                    (PyDict.values (market_conditions result))))
                          results)).
      { apply in_flat_map. exists r. split; [exact Hr|].
        apply in_map_iff. exists c. split; [reflexivity|].
        apply filter_In. split; [exact Hc|apply MarketCondition_eqb_refl]. }
      rewrite Hnil in Hin. exact Hin. }
    rewrite (np_mean_constant s scores Hne Hall) in Hentry.
    destruct scores; [contradiction|exact Hentry].
Qed.

(** An instance of X11 over the reals: two results with the Sharpe ratio 2,
    one observed in a bull market and one in a bear market. *)
Lemma X11_witness_two_regimes :
  In (SIDEWAYS, 0%R)
     (_analyze_market_adaptability (F:=R)
        [Examples.result_of "A"%string 2%R BULL;
         Examples.result_of "A"%string 2%R BEAR])
  /\ In (BEAR, 2%R)
        (_analyze_market_adaptability (F:=R)
           [Examples.result_of "A"%string 2%R BULL;
            Examples.result_of "A"%string 2%R BEAR]).
Proof.
  split.
  - apply (proj2 (proj1 X11_market_adaptability_entries R R_Num
                        [Examples.result_of "A"%string 2%R BULL;
                         Examples.result_of "A"%string 2%R BEAR]) SIDEWAYS).
    intros r [Hr|[Hr|[]]]; subst r; simpl;
      intros [H|[H|[H|[]]]]; discriminate.
  - apply (proj2 X11_market_adaptability_entries
                 [Examples.result_of "A"%string 2%R BULL;
                  Examples.result_of "A"%string 2%R BEAR] 2%R BEAR).
    + intros r [Hr|[Hr|[]]]; subst r; reflexivity.
    + exists (Examples.result_of "A"%string 2%R BEAR).
      split; [right; left; reflexivity | left; reflexivity].
Defined.

(** ** Descending order *)

Section SortedDescending.
Context {A : Type}.

Lemma insert_desc_Permutation {F : Type} {num : Num F}
    (key : A -> F) (x : A) (l : list A) :
  Permutation (insert_desc key x l) (x :: l).
Proof.
  induction l as [|y l IH]; simpl; [apply Permutation_refl|].
  destruct (fltb (key x) (key y)).
  - apply perm_trans with (y :: x :: l).
    + apply perm_skip. exact IH.
    + apply perm_swap.
  - apply Permutation_refl.
Qed.

Lemma py_sorted_desc_Permutation {F : Type} {num : Num F}
    (key : A -> F) (l : list A) :
  Permutation (py_sorted_desc key l) l.
Proof.
  induction l as [|x l IH]; simpl; [apply perm_nil|].
  apply perm_trans with (x :: py_sorted_desc key l).
  - apply insert_desc_Permutation.
  - apply perm_skip. exact IH.
Qed.

Variable key : A -> R.

Lemma insert_desc_sorted (x : A) (l : list A) :
  StronglySorted (not_below key) l ->
  StronglySorted (not_below key) (insert_desc (F:=R) key x l).
Proof.
  induction 1 as [|y l Hsorted IH Hy]; simpl.
  - constructor; [constructor|constructor].
  - real_ops. unfold Rltb. destruct (Rlt_dec (key x) (key y)) as [Hlt|Hge].
    + constructor; [exact IH|].
      apply (Permutation_Forall
               (Permutation_sym (insert_desc_Permutation key x l))).
      constructor; [unfold not_below; lra | exact Hy].
    + constructor; [constructor; assumption|].
      constructor; [unfold not_below; lra|].
      eapply Forall_impl; [|exact Hy].
      intros z Hz. unfold not_below in *. lra.
Qed.

Lemma py_sorted_desc_sorted (l : list A) :
  StronglySorted (not_below key) (py_sorted_desc (F:=R) key l).
Proof.
  induction l as [|x l IH]; simpl; [constructor|].
  apply insert_desc_sorted. exact IH.
Qed.

Lemma firstn_incl (n : nat) (l : list A) (x : A) :
  In x (firstn n l) -> In x l.
Proof.
  intros Hx. rewrite <- (firstn_skipn n l). apply in_or_app. left. exact Hx.
Qed.

Lemma firstn_Forall (P : A -> Prop) (n : nat) (l : list A) :
  Forall P l -> Forall P (firstn n l).
Proof.
  intros H. apply Forall_forall. intros x Hx.
  apply (proj1 (Forall_forall P l) H). eapply firstn_incl. exact Hx.
Qed.

Lemma firstn_sorted (n : nat) (l : list A) :
  StronglySorted (not_below key) l -> StronglySorted (not_below key) (firstn n l).
Proof.
  intros H. revert n. induction H as [|y l Hsorted IH Hy]; intros [|n];
    simpl; try constructor.
  - apply IH.
  - apply firstn_Forall. exact Hy.
Qed.

End SortedDescending.

Lemma sorted_app_order {A : Type} (R : A -> A -> Prop) (l1 l2 : list A) :
  StronglySorted R (l1 ++ l2) ->
  forall a b, In a l1 -> In b l2 -> R a b.
Proof.
  induction l1 as [|x l1 IH]; simpl; intros Hsorted a b Ha Hb; [contradiction|].
  inversion Hsorted as [|? ? Hrest Hx]; subst.
  destruct Ha as [Ha|Ha].
  - subst a. apply (proj1 (Forall_forall _ _) Hx). apply in_or_app. right.
    exact Hb.
  - apply IH; assumption.
Qed.

(** X12: over the reals [get_top_strategies(n)] returns at most [n] cached
    scores, in descending order of overall score, and together with the
    scores it leaves out they are exactly the cached scores, none of those
    left out having a higher overall score than one returned. *)
Theorem X12_get_top_strategies_best :
  forall (ev : Evaluator R) (n : nat),
    (List.length (get_top_strategies ev n) <= n)%nat
    /\ StronglySorted (not_below (@overall_score R)) (get_top_strategies ev n)
    /\ exists left_out : list (StrategyScore R),
         Permutation (get_top_strategies ev n ++ left_out)
                     (PyDict.values (strategy_scores ev))
         /\ forall a b,
              In a (get_top_strategies ev n) -> In b left_out ->
              (overall_score b <= overall_score a)%R.
Proof.
  intros ev n. unfold get_top_strategies.
  set (sorted := py_sorted_desc (@overall_score R)
                   (PyDict.values (strategy_scores ev))).
  assert (Hsorted : StronglySorted (not_below (@overall_score R)) sorted)
    by apply py_sorted_desc_sorted.
  split; [apply firstn_le_length|]. split; [apply firstn_sorted; exact Hsorted|].
  exists (skipn n sorted). split.
  - rewrite firstn_skipn. apply py_sorted_desc_Permutation.
  - rewrite <- (firstn_skipn n sorted) in Hsorted.
    apply (sorted_app_order _ _ _ Hsorted).
Qed.

(** X13: over the reals [get_strategy_ranking] lists every allocated
    strategy with its weight exactly once, in descending order of weight. *)
Theorem X13_strategy_ranking_sorted :
  forall p : Portfolio R,
    Permutation (get_strategy_ranking p)
                (map (fun kv => (fst kv, weight (snd kv))) (allocations p))
    /\ StronglySorted (not_below (@snd string R)) (get_strategy_ranking p).
Proof.
  intros p. unfold get_strategy_ranking. split.
  - apply py_sorted_desc_Permutation.
  - apply py_sorted_desc_sorted.
Qed.

(** ** The status report *)

Section SystemStatusReport.
Context {F : Type} {num : Num F}.

Lemma top_entries_total (p : Portfolio F) :
  forall ranking : list (string * F),
    (forall sid w, In (sid, w) ranking -> In sid (PyDict.keys (allocations p))) ->
    exists top,
      top_entries p ranking = Ok top
      /\ List.length top = List.length ranking
      /\ Forall (fun t =>
                   exists alloc,
                     PyDict.get (allocations p) (top_id t) = Some alloc
                     /\ top_allocation t = current_allocation alloc)
                top.
Proof.
  induction ranking as [|[sid w] ranking IH]; intros Hin.
  - exists []. repeat split. constructor.
  - destruct IH as (top & Htop & Hlen & Hall).
    { intros sid' w' H. apply (Hin sid' w'). right. exact H. }
    cbn [top_entries].
    destruct (PyDict.get (allocations p) sid) as [alloc|] eqn:Hget.
    + rewrite Htop. unfold bind. eexists. split; [reflexivity|].
      split; [simpl; rewrite Hlen; reflexivity|].
      constructor; [|exact Hall].
      exists alloc. cbn [top_id top_allocation]. split; [exact Hget|reflexivity].
    + exfalso. apply PyDict_get_None_not_In in Hget. apply Hget.
      apply (Hin sid w). left. reflexivity.
Qed.

(** X14: [get_system_status] never raises: it reports the number of
    registered strategies and at most five top entries (all of them when
    fewer than five strategies are allocated), each naming an allocated
    strategy together with that strategy's current allocation. *)
Theorem X14_get_system_status_total :
  forall sys : System F,
    exists status : SystemStatus F,
      get_system_status sys = Ok status
      /\ active_strategies status = List.length (strategies sys)
      /\ portfolio_metrics status = get_portfolio_metrics (portfolio sys)
      /\ List.length (top_strategies status)
         = Nat.min 5 (List.length (allocations (portfolio sys)))
      /\ Forall (fun t =>
                   exists alloc,
                     PyDict.get (allocations (portfolio sys)) (top_id t)
                     = Some alloc
                     /\ top_allocation t = current_allocation alloc)
                (top_strategies status).
Proof.
  intros sys. unfold get_system_status.
  destruct (top_entries_total (portfolio sys)
              (firstn 5 (get_strategy_ranking (portfolio sys))))
    as (top & Htop & Hlen & Hall).
  - intros sid w Hin. apply firstn_incl in Hin.
    unfold get_strategy_ranking in Hin.
    apply (Permutation_in _ (py_sorted_desc_Permutation snd _)) in Hin.
    apply in_map_iff in Hin. destruct Hin as (kv & Hkv & Hin).
    injection Hkv as Hsid _. subst sid.
    unfold PyDict.keys. apply in_map. exact Hin.
  - rewrite Htop. unfold bind. eexists. split; [reflexivity|].
    cbn [active_strategies portfolio_metrics top_strategies].
    split; [reflexivity|]. split; [reflexivity|]. split; [|exact Hall].
    rewrite Hlen, length_firstn. unfold get_strategy_ranking.
    rewrite (Permutation_length (py_sorted_desc_Permutation snd _)).
    rewrite length_map. reflexivity.
Qed.

End SystemStatusReport.

(* ------------------------------------------------------------------ *)
(** * Further properties of the strategy portfolio *)

Section ComprehensionKeys.
Context {A V : Type}.
Variables (key : A -> string) (val : A -> V).

Lemma comprehension_fold_keys :
  forall (xs : list A) (acc : PyDict.t V),
    (forall k,
        In k (PyDict.keys
                (fold_left (fun d x => PyDict.set d (key x) (val x)) xs acc))
        <-> In k (PyDict.keys acc) \/ In k (map key xs))
    /\ (NoDup (PyDict.keys acc) ->
        NoDup (PyDict.keys
                 (fold_left (fun d x => PyDict.set d (key x) (val x)) xs acc))).
Proof.
  induction xs as [|x xs IH]; intros acc; cbn [fold_left map].
  - split; [intros k; simpl; tauto | auto].
  - destruct (IH (PyDict.set acc (key x) (val x))) as [Hin Hnodup]. split.
    + intros k. rewrite Hin, PyDict_keys_set.
      destruct (PyDict.mem acc (key x)) eqn:Hmem.
      * apply PyDict_mem_In in Hmem. simpl. split; [tauto|].
        intros [H|[H|H]]; auto. subst k. auto.
      * rewrite in_app_iff. simpl. tauto.
    + intros Hacc. apply Hnodup. apply PyDict_set_NoDup. exact Hacc.
Qed.

End ComprehensionKeys.

Section AllocatedIdentifiers.
Context {F : Type} {num : Num F}.
Local Open Scope num_scope.

Lemma optimized_weight_array_length (strategies : list (StrategyScore F)) :
  List.length (optimized_weight_array strategies) = List.length strategies.
Proof. rewrite optimized_weight_array_entries, !length_map. reflexivity. Qed.

Lemma map_fst_combine {A B : Type} (f : A -> string) :
  forall (l : list A) (l' : list B),
    List.length l' = List.length l ->
    map (fun ab => f (fst ab)) (combine l l') = map f l.
Proof.
  induction l as [|a l IH]; intros [|b l'] Hlen; simpl in *;
    try discriminate; [reflexivity|].
  f_equal. apply IH. lia.
Qed.

(** The identifiers and weights of the allocation map written by
    [update_portfolio] are the dictionary [_optimize_weights] returned. *)
Lemma update_portfolio_ids_weights (p : Portfolio F)
    (strategy_scores : list (StrategyScore F)) :
  filter (fun score => min_score_threshold p <=? overall_score score)
         strategy_scores <> [] ->
  map (fun kv => (fst kv, weight (snd kv)))
      (allocations (StrategyPortfolio.update_portfolio p strategy_scores))
  = _optimize_weights
      (filter (fun score => min_score_threshold p <=? overall_score score)
              strategy_scores).
Proof.
  intros Hvalid. unfold StrategyPortfolio.update_portfolio.
  destruct (filter _ strategy_scores) as [|first valid]; [contradiction|].
  cbn [allocations _record_portfolio_state].
  unfold PyDict.map_values. rewrite map_map. cbn [fst snd weight].
  rewrite <- (map_id (_optimize_weights (first :: valid))) at 2.
  apply map_ext. intros [k w]. reflexivity.
Qed.

(** The identifiers [update_portfolio] allocates. *)
Lemma update_portfolio_allocated :
  forall (p : Portfolio F) (strategy_scores : list (StrategyScore F)),
    filter (fun score => min_score_threshold p <=? overall_score score)
           strategy_scores <> [] ->
    NoDup (PyDict.keys
             (allocations
                (StrategyPortfolio.update_portfolio p strategy_scores)))
    /\ forall sid : string,
         In sid (PyDict.keys
                   (allocations
                      (StrategyPortfolio.update_portfolio p strategy_scores)))
         <-> exists score,
               In score strategy_scores
               /\ (min_score_threshold p <=? overall_score score) = true
               /\ StrategyEvaluator.strategy_id score = sid.
Proof.
  intros p strategy_scores Hvalid.
  assert (Hkeys : PyDict.keys
                    (allocations
                       (StrategyPortfolio.update_portfolio p strategy_scores))
                  = PyDict.keys
                      (_optimize_weights
                         (filter (fun score =>
                                    min_score_threshold p <=? overall_score score)
                                 strategy_scores))).
  { rewrite <- (update_portfolio_ids_weights p strategy_scores Hvalid).
    unfold PyDict.keys. rewrite map_map. reflexivity. }
  rewrite Hkeys. unfold _optimize_weights.
  destruct (filter _ strategy_scores) as [|first valid] eqn:Hfilter;
    [contradiction|].
  unfold PyDict.comprehension.
  destruct (comprehension_fold_keys
              (fun sw : StrategyScore F * F =>
                 StrategyEvaluator.strategy_id (fst sw)) snd
              (combine (first :: valid)
                       (optimized_weight_array (first :: valid)))
              PyDict.empty) as [Hin Hnodup].
  split; [apply Hnodup; constructor|].
  intros sid. rewrite Hin.
  rewrite (map_fst_combine (@StrategyEvaluator.strategy_id F))
    by apply optimized_weight_array_length.
  rewrite <- Hfilter. split.
  - intros [[]|Hsid]. apply in_map_iff in Hsid.
    destruct Hsid as (score & Hid & Hscore). apply filter_In in Hscore.
    exists score. tauto.
  - intros (score & Hscore & Hq & Hid). right. apply in_map_iff.
    exists score. split; [exact Hid|]. apply filter_In. tauto.
Qed.

(** X16: after an [update_portfolio] with at least one qualifying score the
    allocation map holds each identifier once, and an identifier is allocated
    exactly when some score of the list carries it and reaches the
    threshold. *)
Theorem X16_update_portfolio_allocates_qualifying :
  forall (p : Portfolio F) (strategy_scores : list (StrategyScore F)),
    filter (fun score => min_score_threshold p <=? overall_score score)
           strategy_scores <> [] ->
    NoDup (PyDict.keys
             (allocations
                (StrategyPortfolio.update_portfolio p strategy_scores)))
    /\ forall sid : string,
         In sid (PyDict.keys
                   (allocations
                      (StrategyPortfolio.update_portfolio p strategy_scores)))
         <-> exists score,
               In score strategy_scores
               /\ (min_score_threshold p <=? overall_score score) = true
               /\ StrategyEvaluator.strategy_id score = sid.
Proof. exact update_portfolio_allocated. Qed.

(** X17: [update_portfolio] is idempotent on identifiers and weights: a
    second call with the same score list leaves every allocated identifier
    and its weight as the first call set them. *)
Theorem X17_update_portfolio_idempotent_weights :
  forall (p : Portfolio F) (strategy_scores : list (StrategyScore F)),
    map (fun kv => (fst kv, weight (snd kv)))
        (allocations
           (StrategyPortfolio.update_portfolio
              (StrategyPortfolio.update_portfolio p strategy_scores)
              strategy_scores))
    = map (fun kv => (fst kv, weight (snd kv)))
          (allocations
             (StrategyPortfolio.update_portfolio p strategy_scores)).
Proof.
  intros p strategy_scores.
  destruct (filter (fun score => min_score_threshold p <=? overall_score score)
                   strategy_scores) as [|first valid] eqn:Hfilter.
  - assert (Hsame : StrategyPortfolio.update_portfolio p strategy_scores = p).
    { unfold StrategyPortfolio.update_portfolio. rewrite Hfilter. reflexivity. }
    rewrite !Hsame. reflexivity.
  - rewrite (update_portfolio_ids_weights p strategy_scores)
      by (rewrite Hfilter; discriminate).
    rewrite update_portfolio_ids_weights;
      rewrite (proj1 (min_score_threshold_kept p) strategy_scores);
      [reflexivity | rewrite Hfilter; discriminate].
Qed.

End AllocatedIdentifiers.

(** An instance of X16: of two scores with one identifier each, only the
    qualifying one is allocated. *)
Lemma X16_witness_one_qualifies :
  In "a"%string
     (PyDict.keys
        (allocations
           (StrategyPortfolio.update_portfolio (F:=float) Examples.fresh
              [Examples.score_of "a"%string (lit 5 10) (lit 1 10);
               Examples.score_of "b"%string (lit 3 10) (lit 1 10)])))
  /\ ~ In "b"%string
       (PyDict.keys
          (allocations
             (StrategyPortfolio.update_portfolio (F:=float) Examples.fresh
                [Examples.score_of "a"%string (lit 5 10) (lit 1 10);
                 Examples.score_of "b"%string (lit 3 10) (lit 1 10)]))).
Proof.
  assert (Hvalid :
            filter (fun score =>
                      (min_score_threshold Examples.fresh
                       <=? overall_score score)%num)
                   [Examples.score_of (F:=float) "a"%string (lit 5 10) (lit 1 10);
                    Examples.score_of "b"%string (lit 3 10) (lit 1 10)]
            <> []).
  { vm_compute. discriminate. }
  destruct (X16_update_portfolio_allocates_qualifying (F:=float)
              Examples.fresh _ Hvalid) as [_ Hiff].
  split.
  - apply Hiff.
    exists (Examples.score_of "a"%string (lit 5 10) (lit 1 10)).
    split; [left; reflexivity|]. split; vm_compute; reflexivity.
  - intros Hb. apply Hiff in Hb. destruct Hb as (score & Hin & Hq & Hid).
    destruct Hin as [Hs|[Hs|[]]]; subst score.
    + vm_compute in Hid. discriminate.
    + vm_compute in Hq. discriminate.
Defined.

(** ** Adjustments and the recorded states *)

Section PortfolioFrames.
Context {F : Type} {num : Num F}.
Local Open Scope num_scope.

(** X18: [adjust_allocation] never adds or removes a strategy and never
    touches the capital, the ceilings or the metrics of an allocation; on an
    identifier that is not allocated it changes nothing at all, and on an
    allocated one it appends exactly one state to the history. *)
Theorem X18_adjust_allocation_frame :
  forall (p : Portfolio F) (sid : string) (new_weight : F),
    PyDict.keys (allocations (adjust_allocation p sid new_weight))
    = PyDict.keys (allocations p)
    /\ current_capital (adjust_allocation p sid new_weight)
       = current_capital p
    /\ map (fun kv => (max_allocation (snd kv),
                       alloc_performance_metrics (snd kv)))
           (allocations (adjust_allocation p sid new_weight))
       = map (fun kv => (max_allocation (snd kv),
                         alloc_performance_metrics (snd kv)))
             (allocations p)
    /\ (PyDict.mem (allocations p) sid = false ->
        adjust_allocation p sid new_weight = p)
    /\ (PyDict.mem (allocations p) sid = true ->
        List.length (historical_performance
                       (adjust_allocation p sid new_weight))
        = S (List.length (historical_performance p))).
Proof.
  intros p sid new_weight. unfold adjust_allocation.
  destruct (PyDict.mem (allocations p) sid) eqn:Hmem; cbn [negb].
  - cbn [allocations current_capital historical_performance
         _record_portfolio_state].
    split; [|split; [reflexivity|split; [|split; [discriminate|]]]].
    + rewrite PyDict_keys_map_values.
      destruct (of_Z 0 <? _); [apply PyDict_keys_map_values|reflexivity].
    + unfold PyDict.map_values.
      destruct (of_Z 0 <? _); rewrite ?map_map; apply map_ext;
        intros [k a]; cbn [fst snd];
        destruct (String.eqb k sid); reflexivity.
    + intros _. rewrite length_app. simpl. lia.
  - repeat split; try reflexivity. discriminate.
Qed.

(** The state [_record_portfolio_state] appends shows the allocation map it
    is called on. *)
Lemma recorded_state (p : Portfolio F) :
  exists state,
    historical_performance (_record_portfolio_state p)
    = historical_performance p ++ [state]
    /\ allocations (_record_portfolio_state p) = allocations p
    /\ current_capital (_record_portfolio_state p) = current_capital p
    /\ total_capital state = current_capital p
    /\ n_strategies state = List.length (allocations p)
    /\ map (fun kv => (fst kv, state_weight (snd kv))) (state_allocations state)
       = map (fun kv => (fst kv, weight (snd kv))) (allocations p).
Proof.
  unfold _record_portfolio_state. eexists.
  cbn [historical_performance allocations current_capital].
  split; [reflexivity|].
  cbn [total_capital n_strategies state_allocations].
  repeat split. unfold PyDict.map_values. rewrite map_map. reflexivity.
Qed.

Lemma removal_keeps_history :
  forall (ks : list string) (p : Portfolio F),
    historical_performance (fold_left _handle_strategy_removal ks p)
    = historical_performance p
    /\ allocations (fold_left _handle_strategy_removal ks p) = allocations p.
Proof.
  induction ks as [|k ks IH]; intros p; [split; reflexivity|].
  cbn [fold_left]. destruct (IH (_handle_strategy_removal p k)) as [Hh Ha].
  rewrite Hh, Ha. unfold _handle_strategy_removal.
  destruct (PyDict.get (allocations p) k); split; reflexivity.
Qed.

(** X19: the history of recorded states is append-only.  [update_portfolio]
    and [adjust_allocation] keep every earlier state and append at most one;
    an appended state shows the capital, the number of strategies and the
    identifiers and weights of the allocation map as the call leaves them. *)
Theorem X19_history_is_append_only :
  forall (p p' : Portfolio F),
    ((exists strategy_scores,
         p' = StrategyPortfolio.update_portfolio p strategy_scores)
     \/ (exists sid new_weight, p' = adjust_allocation p sid new_weight)) ->
    historical_performance p' = historical_performance p
    \/ exists state,
         historical_performance p' = historical_performance p ++ [state]
         /\ total_capital state = current_capital p'
         /\ n_strategies state = List.length (allocations p')
         /\ map (fun kv => (fst kv, state_weight (snd kv)))
                (state_allocations state)
            = map (fun kv => (fst kv, weight (snd kv))) (allocations p').
Proof.
  intros p p' [(strategy_scores & Hp') | (sid & new_weight & Hp')]; subst p'.
  - unfold StrategyPortfolio.update_portfolio.
    destruct (filter _ strategy_scores) as [|first valid];
      [left; reflexivity|right].
    match goal with
    | |- context [_record_portfolio_state ?q] =>
        destruct (recorded_state q) as (state & Hh & Ha & Hc & Ht & Hn & Hw)
    end.
    exists state. rewrite Hh, Ha, Hc.
    cbn [historical_performance allocations current_capital] in *.
    rewrite (proj1 (removal_keeps_history _ p)).
    repeat split; assumption.
  - unfold adjust_allocation.
    destruct (negb (PyDict.mem (allocations p) sid));
      [left; reflexivity|right].
    match goal with
    | |- context [_record_portfolio_state ?q] =>
        destruct (recorded_state q) as (state & Hh & Ha & Hc & Ht & Hn & Hw)
    end.
    exists state. rewrite Hh, Ha, Hc.
    cbn [historical_performance allocations current_capital] in *.
    repeat split; assumption.
Qed.

End PortfolioFrames.

(** An instance of X18: adjusting the first of the three equal strategies
    appends one state; adjusting an unknown identifier changes nothing. *)
Lemma X18_witness_three_equal :
  List.length
    (historical_performance
       (adjust_allocation (F:=float) Examples.three_equal "a"%string
                          (lit 1 10))) = 2%nat
  /\ adjust_allocation (F:=float) Examples.three_equal "z"%string (lit 1 10)
     = Examples.three_equal.
Proof.
  split.
  - rewrite (proj2 (proj2 (proj2 (proj2
              (X18_adjust_allocation_frame (F:=float) Examples.three_equal
                 "a"%string (lit 1 10)))))).
    + vm_compute. reflexivity.
    + vm_compute. reflexivity.
  - apply (proj1 (proj2 (proj2 (proj2
             (X18_adjust_allocation_frame (F:=float) Examples.three_equal
                "z"%string (lit 1 10)))))).
    vm_compute. reflexivity.
Defined.

(** An instance of X19: the state appended by the update that allocates the
    three equal strategies counts three of them. *)
Lemma X19_witness_three_equal :
  historical_performance (Examples.three_equal (F:=float))
  = historical_performance Examples.fresh
  \/ exists state,
       historical_performance (Examples.three_equal (F:=float))
       = historical_performance Examples.fresh ++ [state]
       /\ total_capital state = current_capital Examples.three_equal
       /\ n_strategies state
          = List.length (allocations (Examples.three_equal (F:=float)))
       /\ map (fun kv => (fst kv, state_weight (snd kv)))
              (state_allocations state)
          = map (fun kv => (fst kv, weight (snd kv)))
                (allocations Examples.three_equal).
Proof.
  apply (X19_history_is_append_only (F:=float) Examples.fresh
           Examples.three_equal).
  left. eexists. reflexivity.
Defined.

(** ** Capital and aggregated metrics, over the reals *)

Lemma PyDict_get_entry {V : Type} (d : PyDict.t V) :
  NoDup (PyDict.keys d) ->
  forall kv, In kv d -> PyDict.get d (fst kv) = Some (snd kv).
Proof.
  induction d as [|[k v] d IH]; simpl; intros Hnodup kv Hin; [contradiction|].
  inversion Hnodup as [|? ? Hnotin Hnodup']; subst.
  destruct Hin as [Hkv|Hin].
  - subst kv. cbn [fst snd]. rewrite String.eqb_refl. reflexivity.
  - destruct (String.eqb_spec k (fst kv)) as [Heq|Hne].
    + exfalso. apply Hnotin. rewrite Heq. unfold PyDict.keys.
      apply in_map. exact Hin.
    + apply IH; assumption.
Qed.

(** Both mutators keep the identifiers of the allocation map distinct. *)
Lemma update_portfolio_keys_NoDup {F : Type} {num : Num F}
    (p : Portfolio F) (strategy_scores : list (StrategyScore F)) :
  NoDup (PyDict.keys (allocations p)) ->
  NoDup (PyDict.keys
           (allocations (StrategyPortfolio.update_portfolio p strategy_scores))).
Proof.
  intros Hnodup. unfold StrategyPortfolio.update_portfolio.
  destruct (filter _ strategy_scores) as [|first valid]; [exact Hnodup|].
  cbn [allocations _record_portfolio_state].
  rewrite PyDict_keys_map_values. unfold _optimize_weights, PyDict.comprehension.
  apply comprehension_fold_keys. constructor.
Qed.

Lemma adjust_allocation_keys {F : Type} {num : Num F}
    (p : Portfolio F) (sid : string) (new_weight : F) :
  PyDict.keys (allocations (adjust_allocation p sid new_weight))
  = PyDict.keys (allocations p).
Proof.
  unfold adjust_allocation.
  destruct (negb (PyDict.mem (allocations p) sid)); [reflexivity|].
  cbn [allocations _record_portfolio_state].
  rewrite PyDict_keys_map_values.
  destruct (fltb (of_Z 0) _); [apply PyDict_keys_map_values|reflexivity].
Qed.

Lemma removal_step (p : Portfolio R) (k : string) :
  allocations (_handle_strategy_removal p k) = allocations p
  /\ current_capital (_handle_strategy_removal p k)
     = (current_capital p
        + match PyDict.get (allocations p) k with
          | Some a => current_allocation a
          | None => 0
          end)%R.
Proof.
  unfold _handle_strategy_removal.
  destruct (PyDict.get (allocations p) k) as [a|];
    cbn [current_capital allocations]; real_ops; split;
    try reflexivity; lra.
Qed.

Lemma removal_capital :
  forall (ks : list string) (p : Portfolio R),
    current_capital (fold_left _handle_strategy_removal ks p)
    = (current_capital p
       + Rsum (map (fun k => match PyDict.get (allocations p) k with
                             | Some a => current_allocation a
                             | None => 0
                             end) ks))%R.
Proof.
  induction ks as [|k ks IH]; intros p; cbn [fold_left map].
  - unfold Rsum. simpl. lra.
  - rewrite IH. destruct (removal_step p k) as [Ha Hc].
    rewrite Ha, Hc. unfold Rsum. cbn [fold_right]. lra.
Qed.

Lemma removed_entries (f : string -> bool) (d0 : PyDict.t (StrategyAllocation R)) :
  forall d : PyDict.t (StrategyAllocation R),
    (forall kv, In kv d -> PyDict.get d0 (fst kv) = Some (snd kv)) ->
    map (fun k => match PyDict.get d0 k with
                  | Some a => current_allocation a
                  | None => 0%R
                  end) (filter f (PyDict.keys d))
    = map (fun kv => current_allocation (snd kv))
          (filter (fun kv => f (fst kv)) d).
Proof.
  induction d as [|[k a] d IH]; intros Hget; [reflexivity|].
  cbn [PyDict.keys map filter fst snd].
  assert (Hrest : map (fun k0 => match PyDict.get d0 k0 with
                                 | Some a0 => current_allocation a0
                                 | None => 0%R
                                 end) (filter f (PyDict.keys d))
                  = map (fun kv => current_allocation (snd kv))
                        (filter (fun kv => f (fst kv)) d)).
  { apply IH. intros kv Hin. apply Hget. right. exact Hin. }
  unfold PyDict.keys in Hrest.
  destruct (f k); cbn [map]; [|exact Hrest].
  pose proof (Hget (k, a) (or_introl eq_refl)) as Hk. cbn [fst snd] in Hk.
  rewrite Hk. f_equal. exact Hrest.
Qed.

(** X20: over the reals, for an allocation map with distinct identifiers,
    [update_portfolio] adds to the capital the current allocation of every
    strategy that was allocated before the call and is not after it, and
    nothing else: the capital is unchanged when no strategy drops out. *)
Theorem X20_update_portfolio_capital :
  forall (p : Portfolio R) (strategy_scores : list (StrategyScore R)),
    NoDup (PyDict.keys (allocations p)) ->
    current_capital (StrategyPortfolio.update_portfolio p strategy_scores)
    = (current_capital p
       + Rsum (map (fun kv => current_allocation (snd kv))
                   (filter
                      (fun kv =>
                         negb (PyDict.mem
                                 (allocations
                                    (StrategyPortfolio.update_portfolio
                                       p strategy_scores))
                                 (fst kv)))
                      (allocations p))))%R.
Proof.
  intros p strategy_scores Hnodup.
  unfold StrategyPortfolio.update_portfolio.
  destruct (filter _ strategy_scores) as [|first valid].
  - replace (filter _ (allocations p)) with (@nil (string * StrategyAllocation R)).
    + simpl. lra.
    + symmetry. apply filter_none. apply forallb_forall. intros kv Hin.
      rewrite negb_involutive. apply PyDict_mem_In. unfold PyDict.keys.
      apply in_map. exact Hin.
  - cbn [current_capital allocations _record_portfolio_state].
    rewrite removal_capital. f_equal. f_equal.
    apply removed_entries. apply PyDict_get_entry. exact Hnodup.
Qed.

(** An instance of X20: when the three equal strategies are replaced by a
    fourth one, their three allocations of a third of a million each are
    added to the million. *)
Lemma X20_witness_replacement :
  current_capital
    (StrategyPortfolio.update_portfolio (F:=R) Examples.three_equal
       [Examples.score_of "d"%string (lit 5 10) (lit 1 10)])
  = (current_capital (Examples.three_equal (F:=R))
     + Rsum (map (fun kv => current_allocation (snd kv))
                 (filter
                    (fun kv =>
                       negb (PyDict.mem
                               (allocations
                                  (StrategyPortfolio.update_portfolio
                                     Examples.three_equal
                                     [Examples.score_of "d"%string (lit 5 10)
                                                        (lit 1 10)]))
                               (fst kv)))
                    (allocations Examples.three_equal))))%R.
Proof.
  apply (X20_update_portfolio_capital Examples.three_equal
           [Examples.score_of "d"%string (lit 5 10) (lit 1 10)]).
  apply update_portfolio_keys_NoDup. constructor.
Defined.

Lemma py_max_list_real :
  forall (l : list R) (x : R),
    (x <= py_max_list (F:=R) x l)%R
    /\ Forall (fun y => y <= py_max_list (F:=R) x l)%R l
    /\ In (py_max_list (F:=R) x l) (x :: l).
Proof.
  unfold py_max_list.
  induction l as [|y l IH]; intros x; cbn [fold_left].
  - split; [lra|]. split; [constructor|left; reflexivity].
  - destruct (IH (py_max (F:=R) x y)) as (Hge & Hall & Hin).
    assert (Hmax : (x <= py_max (F:=R) x y)%R /\ (y <= py_max (F:=R) x y)%R
                   /\ (py_max (F:=R) x y = x \/ py_max (F:=R) x y = y)).
    { unfold py_max. real_ops. unfold Rltb.
      destruct (Rlt_dec x y); repeat split; auto; lra. }
    destruct Hmax as (Hx & Hy & Hor).
    split; [lra|]. split.
    + constructor; [lra|exact Hall].
    + destruct Hin as [Hin|Hin].
      * rewrite <- Hin. destruct Hor as [H|H]; rewrite H; simpl; auto.
      * right. right. exact Hin.
Qed.

Lemma weighted_metric_real (metric : Metrics R -> R)
    (allocs : list (StrategyAllocation R)) :
  weighted_metric metric allocs
  = Rsum (map (fun a => metric (alloc_performance_metrics a) * weight a)%R
              allocs).
Proof.
  unfold weighted_metric. real_ops.
  assert (H : forall acc,
             fold_left
               (fun (acc0 : R) (alloc : StrategyAllocation R) =>
                  (acc0 + metric (alloc_performance_metrics alloc)
                          * weight alloc)%R) allocs acc
             = (acc + Rsum (map (fun a =>
                                   metric (alloc_performance_metrics a)
                                   * weight a)%R allocs))%R).
  { induction allocs as [|a allocs IH]; intros acc; simpl.
    - lra.
    - rewrite IH. lra. }
  rewrite H. lra.
Qed.

Lemma weighted_metric_between (metric : Metrics R -> R) (lo hi : R)
    (allocs : list (StrategyAllocation R)) :
  Forall (fun a => 0 <= weight a)%R allocs ->
  Forall (fun a => lo <= metric (alloc_performance_metrics a) <= hi)%R allocs ->
  (lo * Rsum (map (@weight R) allocs)
   <= weighted_metric metric allocs
   <= hi * Rsum (map (@weight R) allocs))%R.
Proof.
  intros Hw Hm. rewrite weighted_metric_real.
  induction allocs as [|a allocs IH]; simpl.
  - lra.
  - inversion Hw as [|? ? Hwa Hwrest]; subst.
    inversion Hm as [|? ? Hma Hmrest]; subst.
    specialize (IH Hwrest Hmrest). nra.
Qed.

(** X15: [get_portfolio_metrics] returns the empty dictionary exactly for an
    empty allocation map.  Otherwise, over the reals, it counts the
    allocations, its largest weight is the weight of some allocation and no
    allocation has a larger one, and, when the weights are non-negative and
    sum to one, each aggregated metric lies between any bounds that hold for
    that metric of every allocated strategy. *)
Theorem X15_portfolio_metrics_aggregate :
  forall p : Portfolio R,
    (get_portfolio_metrics p = None <-> allocations p = [])
    /\ forall m : PortfolioMetrics R,
         get_portfolio_metrics p = Some m ->
         pm_n_strategies m = List.length (allocations p)
         /\ In (pm_max_strategy_weight m)
               (map (@weight R) (PyDict.values (allocations p)))
         /\ Forall (fun a => weight a <= pm_max_strategy_weight m)%R
                   (PyDict.values (allocations p))
         /\ (Forall (fun a => 0 <= weight a)%R (PyDict.values (allocations p)) ->
             total_weight p = 1%R ->
             forall lo hi : R,
               (Forall (fun a => lo <= m_sharpe_ratio
                                         (alloc_performance_metrics a) <= hi)%R
                       (PyDict.values (allocations p)) ->
                (lo <= pm_sharpe_ratio m <= hi)%R)
               /\ (Forall (fun a => lo <= m_max_drawdown
                                            (alloc_performance_metrics a)
                                    <= hi)%R
                          (PyDict.values (allocations p)) ->
                   (lo <= pm_max_drawdown m <= hi)%R)
               /\ (Forall (fun a => lo <= m_win_rate
                                            (alloc_performance_metrics a)
                                    <= hi)%R
                          (PyDict.values (allocations p)) ->
                   (lo <= pm_win_rate m <= hi)%R)
               /\ (Forall (fun a => lo <= m_profit_factor
                                            (alloc_performance_metrics a)
                                    <= hi)%R
                          (PyDict.values (allocations p)) ->
                   (lo <= pm_profit_factor m <= hi)%R)).
Proof.
  intros p. unfold get_portfolio_metrics, total_weight. split.
  - destruct (allocations p) as [|[k a] d]; simpl; split;
      try reflexivity; discriminate.
  - intros m.
    destruct (PyDict.values (allocations p)) as [|first rest] eqn:Hvalues;
      [discriminate|].
    intros Hm. injection Hm as Hm. subst m.
    cbn [pm_n_strategies pm_max_strategy_weight pm_sharpe_ratio
         pm_max_drawdown pm_win_rate pm_profit_factor].
    destruct (py_max_list_real (map (@weight R) rest) (weight first))
      as (Hfirst & Hrest & Hin).
    split; [reflexivity|]. split; [exact Hin|]. split.
    + constructor; [exact Hfirst|].
      apply Forall_forall. intros a Ha.
      apply (proj1 (Forall_forall _ _) Hrest). apply in_map. exact Ha.
    + intros Hw Hone lo hi. rewrite py_sum_real in Hone.
      split; [|split; [|split]]; intros Hbounds;
        match goal with
        | |- context [weighted_metric ?metric ?allocs] =>
            pose proof (weighted_metric_between metric lo hi allocs Hw Hbounds)
              as Hb
        end;
        rewrite Hone in Hb; lra.
Qed.

(** An instance of X15 over the reals: the weights 0.6 and 0.4 with a common
    drawdown of 0.1 aggregate to a drawdown of 0.1. *)
Lemma X15_witness_two_weights :
  match get_portfolio_metrics
          (Examples.portfolio_of_weights (F:=R)
             [("A"%string, lit 6 10); ("B"%string, lit 4 10)]) with
  | Some m => pm_max_drawdown m = lit 1 10
  | None => False
  end.
Proof.
  destruct (get_portfolio_metrics
              (Examples.portfolio_of_weights (F:=R)
                 [("A"%string, lit 6 10); ("B"%string, lit 4 10)]))
    as [m|] eqn:Hm.
  - destruct (proj2 (X15_portfolio_metrics_aggregate _) m Hm)
      as (_ & _ & _ & Hbounds).
    assert (Hw : Forall (fun a : StrategyAllocation R => (0 <= weight a)%R)
                   (PyDict.values
                      (allocations
                         (Examples.portfolio_of_weights (F:=R)
                            [("A"%string, lit 6 10); ("B"%string, lit 4 10)])))).
    { apply Forall_forall. intros a [Ha|[Ha|[]]]; subst a;
        cbn [weight fst snd]; unfold lit; real_ops; lra. }
    assert (Hone : total_weight
                     (Examples.portfolio_of_weights (F:=R)
                        [("A"%string, lit 6 10); ("B"%string, lit 4 10)])
                   = 1%R).
    { unfold total_weight. rewrite py_sum_real. unfold lit. simpl. real_ops.
      lra. }
    destruct (Hbounds Hw Hone (lit 1 10) (lit 1 10)) as (_ & Hdd & _).
    assert (Hrange : (lit 1 10 <= pm_max_drawdown m <= lit (F:=R) 1 10)%R).
    { apply Hdd. apply Forall_forall. intros a [Ha|[Ha|[]]]; subst a;
        cbn [alloc_performance_metrics Examples.metrics_of m_max_drawdown
             fst snd];
        lra. }
    lra.
  - apply (proj1 (X15_portfolio_metrics_aggregate _)) in Hm. discriminate.
Defined.

(* ------------------------------------------------------------------ *)
(** * Further properties of the orchestrator *)

Section Bookkeeping.
Context {F : Type} {num : Num F} {inf : HasInf F}.
Variable market_regime : list (Bar F) -> MarketCondition.
Variable polyfit_slope : list F -> F.
Local Open Scope num_scope.

Lemma PyDict_set_keys_incl {V : Type} (d : PyDict.t V) (k k0 : string) (v : V) :
  In k0 (PyDict.keys d) -> In k0 (PyDict.keys (PyDict.set d k v)).
Proof.
  intros Hin. rewrite PyDict_keys_set.
  destruct (PyDict.mem d k); [exact Hin|].
  apply in_or_app. left. exact Hin.
Qed.

Lemma well_formed_init (initial_capital : F) :
  well_formed (AdaptiveLearningSystem.init initial_capital).
Proof.
  unfold well_formed. simpl.
  repeat split; try constructor; try discriminate; contradiction.
Qed.

Lemma well_formed_add_strategy (sys sys' : System F) (sid : string)
    (constructed : exc (Strategy F)) :
  well_formed sys -> add_strategy sys sid constructed = Ok sys' ->
  well_formed sys'.
Proof.
  intros (Hreg & Hrest) Hadd. unfold add_strategy, bind in Hadd.
  destruct constructed as [strategy|err]; [|discriminate].
  injection Hadd as Hsys. subst sys'. split; [|exact Hrest].
  cbn [strategies]. apply PyDict_set_NoDup. exact Hreg.
Qed.

Lemma well_formed_evaluation (sys : System F) (e' : Engine F)
    (ev' : Evaluator F) (score : StrategyScore F)
    (results : list (BacktestResult F)) :
  well_formed sys ->
  StrategyEvaluator.evaluate_strategy (evaluator sys) results = Ok (ev', score) ->
  well_formed {| backtest_engine := e';
                 evaluator := ev';
                 portfolio := portfolio sys;
                 strategies := strategies sys |}.
Proof.
  intros (Hreg & Hcache & Halloc & Hthr & Hkey & Hsub) Heval.
  unfold StrategyEvaluator.evaluate_strategy in Heval.
  destruct results as [|first rest]; [discriminate|].
  injection Heval as Hev Hscore. subst ev' score.
  unfold well_formed. cbn [strategies evaluator portfolio strategy_scores].
  split; [exact Hreg|]. split; [apply PyDict_set_NoDup; exact Hcache|].
  split; [exact Halloc|]. split; [exact Hthr|]. split.
  - intros k s Hget.
    destruct (string_dec k (BacktestEngine.strategy_id first)) as [Heq|Hne].
    + subst k. rewrite PyDict_get_set_same in Hget.
      injection Hget as Hs. subst s.
      cbn [StrategyEvaluator.strategy_id]. split; [reflexivity|].
      unfold get_strategy_history at 1. cbn [historical_scores].
      rewrite PyDict_get_set_same. eexists. reflexivity.
    + rewrite PyDict_get_set_other in Hget by exact Hne.
      destruct (Hkey k s Hget) as [Hid (older & Hhist)].
      split; [exact Hid|]. exists older. rewrite <- Hhist.
      unfold get_strategy_history. cbn [historical_scores].
      rewrite PyDict_get_set_other by exact Hne. reflexivity.
  - intros k Hin. apply PyDict_set_keys_incl. apply Hsub. exact Hin.
Qed.

Lemma well_formed_evaluate_strategy (sys : System F) (sid symbol : string)
    (periods : list (Z * Z)) :
  well_formed sys ->
  well_formed (fst (AdaptiveLearningSystem.evaluate_strategy
                      market_regime sys sid symbol periods)).
Proof.
  intros Hwf. unfold AdaptiveLearningSystem.evaluate_strategy.
  destruct (PyDict.get (strategies sys) sid) as [strategy|]; [|exact Hwf].
  destruct (run_periods market_regime (backtest_engine sys)
              strategy symbol periods []) as [e' outcome].
  unfold bind. destruct outcome as [results|err].
  - destruct (StrategyEvaluator.evaluate_strategy (evaluator sys) results)
      as [[ev' score]|err] eqn:Heval; cbn [fst].
    + eapply well_formed_evaluation; eassumption.
    + exact Hwf.
  - cbn [fst]. exact Hwf.
Qed.

Lemma well_formed_portfolio_update (sys : System F) (p1 : Portfolio F)
    (registry : PyDict.t (Strategy F)) :
  well_formed sys ->
  NoDup (PyDict.keys registry) ->
  PyDict.keys (allocations p1) = PyDict.keys (allocations (portfolio sys)) ->
  min_score_threshold p1 = min_score_threshold (portfolio sys) ->
  well_formed
    (AdaptiveLearningSystem.update_portfolio
       {| backtest_engine := backtest_engine sys;
          evaluator := evaluator sys;
          portfolio := p1;
          strategies := registry |}).
Proof.
  intros (Hreg & Hcache & Halloc & Hthr & Hkey & Hsub) Hregistry Hkeys Hp1.
  unfold well_formed, AdaptiveLearningSystem.update_portfolio.
  cbn [strategies evaluator portfolio].
  split; [exact Hregistry|]. split; [exact Hcache|].
  split; [apply update_portfolio_keys_NoDup; rewrite Hkeys; exact Halloc|].
  split; [rewrite (proj1 (min_score_threshold_kept p1)), Hp1; exact Hthr|].
  split; [exact Hkey|].
  intros k Hin.
  set (scores := filter (fun score => lit 4 10 <=? overall_score score)
                        (PyDict.values (strategy_scores (evaluator sys)))) in *.
  destruct (filter (fun score => min_score_threshold p1 <=? overall_score score)
                   scores) as [|first valid] eqn:Hfilter.
  - unfold StrategyPortfolio.update_portfolio in Hin. rewrite Hfilter in Hin.
    rewrite Hkeys in Hin. apply Hsub. exact Hin.
  - apply (proj2 (update_portfolio_allocated p1 scores
                    ltac:(rewrite Hfilter; discriminate))) in Hin.
    destruct Hin as (score & Hscore & _ & Hid).
    unfold scores in Hscore. apply filter_In in Hscore.
    destruct Hscore as [Hscore _]. unfold PyDict.values in Hscore.
    apply in_map_iff in Hscore. destruct Hscore as ([k0 s0] & Hs0 & Hentry).
    cbn [snd] in Hs0. subst s0.
    pose proof (PyDict_get_entry _ Hcache _ Hentry) as Hget.
    cbn [fst snd] in Hget. destruct (Hkey k0 score Hget) as [Hk0 _].
    rewrite <- Hid, Hk0. unfold PyDict.keys.
    change k0 with (fst (k0, score)). apply in_map. exact Hentry.
Qed.

Lemma system_eta (sys : System F) :
  {| backtest_engine := backtest_engine sys;
     evaluator := evaluator sys;
     portfolio := portfolio sys;
     strategies := strategies sys |} = sys.
Proof. destruct sys. reflexivity. Qed.

Lemma well_formed_update_portfolio (sys : System F) :
  well_formed sys -> well_formed (AdaptiveLearningSystem.update_portfolio sys).
Proof.
  intros Hwf. rewrite <- (system_eta sys) at 1.
  apply well_formed_portfolio_update;
    [exact Hwf | apply Hwf | reflexivity | reflexivity].
Qed.

Lemma PyDict_del_NoDup {V : Type} (d : PyDict.t V) (k : string) :
  NoDup (PyDict.keys d) -> NoDup (PyDict.keys (PyDict.del d k)).
Proof.
  intros Hnodup. rewrite PyDict_del_keys by exact Hnodup.
  apply filter_keys_NoDup. exact Hnodup.
Qed.

Lemma well_formed_retire_strategy (sys : System F) (sid : string) :
  well_formed sys -> well_formed (retire_strategy sys sid).
Proof.
  intros Hwf. unfold retire_strategy.
  destruct (PyDict.mem (strategies sys) sid); [|exact Hwf].
  apply well_formed_portfolio_update.
  - exact Hwf.
  - apply PyDict_del_NoDup. apply Hwf.
  - destruct (PyDict.mem (allocations (portfolio sys)) sid);
      [apply adjust_allocation_keys|reflexivity].
  - destruct (PyDict.mem (allocations (portfolio sys)) sid);
      [apply (proj2 (min_score_threshold_kept (portfolio sys)))|reflexivity].
Qed.

Lemma well_formed_run_maintenance (sys : System F) :
  well_formed sys -> well_formed (run_maintenance polyfit_slope sys).
Proof.
  intros Hwf. unfold run_maintenance. apply well_formed_update_portfolio.
  generalize (PyDict.keys (strategies sys)). intros ks.
  revert sys Hwf. induction ks as [|k ks IH]; intros sys Hwf; [exact Hwf|].
  cbn [fold_left]. apply IH.
  destruct (should_retire_strategy polyfit_slope (evaluator sys) k).
  - apply well_formed_retire_strategy. exact Hwf.
  - exact Hwf.
Qed.

(** The bookkeeping is an invariant of the reachable states. *)
Lemma reachable_well_formed (sys : System F) :
  reachable market_regime polyfit_slope sys -> well_formed sys.
Proof.
  intros Hreach.
  induction Hreach as [initial_capital
                      | sys results ev' score _ IH Heval
                      | sys sid constructed sys' _ IH Hadd
                      | sys sid symbol periods _ IH
                      | sys _ IH
                      | sys sid _ IH
                      | sys _ IH].
  - apply well_formed_init.
  - eapply well_formed_evaluation; eassumption.
  - eapply well_formed_add_strategy; eassumption.
  - apply well_formed_evaluate_strategy. exact IH.
  - apply well_formed_update_portfolio. exact IH.
  - apply well_formed_retire_strategy. exact IH.
  - apply well_formed_run_maintenance. exact IH.
Qed.

(** X21: every state the public methods of the orchestrator and the
    evaluation method of its evaluator lead to from a fresh system keeps
    its books: each identifier occurs once in the registry, in the cache of
    latest scores and in the allocation map; the portfolio's threshold is
    0.4; a cached latest score carries the identifier it is cached under and
    is the last entry of that identifier's history; and every allocated
    identifier has a cached score. *)
Theorem X21_reachable_systems_are_well_formed :
  forall sys : System F,
    reachable market_regime polyfit_slope sys -> well_formed sys.
Proof. exact reachable_well_formed. Qed.

End Bookkeeping.

(** An instance of X21: the lifecycle example, allocated and then retired. *)
Lemma X21_witness_lifecycle :
  well_formed
    (retire_strategy (Examples.allocated (F:=float)) "A"%string).
Proof.
  apply (X21_reachable_systems_are_well_formed
           (F:=float) Examples.always_sideways (@ols_slope float _)).
  apply reach_retire_strategy. apply allocated_reachable.
Defined.

(** ** The maintenance sweep *)

Lemma filter_filter {A : Type} (f g : A -> bool) (l : list A) :
  filter f (filter g l) = filter (fun x => g x && f x) l.
Proof.
  induction l as [|x l IH]; simpl; [reflexivity|].
  destruct (g x); simpl; [destruct (f x)|]; rewrite IH; reflexivity.
Qed.

Lemma filter_absent_key {V : Type} (d : PyDict.t V) (k : string) :
  ~ In k (PyDict.keys d) ->
  filter (fun kv => negb (String.eqb (fst kv) k)) d = d.
Proof.
  induction d as [|[k' v] d IH]; simpl; intros Hnotin; [reflexivity|].
  destruct (String.eqb_spec k' k) as [Heq|Hne]; simpl.
  - exfalso. apply Hnotin. left. exact Heq.
  - f_equal. apply IH. tauto.
Qed.

Section Maintenance.
Context {F : Type} {num : Num F}.
Variable polyfit_slope : list F -> F.

Lemma retire_strategy_registry (sys : System F) (sid : string) :
  NoDup (PyDict.keys (strategies sys)) ->
  strategies (retire_strategy sys sid)
  = filter (fun kv => negb (String.eqb (fst kv) sid)) (strategies sys).
Proof.
  intros Hnodup. unfold retire_strategy.
  destruct (PyDict.mem (strategies sys) sid) eqn:Hmem.
  - cbn [strategies AdaptiveLearningSystem.update_portfolio].
    apply PyDict_del_keys. exact Hnodup.
  - symmetry. apply filter_absent_key. intros Hin.
    apply PyDict_mem_In in Hin. congruence.
Qed.

Lemma maintenance_sweep :
  forall (ks : list string) (sys : System F),
    NoDup (PyDict.keys (strategies sys)) ->
    evaluator
      (fold_left
         (fun s k =>
            if should_retire_strategy polyfit_slope (evaluator s) k
            then retire_strategy s k
            else adapt_strategy_parameters s k) ks sys)
    = evaluator sys
    /\ strategies
         (fold_left
            (fun s k =>
               if should_retire_strategy polyfit_slope (evaluator s) k
               then retire_strategy s k
               else adapt_strategy_parameters s k) ks sys)
       = filter
           (fun kv =>
              negb (existsb
                      (fun k =>
                         String.eqb (fst kv) k
                         && should_retire_strategy polyfit_slope
                              (evaluator sys) k) ks))
           (strategies sys).
Proof.
  induction ks as [|k ks IH]; intros sys Hnodup; cbn [fold_left existsb].
  - split; [reflexivity|]. symmetry. clear Hnodup.
    induction (strategies sys) as [|kv d IHd]; simpl; [reflexivity|].
    f_equal. exact IHd.
  - destruct (should_retire_strategy polyfit_slope (evaluator sys) k) eqn:Hk.
    + destruct (IH (retire_strategy sys k)) as [Hev Hreg].
      { rewrite retire_strategy_registry by exact Hnodup.
        apply filter_keys_NoDup. exact Hnodup. }
      rewrite retire_strategy_keeps_evaluator in Hev, Hreg.
      split; [exact Hev|]. rewrite Hreg.
      rewrite retire_strategy_registry by exact Hnodup.
      rewrite filter_filter. apply filter_ext. intros kv.
      rewrite andb_true_r. rewrite negb_orb. reflexivity.
    + change (adapt_strategy_parameters sys k) with sys.
      destruct (IH sys Hnodup) as [Hev Hreg]. split; [exact Hev|].
      rewrite Hreg. apply filter_ext. intros kv.
      rewrite andb_false_r. reflexivity.
Qed.

(** X22: on a registry of distinct identifiers [run_maintenance] leaves the
    evaluator untouched and removes from the registry exactly the strategies
    [should_retire_strategy] answers true for, keeping the others in their
    order. *)
Theorem X22_run_maintenance_retires :
  forall sys : System F,
    NoDup (PyDict.keys (strategies sys)) ->
    evaluator (run_maintenance polyfit_slope sys) = evaluator sys
    /\ strategies (run_maintenance polyfit_slope sys)
       = filter
           (fun kv =>
              negb (should_retire_strategy polyfit_slope (evaluator sys)
                                           (fst kv)))
           (strategies sys).
Proof.
  intros sys Hnodup. unfold run_maintenance.
  destruct (maintenance_sweep (PyDict.keys (strategies sys)) sys Hnodup)
    as [Hev Hreg].
  cbn [evaluator strategies AdaptiveLearningSystem.update_portfolio].
  split; [exact Hev|]. rewrite Hreg. apply filter_ext_in. intros kv Hin.
  f_equal.
  destruct (should_retire_strategy polyfit_slope (evaluator sys) (fst kv))
    eqn:Hretire.
  - apply existsb_exists. exists (fst kv). split.
    + unfold PyDict.keys. apply in_map. exact Hin.
    + rewrite String.eqb_refl, Hretire. reflexivity.
  - apply not_true_is_false. intros Hex. apply existsb_exists in Hex.
    destruct Hex as (k & _ & Hk). apply andb_true_iff in Hk.
    destruct Hk as [Heq Hk]. apply String.eqb_eq in Heq. subst k.
    congruence.
Qed.

End Maintenance.

(** An instance of X22 on binary64 with the closed-form slope: of the two
    registered strategies the one with the declining history is retired. *)
Lemma X22_witness_declining :
  PyDict.keys
    (strategies
       (run_maintenance (@ols_slope float _)
          (Examples.declining_system (F:=float))))
  = ["t"%string].
Proof.
  assert (Hnodup : NoDup (PyDict.keys
                            (strategies
                               (Examples.declining_system (F:=float))))).
  { simpl. constructor.
    - intros [H|[]]. discriminate.
    - constructor; [intros []|constructor]. }
  rewrite (proj2 (X22_run_maintenance_retires (@ols_slope float _)
                    (Examples.declining_system (F:=float)) Hnodup)).
  vm_compute. reflexivity.
Defined.

(** ** Recommendations without a contribution *)

Section NoContribution.
Context {F : Type} {num : Num F}.

Lemma collect_nothing (p : Portfolio F) (symbol : string) :
  forall (registry : PyDict.t (Strategy F))
         (recommendations : PyDict.t (Contribution F)) (total : F),
    (forall sid strategy,
        In (sid, strategy) registry ->
        get_allocation_for_strategy p sid = None
        \/ fneqb (generate_signal strategy (Symbol symbol)) (of_Z 0) = false) ->
    collect_recommendations p symbol registry recommendations total
    = Ok (recommendations, total).
Proof.
  induction registry as [|[sid strategy] registry IH];
    intros recommendations total Hquiet; [reflexivity|].
  cbn [collect_recommendations].
  assert (Hrest : collect_recommendations p symbol registry
                    recommendations total = Ok (recommendations, total)).
  { apply IH. intros sid' strategy' Hin. apply (Hquiet sid' strategy').
    right. exact Hin. }
  destruct (Hquiet sid strategy (or_introl eq_refl)) as [Hnone|Hzero].
  - rewrite Hnone. exact Hrest.
  - destruct (get_allocation_for_strategy p sid); [|exact Hrest].
    cbv zeta. rewrite Hzero. exact Hrest.
Qed.

(** X23: when every registered strategy either holds no allocation or
    returns a zero signal (in particular with an empty registry or an empty
    allocation map), [get_strategy_recommendation] answers HOLD with
    confidence zero and no list of contributing strategies; nothing is
    divided then. *)
Theorem X23_recommendation_without_contribution :
  forall (python_numbers : bool) (sys : System F) (symbol : string),
    (forall sid strategy,
        In (sid, strategy) (strategies sys) ->
        get_allocation_for_strategy (portfolio sys) sid = None
        \/ fneqb (generate_signal strategy (Symbol symbol)) (of_Z 0) = false) ->
    get_strategy_recommendation python_numbers sys symbol = hold_fallback.
Proof.
  intros python_numbers sys symbol Hquiet.
  unfold get_strategy_recommendation, recommendation_body.
  rewrite (collect_nothing (portfolio sys) symbol (strategies sys)
             PyDict.empty (of_Z 0) Hquiet).
  reflexivity.
Qed.

End NoContribution.

(** An instance of X23: the silent strategy, registered and allocated. *)
Lemma X23_witness_silent :
  get_strategy_recommendation (F:=float) false
    (Examples.system_with [("a"%string, Examples.silent_strategy)]
                          Examples.one_strategy) "SYM"%string
  = hold_fallback.
Proof.
  apply X23_recommendation_without_contribution.
  intros sid strategy [Hin|[]]. injection Hin as Hsid Hstrategy.
  subst sid strategy. right. vm_compute. reflexivity.
Defined.

(** ** The range of the reported confidence *)

Lemma PyDict_get_Some_In {V : Type} (d : PyDict.t V) (k : string) (v : V) :
  PyDict.get d k = Some v -> In (k, v) d.
Proof.
  induction d as [|[k' v'] d IH]; simpl; [discriminate|].
  destruct (String.eqb_spec k' k) as [Heq|Hne].
  - intros H. injection H as Hv. subst k' v'. left. reflexivity.
  - intros H. right. apply IH. exact H.
Qed.

Lemma bounded_contributions (l : list (Contribution R)) :
  Forall (fun r => (-1 <= signal r <= 1)%R /\ (0 <= confidence r <= 1)%R
                   /\ (0 <= contribution_weight r)%R) l ->
  (0 <= Rsum (map (@contribution_weight R) l))%R
  /\ (- Rsum (map (@contribution_weight R) l)
      <= Rsum (map (fun r => signal r * contribution_weight r * confidence r)%R l)
      <= Rsum (map (@contribution_weight R) l))%R.
Proof.
  induction 1 as [|r l (Hs & Hc & Hw) Hl IH]; simpl.
  - lra.
  - assert (Hsc : (-1 <= signal r * confidence r <= 1)%R) by nra.
    assert (Hterm : (- contribution_weight r
                     <= signal r * contribution_weight r * confidence r
                     <= contribution_weight r)%R) by nra.
    lra.
Qed.

Lemma quotient_within_one (n t : R) :
  (0 < t)%R -> (- t <= n <= t)%R -> (0 <= Rabs (n / t) <= 1)%R.
Proof.
  intros Ht Hn. split; [apply Rabs_pos|].
  assert (Hi : (0 < / t)%R) by (apply Rinv_0_lt_compat; exact Ht).
  assert (Hone : (t * / t = 1)%R) by (apply Rinv_r; lra).
  apply Rabs_le. unfold Rdiv. split; nra.
Qed.

(** X24: over the reals, for a registry of distinct identifiers whose
    strategies signal within [-1, 1] and report a confidence within [0, 1],
    and an allocation map without a negative weight, the confidence
    [get_strategy_recommendation] reports lies within [0, 1], as long as the
    weights of the contributing strategies, if there are any, do not sum to
    zero. *)
Theorem X24_recommendation_confidence_range :
  forall (python_numbers : bool) (sys : System R) (symbol : string),
    NoDup (PyDict.keys (strategies sys)) ->
    (RecommendationSpec.contributing sys symbol = []
     \/ RecommendationSpec.contributing_weight sys symbol <> 0%R) ->
    (forall sid strategy,
        In (sid, strategy) (strategies sys) ->
        (-1 <= generate_signal strategy (Symbol symbol) <= 1)%R
        /\ exists c, get_confidence strategy = Some c /\ (0 <= c <= 1)%R) ->
    (forall sid alloc,
        In (sid, alloc) (allocations (portfolio sys)) ->
        (0 <= weight alloc)%R) ->
    (0 <= rec_confidence
            (get_strategy_recommendation python_numbers sys symbol) <= 1)%R.
Proof.
  intros python_numbers sys symbol Hnodup Htotal Hstrategies Hweights.
  unfold RecommendationSpec.contributing_weight in Htotal.
  rewrite (contributing_of_entries sys symbol) in Htotal.
  rewrite py_sum_real, map_map in Htotal. cbn [fst snd] in Htotal.
  unfold get_strategy_recommendation, recommendation_body.
  rewrite (collect_recommendations_spec (portfolio sys) symbol
             (strategies sys) PyDict.empty (of_Z 0) Hnodup).
  2:{ intros k []. }
  2:{ apply forallb_forall. intros [sid strategy] Hin. cbn [fst snd].
      destruct (Hstrategies sid strategy Hin) as (_ & c & Hc & _).
      rewrite Hc.
      destruct (get_allocation_for_strategy (portfolio sys) sid);
        [destruct (fneqb _ _)|]; reflexivity. }
  cbn [app PyDict.empty bind].
  assert (Hbounded :
            Forall (fun r => (-1 <= signal r <= 1)%R
                             /\ (0 <= confidence r <= 1)%R
                             /\ (0 <= contribution_weight r)%R)
                   (PyDict.values
                      (flat_map
                         (RecommendationSpec.entry_contribution
                            (portfolio sys) symbol) (strategies sys)))).
  { apply Forall_forall. intros r Hr. unfold PyDict.values in Hr.
    apply in_map_iff in Hr. destruct Hr as ([k r'] & Hr' & Hin).
    cbn [snd] in Hr'. subst r'. apply in_flat_map in Hin.
    destruct Hin as ([sid strategy] & Hreg & Hentry).
    destruct (Hstrategies sid strategy Hreg) as (Hsig & c & Hc & Hcr).
    unfold RecommendationSpec.entry_contribution in Hentry.
    cbn [fst snd] in Hentry.
    destruct (get_allocation_for_strategy (portfolio sys) sid)
      as [alloc|] eqn:Halloc; [|contradiction].
    cbv zeta in Hentry.
    destruct (fneqb _ _); [|contradiction].
    destruct Hentry as [Hentry|[]]. injection Hentry as _ Hr. subst r.
    cbn [signal confidence contribution_weight]. rewrite Hc.
    split; [exact Hsig|]. split; [exact Hcr|].
    apply (Hweights sid alloc). apply PyDict_get_Some_In. exact Halloc. }
  destruct (flat_map (RecommendationSpec.entry_contribution (portfolio sys)
                        symbol) (strategies sys)) as [|kv entries].
  - cbn [rec_confidence hold_fallback]. real_ops. lra.
  - destruct (bounded_contributions _ Hbounded) as [Hnonneg Hsum].
    unfold py_div. rewrite py_sum_real.
    real_ops. rewrite fold_left_Rplus.
    unfold PyDict.values in *. rewrite map_map in Hnonneg, Hsum.
    rewrite !map_map in Hsum. rewrite map_map.
    set (total := Rsum (map (fun x => contribution_weight (snd x))
                            (kv :: entries))) in *.
    set (numerator := Rsum (map (fun x => (signal (snd x)
                                           * contribution_weight (snd x)
                                           * confidence (snd x))%R)
                                (kv :: entries))) in *.
    replace (0 + total)%R with total by lra.
    destruct Htotal as [Hnil|Hnz]; [discriminate|].
    fold total in Hnz.
    unfold Reqb. destruct (Req_dec_T total 0) as [Hzero|_]; [contradiction|].
    rewrite Bool.andb_false_r. cbn [bind rec_confidence].
    apply quotient_within_one; lra.
Qed.

(** An instance of X24: the two opinions. *)
Lemma X24_witness_two_opinions :
  (0 <= rec_confidence
          (get_strategy_recommendation (F:=R) false Examples.two_opinions
                                       "SYM"%string) <= 1)%R.
Proof.
  apply X24_recommendation_confidence_range.
  - apply two_opinions_NoDup.
  - right. unfold RecommendationSpec.contributing_weight,
      RecommendationSpec.contributing.
    cbn -[IZR Rdiv Rmult Rplus Rminus Ropp Rabs Reqb Rltb Rleb].
    unfold fneqb.
    cbn -[IZR Rdiv Rmult Rplus Rminus Ropp Rabs Reqb Rltb Rleb].
    rewrite (Reqb_neq 1 0), (Reqb_neq (-1) 0) by lra.
    cbn -[IZR Rdiv Rmult Rplus Rminus Ropp Rabs Reqb Rltb Rleb].
    unfold py_sum, lit. real_ops. cbn [map fold_left]. lra.
  - intros sid strategy [Hin|[Hin|[]]]; injection Hin as Hsid Hstrategy;
      subst sid strategy; cbn [generate_signal get_confidence
                                Examples.constant_strategy];
      (split; [real_ops; lra|]); eexists; (split; [reflexivity|]);
      unfold lit; real_ops; lra.
  - intros sid alloc [Hin|[Hin|[]]]; injection Hin as Hsid Halloc;
      subst sid alloc; cbn [weight fst snd]; unfold lit; real_ops; lra.
Defined.

(** ** Retirement is not terminal for the allocation map *)

Section Reinsertion.
Context {F : Type} {num : Num F} {inf : HasInf F}.
Variable market_regime : list (Bar F) -> MarketCondition.
Variable polyfit_slope : list F -> F.
Local Open Scope num_scope.

(** The portfolio [retire_strategy] hands to the final refresh. *)
Lemma retire_strategy_portfolio (sys : System F) (sid : string) :
  PyDict.mem (strategies sys) sid = true ->
  portfolio (retire_strategy sys sid)
  = StrategyPortfolio.update_portfolio
      (if PyDict.mem (allocations (portfolio sys)) sid
       then adjust_allocation (portfolio sys) sid (of_Z 0)
       else portfolio sys)
      (filter (fun score => lit 4 10 <=? overall_score score)
              (PyDict.values (strategy_scores (evaluator sys)))).
Proof. intros Hreg. unfold retire_strategy. rewrite Hreg. reflexivity. Qed.

(** In a reachable state, the final refresh of [retire_strategy] allocates
    the retired strategy as soon as its cached score qualifies: the
    identifiers and weights it writes are those [_optimize_weights] gives
    for the qualifying cached scores, the retired one among them. *)
Lemma retired_is_allocated (sys : System F) (sid : string)
    (score : StrategyScore F) :
  reachable market_regime polyfit_slope sys ->
  PyDict.mem (strategies sys) sid = true ->
  PyDict.get (strategy_scores (evaluator sys)) sid = Some score ->
  (lit 4 10 <=? overall_score score) = true ->
  In sid (PyDict.keys (allocations (portfolio (retire_strategy sys sid))))
  /\ map (fun kv => (fst kv, weight (snd kv)))
         (allocations (portfolio (retire_strategy sys sid)))
     = _optimize_weights
         (filter (fun score => lit 4 10 <=? overall_score score)
                 (PyDict.values (strategy_scores (evaluator sys)))).
Proof.
  intros Hreach Hreg Hget Hq.
  destruct (reachable_well_formed market_regime polyfit_slope sys Hreach)
    as (_ & _ & _ & Hthr & Hkey & _).
  destruct (Hkey sid score Hget) as [Hid _].
  rewrite (retire_strategy_portfolio sys sid Hreg).
  set (p1 := if PyDict.mem (allocations (portfolio sys)) sid
             then adjust_allocation (portfolio sys) sid (of_Z 0)
             else portfolio sys).
  set (scores := filter (fun score => lit 4 10 <=? overall_score score)
                        (PyDict.values (strategy_scores (evaluator sys)))).
  assert (Hthr1 : min_score_threshold p1 = lit 4 10).
  { unfold p1. destruct (PyDict.mem (allocations (portfolio sys)) sid);
      [|exact Hthr].
    rewrite (proj2 (min_score_threshold_kept (portfolio sys))). exact Hthr. }
  assert (Hin : In score scores).
  { unfold scores. apply filter_In. split; [|exact Hq].
    unfold PyDict.values. apply in_map_iff. exists (sid, score).
    split; [reflexivity|]. apply PyDict_get_Some_In. exact Hget. }
  assert (Hvalid : filter (fun score =>
                             min_score_threshold p1 <=? overall_score score)
                          scores <> []).
  { intros Hnil.
    assert (Hin' : In score
                      (filter (fun score =>
                                 min_score_threshold p1 <=? overall_score score)
                              scores)).
    { apply filter_In. split; [exact Hin|]. rewrite Hthr1. exact Hq. }
    rewrite Hnil in Hin'. exact Hin'. }
  split.
  - destruct (update_portfolio_allocated p1 scores Hvalid) as [_ Hiff].
    apply Hiff. exists score. split; [exact Hin|]. split; [|exact Hid].
    rewrite Hthr1. exact Hq.
  - rewrite (update_portfolio_ids_weights p1 scores Hvalid).
    rewrite Hthr1. unfold scores. rewrite filter_filter.
    f_equal. apply filter_ext. intros s.
    destruct (lit 4 10 <=? overall_score s); reflexivity.
Qed.

(** A refresh without retirement writes the same identifiers and
    weights. *)
Lemma refreshed_weights (sys : System F) (sid : string)
    (score : StrategyScore F) :
  reachable market_regime polyfit_slope sys ->
  PyDict.get (strategy_scores (evaluator sys)) sid = Some score ->
  (lit 4 10 <=? overall_score score) = true ->
  map (fun kv => (fst kv, weight (snd kv)))
      (allocations (portfolio (AdaptiveLearningSystem.update_portfolio sys)))
  = _optimize_weights
      (filter (fun score => lit 4 10 <=? overall_score score)
              (PyDict.values (strategy_scores (evaluator sys)))).
Proof.
  intros Hreach Hget Hq.
  destruct (reachable_well_formed market_regime polyfit_slope sys Hreach)
    as (_ & _ & _ & Hthr & _ & _).
  cbn [AdaptiveLearningSystem.update_portfolio portfolio].
  set (scores := filter (fun score => lit 4 10 <=? overall_score score)
                        (PyDict.values (strategy_scores (evaluator sys)))).
  assert (Hin : In score scores).
  { unfold scores. apply filter_In. split; [|exact Hq].
    unfold PyDict.values. apply in_map_iff. exists (sid, score).
    split; [reflexivity|]. apply PyDict_get_Some_In. exact Hget. }
  assert (Hvalid : filter (fun score =>
                             min_score_threshold (portfolio sys)
                             <=? overall_score score)
                          scores <> []).
  { intros Hnil.
    assert (Hin' : In score
                      (filter (fun score =>
                                 min_score_threshold (portfolio sys)
                                 <=? overall_score score)
                              scores)).
    { apply filter_In. split; [exact Hin|]. rewrite Hthr. exact Hq. }
    rewrite Hnil in Hin'. exact Hin'. }
  rewrite (update_portfolio_ids_weights (portfolio sys) scores Hvalid).
  rewrite Hthr. unfold scores. rewrite filter_filter.
  f_equal. apply filter_ext. intros s.
  destruct (lit 4 10 <=? overall_score s); reflexivity.
Qed.

End Reinsertion.

(** The lifecycle example: the strategy is registered and allocated, its
    cached score qualifies, and its retirement adds two snapshots to the
    history of the portfolio: the one of the removal, where its weight is
    zero, and the one of the refresh, where it is allocated at weight one
    again. *)
Lemma allocated_then_retired :
  exists (score : StrategyScore float)
         (removal refresh : PortfolioState float)
         (allocation : StrategyAllocation float),
    PyDict.mem (strategies (Examples.allocated (F:=float))) "A"%string = true
    /\ PyDict.get (strategy_scores (evaluator Examples.allocated)) "A"%string
       = Some score
    /\ (lit 4 10 <=? overall_score score)%num = true
    /\ PyDict.mem
         (strategies (retire_strategy Examples.allocated "A"%string))
         "A"%string = false
    /\ historical_performance
         (portfolio (retire_strategy Examples.allocated "A"%string))
       = historical_performance (portfolio Examples.allocated)
         ++ [removal; refresh]
    /\ option_map (@state_weight float)
         (PyDict.get (state_allocations removal) "A"%string)
       = Some PrimFloat.zero
    /\ PyDict.get
         (allocations
            (portfolio (retire_strategy Examples.allocated "A"%string)))
         "A"%string
       = Some allocation
    /\ (of_Z 0 <? weight allocation)%num = true
    /\ option_map (@state_weight float)
         (PyDict.get (state_allocations refresh) "A"%string)
       = Some (weight allocation).
Proof.
  do 4 eexists.
  split; [vm_compute; reflexivity|].
  split; [vm_compute; reflexivity|].
  split; [vm_compute; reflexivity|].
  split; [vm_compute; reflexivity|].
  split; [vm_compute; reflexivity|].
  split; [vm_compute; reflexivity|].
  split; [vm_compute; reflexivity|].
  split; vm_compute; reflexivity.
Qed.

(** C10: [retire_strategy] leaves the evaluator, and so the cached latest
    score of the retired strategy, untouched while it removes the strategy
    from a registry of distinct identifiers.  Hence in every reachable state
    a registered strategy whose cached overall score is at least 0.4 is in
    the allocation map after its retirement, which holds the identifiers
    and weights [_optimize_weights] gives for the qualifying cached scores,
    as after a refresh without retirement.  And there is a reachable state
    with such a strategy whose retirement adds two snapshots to the history
    of the portfolio, the one of the removal with the weight zero for the
    strategy and the one of the refresh with a positive weight for it, the
    weight of its allocation in the end, while the strategy is no longer
    registered. *)
Theorem C10_retired_strategy_is_reallocated :
  (forall (F : Type) (num : Num F) (sys : System F) (sid : string),
      evaluator (retire_strategy sys sid) = evaluator sys
      /\ (NoDup (PyDict.keys (strategies sys)) ->
          PyDict.mem (strategies (retire_strategy sys sid)) sid = false))
  /\ (forall (F : Type) (num : Num F) (inf : HasInf F)
             (market_regime : list (Bar F) -> MarketCondition)
             (polyfit_slope : list F -> F)
             (sys : System F) (sid : string) (score : StrategyScore F),
        reachable market_regime polyfit_slope sys ->
        PyDict.mem (strategies sys) sid = true ->
        PyDict.get (strategy_scores (evaluator sys)) sid = Some score ->
        (lit 4 10 <=? overall_score score)%num = true ->
        PyDict.mem (strategies (retire_strategy sys sid)) sid = false
        /\ PyDict.get (strategy_scores (evaluator (retire_strategy sys sid)))
                      sid = Some score
        /\ In sid (PyDict.keys
                     (allocations (portfolio (retire_strategy sys sid))))
        /\ map (fun kv => (fst kv, weight (snd kv)))
               (allocations (portfolio (retire_strategy sys sid)))
           = _optimize_weights
               (filter (fun score => (lit 4 10 <=? overall_score score)%num)
                       (PyDict.values (strategy_scores (evaluator sys))))
        /\ map (fun kv => (fst kv, weight (snd kv)))
               (allocations (portfolio (retire_strategy sys sid)))
           = map (fun kv => (fst kv, weight (snd kv)))
                 (allocations
                    (portfolio (AdaptiveLearningSystem.update_portfolio sys))))
  /\ (forall (market_regime : list (Bar float) -> MarketCondition)
             (polyfit_slope : list float -> float),
        exists (sys : System float) (sid : string)
               (score : StrategyScore float)
               (removal refresh : PortfolioState float)
               (allocation : StrategyAllocation float),
          reachable market_regime polyfit_slope sys
          /\ PyDict.mem (strategies sys) sid = true
          /\ PyDict.get (strategy_scores (evaluator sys)) sid = Some score
          /\ (lit 4 10 <=? overall_score score)%num = true
          /\ PyDict.mem (strategies (retire_strategy sys sid)) sid = false
          /\ historical_performance (portfolio (retire_strategy sys sid))
             = historical_performance (portfolio sys) ++ [removal; refresh]
          /\ option_map (@state_weight float)
               (PyDict.get (state_allocations removal) sid)
             = Some PrimFloat.zero
          /\ PyDict.get (allocations (portfolio (retire_strategy sys sid))) sid
             = Some allocation
          /\ (of_Z 0 <? weight allocation)%num = true
          /\ option_map (@state_weight float)
               (PyDict.get (state_allocations refresh) sid)
             = Some (weight allocation)).
Proof.
  split; [|split].
  - intros F num sys sid. split.
    + apply retire_strategy_keeps_evaluator.
    + apply retire_strategy_unregisters.
  - intros F num inf market_regime polyfit_slope sys sid score
           Hreach Hreg Hget Hq.
    split; [|split].
    + apply retire_strategy_unregisters.
      apply (reachable_well_formed market_regime polyfit_slope sys Hreach).
    + rewrite retire_strategy_keeps_evaluator. exact Hget.
    + destruct (retired_is_allocated market_regime polyfit_slope sys sid
                  score Hreach Hreg Hget Hq) as [Hin Hweights].
      split; [exact Hin|]. split; [exact Hweights|].
      rewrite Hweights. symmetry.
      apply (refreshed_weights market_regime polyfit_slope sys sid score);
        assumption.
  - intros market_regime polyfit_slope.
    destruct allocated_then_retired
      as (score & removal & refresh & allocation & H).
    exists Examples.allocated, "A"%string, score, removal, refresh,
      allocation.
    split; [apply allocated_reachable | exact H].
Qed.

(** An instance of C10: the lifecycle example is reachable, its strategy
    ["A"] is registered with a qualifying cached score, and its retirement
    leaves it in the allocation map. *)
Lemma C10_witness_lifecycle :
  In "A"%string
     (PyDict.keys
        (allocations
           (portfolio
              (retire_strategy (Examples.allocated (F:=float)) "A"%string)))).
Proof.
  refine (proj1 (proj2 (proj2
    (proj1 (proj2 C10_retired_strategy_is_reallocated) float float_Num _
       Examples.always_sideways (@ols_slope float _)
       Examples.allocated "A"%string _ _ _ _ _)))).
  - apply allocated_reachable.
  - vm_compute. reflexivity.
  - vm_compute. reflexivity.
  - vm_compute. reflexivity.
Defined.

(** ** The engine of the orchestrator *)

Section FreshEngine.
Context {F : Type} {num : Num F} {inf : HasInf F}.
Variable market_regime : list (Bar F) -> MarketCondition.
Variable polyfit_slope : list F -> F.
Local Open Scope num_scope.

(** Without frames the first backtest of the loop raises [KeyError]. *)
Lemma run_periods_without_frames (e : Engine F) (strategy : Strategy F)
    (symbol : string) (periods : list (Z * Z))
    (results : list (BacktestResult F)) :
  historical_data e = [] ->
  run_periods market_regime e strategy symbol periods results
  = (e, match periods with
        | [] => Ok results
        | _ :: _ => Raise KeyError
        end).
Proof.
  intros Hframes. destruct periods as [|[start_date end_date] periods'].
  - reflexivity.
  - cbn [run_periods].
    unfold run_backtest, run_backtest_with, load_historical_data, bind.
    rewrite Hframes. reflexivity.
Qed.

(** Without frames [evaluate_strategy] answers [False] and changes
    nothing. *)
Lemma evaluate_strategy_without_frames (sys : System F) (sid symbol : string)
    (periods : list (Z * Z)) :
  historical_data (backtest_engine sys) = [] ->
  AdaptiveLearningSystem.evaluate_strategy market_regime sys sid symbol periods
  = (sys, false).
Proof.
  intros Hframes. unfold AdaptiveLearningSystem.evaluate_strategy.
  destruct (PyDict.get (strategies sys) sid) as [strategy|]; [|reflexivity].
  rewrite (run_periods_without_frames _ strategy symbol periods [] Hframes).
  destruct periods as [|period periods']; cbn [bind];
    unfold StrategyEvaluator.evaluate_strategy;
    rewrite system_eta; reflexivity.
Qed.

Lemma retire_strategy_engine (sys : System F) (sid : string) :
  backtest_engine (retire_strategy sys sid) = backtest_engine sys.
Proof.
  unfold retire_strategy.
  destruct (PyDict.mem (strategies sys) sid); reflexivity.
Qed.

Lemma run_maintenance_engine (sys : System F) :
  backtest_engine (run_maintenance polyfit_slope sys) = backtest_engine sys.
Proof.
  unfold run_maintenance.
  cbn [AdaptiveLearningSystem.update_portfolio backtest_engine].
  generalize (PyDict.keys (strategies sys)). intros ks.
  revert sys. induction ks as [|k ks IH]; intros sys; [reflexivity|].
  cbn [fold_left]. rewrite IH.
  destruct (should_retire_strategy polyfit_slope (evaluator sys) k).
  - apply retire_strategy_engine.
  - reflexivity.
Qed.

(** X25: [load_historical_data] has no loader and no method fills the
    dictionary of frames: in every state reached from a fresh system the
    engine holds no frame, and the orchestrator's [evaluate_strategy]
    answers [False] and leaves the system as it is, whatever the strategy,
    the symbol and the periods. *)
Theorem X25_fresh_engine_never_evaluates :
  forall sys : System F,
    reachable market_regime polyfit_slope sys ->
    historical_data (backtest_engine sys) = []
    /\ forall (sid symbol : string) (periods : list (Z * Z)),
         AdaptiveLearningSystem.evaluate_strategy market_regime sys sid symbol
                                                  periods
         = (sys, false).
Proof.
  intros sys Hreach.
  assert (Hframes : historical_data (backtest_engine sys) = []).
  { induction Hreach as [initial_capital
                        | sys results ev' score _ IH Heval
                        | sys sid constructed sys' _ IH Hadd
                        | sys sid symbol periods _ IH
                        | sys _ IH
                        | sys sid _ IH
                        | sys _ IH].
    - reflexivity.
    - exact IH.
    - unfold add_strategy, bind in Hadd.
      destruct constructed as [strategy|err]; [|discriminate].
      injection Hadd as Hsys. subst sys'. exact IH.
    - rewrite (evaluate_strategy_without_frames sys sid symbol periods IH).
      exact IH.
    - exact IH.
    - rewrite retire_strategy_engine. exact IH.
    - rewrite run_maintenance_engine. exact IH. }
  split; [exact Hframes|].
  intros sid symbol periods.
  apply evaluate_strategy_without_frames. exact Hframes.
Qed.

End FreshEngine.

(** An instance of X25: the lifecycle example cannot backtest its
    strategy. *)
Lemma X25_witness_lifecycle :
  AdaptiveLearningSystem.evaluate_strategy (F:=float) Examples.always_sideways
    Examples.allocated "A"%string "SYM"%string [(0%Z, 19%Z)]
  = (Examples.allocated, false).
Proof.
  apply (proj2 (X25_fresh_engine_never_evaluates (F:=float)
                  Examples.always_sideways (@ols_slope float _)
                  Examples.allocated
                  (allocated_reachable _ _))).
Defined.

(** ** Scores of strategies without a losing trade *)

(** Adding a NaN gives a NaN. *)
Lemma float_add_nan (x : float) : (x + PrimFloat.nan)%float = PrimFloat.nan.
Proof.
  apply Prim2SF_inj. rewrite add_spec.
  replace (Prim2SF PrimFloat.nan) with SpecFloat.S754_nan
    by (vm_compute; reflexivity).
  unfold SF64add, SpecFloat.SFadd. destruct (Prim2SF x); reflexivity.
Qed.

(** The deviation of two infinite values is a NaN, and so is the
    consistency of two results that carry them as profit factors. *)
Lemma consistency_of_infinite_profit_factors (r1 r2 : BacktestResult float) :
  BacktestEngine.profit_factor r1 = PrimFloat.infinity ->
  BacktestEngine.profit_factor r2 = PrimFloat.infinity ->
  _calculate_consistency [r1; r2] = PrimFloat.nan.
Proof.
  intros H1 H2. unfold _calculate_consistency.
  cbn [List.length Nat.ltb Nat.leb map]. rewrite H1, H2.
  replace (np_std (F:=float) 0 [PrimFloat.infinity; PrimFloat.infinity])
    with PrimFloat.nan by (vm_compute; reflexivity).
  unfold np_mean, np_sum. cbn [fold_left List.length].
  replace (of_Z 1 / (of_Z 1 + PrimFloat.nan))%num with PrimFloat.nan
    by (vm_compute; reflexivity).
  cbn [fadd float_Num]. rewrite float_add_nan.
  vm_compute. reflexivity.
Qed.

(** X26: on binary64, two results whose profit factors are both plus
    infinity, the value the engine reports for a run without a losing
    trade, have a NaN consistency; the score the evaluator builds from them
    has a NaN overall score, which does not reach the threshold 0.4. *)
Theorem X26_score_of_infinite_profit_factors :
  forall (ev : Evaluator float) (r1 r2 : BacktestResult float),
    BacktestEngine.profit_factor r1 = PrimFloat.infinity ->
    BacktestEngine.profit_factor r2 = PrimFloat.infinity ->
    _calculate_consistency [r1; r2] = PrimFloat.nan
    /\ exists (ev' : Evaluator float) (score : StrategyScore float),
         StrategyEvaluator.evaluate_strategy ev [r1; r2] = Ok (ev', score)
         /\ consistency_score score = PrimFloat.nan
         /\ overall_score score = PrimFloat.nan
         /\ (lit 4 10 <=? overall_score score)%num = false.
Proof.
  intros ev r1 r2 H1 H2.
  pose proof (consistency_of_infinite_profit_factors r1 r2 H1 H2) as Hnan.
  split; [exact Hnan|].
  unfold StrategyEvaluator.evaluate_strategy. do 2 eexists.
  split; [reflexivity|].
  cbn [consistency_score overall_score]. rewrite Hnan.
  assert (Hoverall : forall metrics adaptability,
             _calculate_overall_score (F:=float) metrics adaptability
                                      PrimFloat.nan = PrimFloat.nan).
  { intros metrics adaptability. unfold _calculate_overall_score.
    replace (PrimFloat.nan * lit 2 10)%num with PrimFloat.nan
      by (vm_compute; reflexivity).
    cbn [fadd float_Num]. apply float_add_nan. }
  rewrite Hoverall. split; [reflexivity|]. split; [reflexivity|].
  vm_compute. reflexivity.
Qed.

(** An instance of X26: two runs of the silent strategy over the twenty
    rising bars, which close no trade. *)
Lemma X26_witness_silent_runs :
  match backtest (F:=float) Examples.always_sideways Examples.silent_strategy
          Examples.rising_bars 0 19 (of_Z 100000) with
  | Ok result =>
      exists (ev' : Evaluator float) (score : StrategyScore float),
        StrategyEvaluator.evaluate_strategy StrategyEvaluator.init
          [result; result] = Ok (ev', score)
        /\ overall_score score = PrimFloat.nan
  | Raise _ => False
  end.
Proof.
  destruct (backtest (F:=float) Examples.always_sideways
              Examples.silent_strategy Examples.rising_bars 0 19
              (of_Z 100000)) as [result|err] eqn:Hrun.
  - assert (Hpf : BacktestEngine.profit_factor result = PrimFloat.infinity).
    { vm_compute in Hrun. injection Hrun as Hres. subst result. reflexivity. }
    destruct (proj2 (X26_score_of_infinite_profit_factors
                       StrategyEvaluator.init result result Hpf Hpf))
      as (ev' & score & Heval & _ & Hoverall & _).
    exists ev', score. split; [exact Heval | exact Hoverall].
  - vm_compute in Hrun. discriminate.
Defined.
